(** * MariaDB cluster review: the analysis engine, embedded and verified

  A shallow embedding of the rule-based analyzers of the repository
  (src/utils/metrics.py, src/models/input.py, src/models/output.py,
  src/analyzers/*.py, src/services/review_service.py), followed by the
  theorems that settle the properties stated about them.

  Conventions of the embedding.
  - A Python [dict] with string keys is a [gmap string _].
  - The values held by the status and variable maps are [pyval]: [None],
    an [int] or a [str] (what a JSON-decoded SHOW GLOBAL STATUS gives).
  - A Python [float] is a [pyfloat]: an exact rational, or one of the
    three special values inf, -inf and nan.  Rounding to binary64 and
    the binary64 range are not modelled.
  - Code that can raise returns in the [result] monad; [try]/[except]
    is [catch].
  - An f-string is kept as a [text]: the list of its literal pieces and
    of the values formatted into it. *)

From Stdlib Require Import ZArith QArith Qround Qminmax Qabs Ascii String List Bool Lia.
From Stdlib Require Import DecimalString.
From stdpp Require Import base option gmap strings.

Local Open Scope Z_scope.
Local Open Scope string_scope.
Local Open Scope list_scope.

(** ** Python values and builtins *)

Module Py.

Inductive exn := ValueError | TypeError | OverflowError | ZeroDivisionError.

Inductive result (A : Type) :=
| Ok (a : A)
| Raise (e : exn).
Arguments Ok {A} a.
Arguments Raise {A} e.

Definition bind {A B} (m : result A) (k : A -> result B) : result B :=
  match m with
  | Ok a => k a
  | Raise e => Raise e
  end.

(** [try: m  except (ValueError, TypeError): handler] *)
Definition catch {A} (m : result A) (handler : result A) : result A :=
  match m with
  | Raise ValueError | Raise TypeError => handler
  | _ => m
  end.

Definition raises {A} (m : result A) : bool :=
  match m with Ok _ => false | Raise _ => true end.

Inductive pyfloat :=
| FFin (q : Q)
| FInf
| FNInf
| FNaN.

Inductive pyval :=
| VNone
| VInt (z : Z)
| VStr (s : string).

(** *** Comparison of floats (every comparison with nan is false) *)

Definition flt (a b : pyfloat) : bool :=
  match a, b with
  | FNaN, _ | _, FNaN => false
  | FFin x, FFin y => negb (Qle_bool y x)
  | FNInf, FNInf => false
  | FNInf, _ => true
  | _, FInf => match a with FInf => false | _ => true end
  | _, _ => false
  end.

Definition fle (a b : pyfloat) : bool :=
  match a, b with
  | FNaN, _ | _, FNaN => false
  | FFin x, FFin y => Qle_bool x y
  | FNInf, _ => true
  | _, FInf => true
  | _, _ => false
  end.

Definition fgt (a b : pyfloat) : bool := flt b a.
Definition fge (a b : pyfloat) : bool := fle b a.

Definition feq (a b : pyfloat) : bool :=
  match a, b with
  | FFin x, FFin y => Qeq_bool x y
  | FInf, FInf | FNInf, FNInf => true
  | _, _ => false
  end.

Definition is_nan (a : pyfloat) : bool :=
  match a with FNaN => true | _ => false end.

(** *** Arithmetic of floats *)

Definition fsign (q : Q) : comparison := (Qnum q ?= 0)%Z.

Definition fneg (a : pyfloat) : pyfloat :=
  match a with
  | FFin q => FFin (- q)
  | FInf => FNInf
  | FNInf => FInf
  | FNaN => FNaN
  end.

Definition fadd (a b : pyfloat) : pyfloat :=
  match a, b with
  | FNaN, _ | _, FNaN => FNaN
  | FFin x, FFin y => FFin (x + y)
  | FInf, FNInf | FNInf, FInf => FNaN
  | FInf, _ | _, FInf => FInf
  | FNInf, _ | _, FNInf => FNInf
  end.

Definition fsub (a b : pyfloat) : pyfloat := fadd a (fneg b).

Definition finf_signed (c : comparison) : pyfloat :=
  match c with Gt => FInf | Lt => FNInf | Eq => FNaN end.

Definition fsign_of (a : pyfloat) : comparison :=
  match a with
  | FFin q => fsign q
  | FInf => Gt
  | FNInf => Lt
  | FNaN => Eq
  end.

Definition cmp_mul (c d : comparison) : comparison :=
  match c, d with
  | Eq, _ | _, Eq => Eq
  | Gt, Gt | Lt, Lt => Gt
  | _, _ => Lt
  end.

Definition fmul (a b : pyfloat) : pyfloat :=
  match a, b with
  | FNaN, _ | _, FNaN => FNaN
  | FFin x, FFin y => FFin (x * y)
  | _, _ => finf_signed (cmp_mul (fsign_of a) (fsign_of b))
  end.

(** [a / b] on floats: division by zero raises. *)
Definition fdiv (a b : pyfloat) : result pyfloat :=
  match b with
  | FNaN => Ok FNaN
  | FFin y =>
      if Qeq_bool y 0 then Raise ZeroDivisionError
      else match a with
           | FFin x => Ok (FFin (x / y))
           | FNaN => Ok FNaN
           | _ => Ok (finf_signed (cmp_mul (fsign_of a) (fsign y)))
           end
  | _ => match a with
         | FFin _ => Ok (FFin 0)
         | _ => Ok FNaN
         end
  end.

Definition float_of_Z (z : Z) : pyfloat := FFin (inject_Z z).

(** [a / b] on ints (true division). *)
Definition truediv (a b : Z) : result pyfloat :=
  if (b =? 0)%Z then Raise ZeroDivisionError
  else Ok (FFin (inject_Z a / inject_Z b)).

(** [int(f)] for a float [f]: truncation towards zero. *)
Definition int_of_float (f : pyfloat) : result Z :=
  match f with
  | FFin q => Ok (Z.quot (Qnum q) (Zpos (Qden q)))
  | FNaN => Raise ValueError
  | _ => Raise OverflowError
  end.

(** *** Strings *)

Definition is_upper (c : ascii) : bool :=
  let n := nat_of_ascii c in (65 <=? n)%nat && (n <=? 90)%nat.
Definition is_lower (c : ascii) : bool :=
  let n := nat_of_ascii c in (97 <=? n)%nat && (n <=? 122)%nat.
Definition is_digit (c : ascii) : bool :=
  let n := nat_of_ascii c in (48 <=? n)%nat && (n <=? 57)%nat.
(** the ASCII characters for which [str.isspace] holds *)
Definition is_space (c : ascii) : bool :=
  let n := nat_of_ascii c in
  ((9 <=? n)%nat && (n <=? 13)%nat) || ((28 <=? n)%nat && (n <=? 32)%nat).

Definition to_upper (c : ascii) : ascii :=
  if is_lower c then ascii_of_nat (nat_of_ascii c - 32) else c.
Definition to_lower (c : ascii) : ascii :=
  if is_upper c then ascii_of_nat (nat_of_ascii c + 32) else c.

Fixpoint map_string (f : ascii -> ascii) (s : string) : string :=
  match s with
  | EmptyString => EmptyString
  | String c s' => String (f c) (map_string f s')
  end.

Definition upper (s : string) : string := map_string to_upper s.
Definition lower (s : string) : string := map_string to_lower s.

Fixpoint lstrip (s : string) : string :=
  match s with
  | String c s' => if is_space c then lstrip s' else s
  | EmptyString => EmptyString
  end.

Fixpoint rstrip (s : string) : string :=
  match s with
  | EmptyString => EmptyString
  | String c s' =>
      match rstrip s' with
      | EmptyString => if is_space c then EmptyString else String c EmptyString
      | r => String c r
      end
  end.

Definition strip (s : string) : string := rstrip (lstrip s).

Definition str_eqb (a b : string) : bool := String.eqb a b.

(** [needle in hay] *)
Fixpoint contains (needle hay : string) : bool :=
  String.prefix needle hay ||
  match hay with
  | EmptyString => false
  | String _ hay' => contains needle hay'
  end.

(** [s.endswith(c)] for a one-character suffix, and [s[:-1]] *)
Fixpoint endswith_char (c : ascii) (s : string) : bool :=
  match s with
  | EmptyString => false
  | String d EmptyString => Ascii.eqb c d
  | String _ s' => endswith_char c s'
  end.

Fixpoint drop_last (s : string) : string :=
  match s with
  | EmptyString => EmptyString
  | String _ EmptyString => EmptyString
  | String c s' => String c (drop_last s')
  end.

(** [s[:n]] *)
Fixpoint take (n : nat) (s : string) : string :=
  match n, s with
  | O, _ => EmptyString
  | _, EmptyString => EmptyString
  | S n', String c s' => String c (take n' s')
  end.

Definition string_of_Z (z : Z) : string :=
  NilZero.string_of_int (Z.to_int z).

(** *** Parsing numbers: [int(s)] and [float(s)] on a [str] *)

Definition digit_val (c : ascii) : Z := Z.of_nat (nat_of_ascii c - 48).

(** A run of digits in which single underscores may separate digits:
    the accumulated value, the number of digits read and the rest.
    [None] when the input does not start with a digit. *)
Fixpoint digits_from (acc : Z) (cnt : nat) (s : string) : Z * nat * string :=
  match s with
  | String c s' =>
      if is_digit c then digits_from (acc * 10 + digit_val c) (S cnt) s'
      else if Ascii.eqb c "_" then
        match s' with
        | String d _ =>
            if is_digit d then digits_from acc cnt s' else (acc, cnt, s)
        | EmptyString => (acc, cnt, s)
        end
      else (acc, cnt, s)
  | EmptyString => (acc, cnt, s)
  end.

Definition digit_run (s : string) : option (Z * nat * string) :=
  match s with
  | String c _ => if is_digit c then Some (digits_from 0 0 s) else None
  | EmptyString => None
  end.

Definition split_sign (s : string) : bool * string :=
  match s with
  | String c s' =>
      if Ascii.eqb c "-" then (true, s')
      else if Ascii.eqb c "+" then (false, s')
      else (false, s)
  | EmptyString => (false, s)
  end.

Definition apply_sign (neg : bool) (z : Z) : Z := if neg then - z else z.

(** [int(s)]: optional blanks, optional sign, decimal digits. *)
Definition int_of_string (s : string) : result Z :=
  let '(neg, body) := split_sign (strip s) in
  match digit_run body with
  | Some (v, _, EmptyString) => Ok (apply_sign neg v)
  | _ => Raise ValueError
  end.

Definition pow10 (n : nat) : Z := 10 ^ Z.of_nat n.

(** the rational [m * 10^e] *)
Definition scale10 (m e : Z) : Q :=
  if (0 <=? e)%Z then inject_Z (m * 10 ^ e)
  else Qmake m (Z.to_pos (10 ^ (- e))).

(** the exponent part [e[+-]digits], when present *)
Definition exponent_part (s : string) : option (Z * string) :=
  match s with
  | String c s' =>
      if Ascii.eqb (to_lower c) "e" then
        let '(neg, body) := split_sign s' in
        match digit_run body with
        | Some (v, _, rest) => Some (apply_sign neg v, rest)
        | None => None
        end
      else Some (0, s)
  | EmptyString => Some (0, s)
  end.

(** the decimal forms [12], [12.], [12.5], [.5], each with an optional
    exponent *)
Definition decimal_of_string (s : string) : option Q :=
  let ip := digit_run s in
  let '(iv, icnt, rest) :=
    match ip with Some r => r | None => (0, O, s) end in
  let '(fv, fcnt, rest') :=
    match rest with
    | String c r =>
        if Ascii.eqb c "." then
          match digit_run r with
          | Some (v, n, r') => (v, n, r')
          | None => (0, O, r)
          end
        else (0, O, rest)
    | EmptyString => (0, O, rest)
    end in
  if (Nat.eqb icnt 0 && Nat.eqb fcnt 0)%bool then None
  else
    match exponent_part rest' with
    | Some (e, EmptyString) =>
        Some (scale10 (iv * pow10 fcnt + fv) (e - Z.of_nat fcnt))
    | _ => None
    end.

(** [float(s)] *)
Definition float_of_string (s : string) : result pyfloat :=
  let '(neg, body) := split_sign (strip s) in
  let low := lower body in
  if str_eqb low "inf" || str_eqb low "infinity" then
    Ok (if neg then FNInf else FInf)
  else if str_eqb low "nan" then Ok FNaN
  else
    match decimal_of_string body with
    | Some q => Ok (FFin (if neg then - q else q))
    | None => Raise ValueError
    end.

(** *** Builtins on values *)

(** [int(v)] *)
Definition py_int (v : pyval) : result Z :=
  match v with
  | VNone => Raise TypeError
  | VInt z => Ok z
  | VStr s => int_of_string s
  end.

(** [float(v)] *)
Definition py_float (v : pyval) : result pyfloat :=
  match v with
  | VNone => Raise TypeError
  | VInt z => Ok (float_of_Z z)
  | VStr s => float_of_string s
  end.

(** [str(v)] *)
Definition py_str (v : pyval) : string :=
  match v with
  | VNone => "None"
  | VInt z => string_of_Z z
  | VStr s => s
  end.

(** truth value of [v] *)
Definition truthy (v : pyval) : bool :=
  match v with
  | VNone => false
  | VInt z => negb (z =? 0)%Z
  | VStr s => negb (str_eqb s "")
  end.

(** [v == w] *)
Definition val_eqb (v w : pyval) : bool :=
  match v, w with
  | VNone, VNone => true
  | VInt a, VInt b => (a =? b)%Z
  | VStr a, VStr b => str_eqb a b
  | _, _ => false
  end.

(** [d.get(key, default)] *)
Definition dict_get (d : gmap string pyval) (key : string) (default : pyval) : pyval :=
  match d !! key with
  | Some v => v
  | None => default
  end.

(** the pieces of an f-string; [PFixed n f] is [f] formatted with [n]
    decimals, [PDicts l] the [str] of a list of dicts of strings *)
Inductive piece :=
| PStr (s : string)
| PInt (z : Z)
| PFloat (f : pyfloat)
| PFixed (decimals : nat) (f : pyfloat)
| PVal (v : pyval)
| PDicts (l : list (list (string * option string))).

Definition text := list piece.

End Py.

Export Py.

Notation "'let*' x ':=' m 'in' k" := (Py.bind m (fun x => k))
(at level 10, x name, m at level 100, k at level 200).


(** ** Input models (src/models/input.py) *)

Module Input.

Inductive TopologyType := STANDALONE | MASTER_REPLICA | SEMI_SYNC | GALERA.

Inductive NodeRole := ROLE_STANDALONE | MASTER | REPLICA | GALERA_NODE.

Definition TopologyType_eqb (a b : TopologyType) : bool :=
  match a, b with
  | STANDALONE, STANDALONE | MASTER_REPLICA, MASTER_REPLICA
  | SEMI_SYNC, SEMI_SYNC | GALERA, GALERA => true
  | _, _ => false
  end.

Definition NodeRole_eqb (a b : NodeRole) : bool :=
  match a, b with
  | ROLE_STANDALONE, ROLE_STANDALONE | MASTER, MASTER
  | REPLICA, REPLICA | GALERA_NODE, GALERA_NODE => true
  | _, _ => false
  end.

Definition TopologyType_value (t : TopologyType) : string :=
  match t with
  | STANDALONE => "standalone"
  | MASTER_REPLICA => "master_replica"
  | SEMI_SYNC => "semi_sync"
  | GALERA => "galera"
  end.

Definition NodeRole_value (r : NodeRole) : string :=
  match r with
  | ROLE_STANDALONE => "standalone"
  | MASTER => "master"
  | REPLICA => "replica"
  | GALERA_NODE => "galera_node"
  end.

(** The declared fields of [SystemResources]; there is no [disk_type]
    field in the class. *)
Record SystemResources := {
  cpu_cores : Z;
  ram_gb : Q;
  disk_total_gb : Q;
  disk_used_gb : option Q;
  disk_mount_point : string;
  cpu_utilization_pct : option Q;
  ram_utilization_pct : option Q;
  iops_read : option Q;
  iops_write : option Q
}.

Record NodeData := {
  hostname : string;
  role : NodeRole;
  version : option string;
  global_status : gmap string pyval;
  global_variables : gmap string pyval;
  slave_status : option (gmap string pyval);
  master_status : option (gmap string pyval);
  wsrep_status : option (gmap string pyval);
  system_resources : option SystemResources;
  uptime_seconds : option Z;
  error_log : option string;
  slow_query_log : option string
}.

Definition get_status (self : NodeData) (key : string) (default : pyval) : pyval :=
  dict_get (global_status self) key default.

Definition get_status_int (self : NodeData) (key : string) (default : Z) : result Z :=
  catch (py_int (dict_get (global_status self) key (VInt default)))
        (Ok default).

Definition get_status_float (self : NodeData) (key : string) (default : pyfloat)
  : result pyfloat :=
  catch (match global_status self !! key with
         | Some v => py_float v
         | None => Ok default
         end)
        (Ok default).

Definition get_variable (self : NodeData) (key : string) (default : pyval) : pyval :=
  dict_get (global_variables self) key default.

Definition GiB : Z := 1024 * 1024 * 1024.
Definition MiB : Z := 1024 * 1024.
Definition KiB : Z := 1024.

(** [int(float(val[:-1]) * unit)] *)
Definition scaled_int (val : string) (unit : Z) : result Z :=
  let* f := float_of_string (drop_last val) in
  int_of_float (fmul f (float_of_Z unit)).

Definition get_variable_int (self : NodeData) (key : string) (default : Z) : result Z :=
  catch
    (match dict_get (global_variables self) key (VInt default) with
     | VStr s =>
         let val := strip (upper s) in
         if endswith_char "G" val then scaled_int val GiB
         else if endswith_char "M" val then scaled_int val MiB
         else if endswith_char "K" val then scaled_int val KiB
         else py_int (VStr val)
     | v => py_int v
     end)
    (Ok default).

Record MaxScaleServer := {
  server_name : string;
  address : string;
  port : Z;
  state : option string;
  server_connections : option Z;
  server_total_connections : option Z;
  queries : option Z;
  read_queries : option Z;
  write_queries : option Z
}.

Record MaxScaleService := {
  service_name : string;
  router : string;
  servers_of : list string;
  service_connections : option Z;
  service_total_connections : option Z;
  route_master : option Z;
  route_slave : option Z;
  route_all : option Z;
  rw_transactions : option Z;
  ro_transactions : option Z;
  replayed_transactions : option Z;
  master_accept_reads : option bool;
  transaction_replay : option bool;
  slave_selection_criteria : option string
}.

Record MaxScaleConfig := {
  enabled : bool;
  maxscale_version : option string;
  servers : list MaxScaleServer;
  services : list MaxScaleService;
  maxscale_uptime_seconds : option Z;
  total_connections : option Z;
  current_connections : option Z;
  maxscale_system_resources : option SystemResources;
  logs : option (gmap string string)
}.

Record ClusterReviewRequest := {
  cluster_name : string;
  topology_type : TopologyType;
  nodes : list NodeData;
  maxscale : option MaxScaleConfig;
  description : option string;
  expected_queries_per_second : option Q;
  expected_connections : option Z;
  expected_write_percentage : option Q
}.

End Input.

(** ** Output models (src/models/output.py) *)

Module Output.

Inductive Severity := INFO | WARNING | CRITICAL.

Inductive Category :=
| PERFORMANCE | CAPACITY | AVAILABILITY | CONFIGURATION | SECURITY
| REPLICATION | RESOURCE | STORAGE | CAT_GALERA | NETWORK | GENERAL.

Definition Severity_eqb (a b : Severity) : bool :=
  match a, b with
  | INFO, INFO | WARNING, WARNING | CRITICAL, CRITICAL => true
  | _, _ => false
  end.

Definition Category_eqb (a b : Category) : bool :=
  match a, b with
  | PERFORMANCE, PERFORMANCE | CAPACITY, CAPACITY
  | AVAILABILITY, AVAILABILITY | CONFIGURATION, CONFIGURATION
  | SECURITY, SECURITY | REPLICATION, REPLICATION | RESOURCE, RESOURCE
  | STORAGE, STORAGE | CAT_GALERA, CAT_GALERA | NETWORK, NETWORK
  | GENERAL, GENERAL => true
  | _, _ => false
  end.

(** the order info < warning < critical *)
Definition Severity_rank (s : Severity) : nat :=
  match s with INFO => 0 | WARNING => 1 | CRITICAL => 2 end.

Record Finding := {
  severity : Severity;
  category : Category;
  title : text;
  description : text;
  details : option text;
  metric_name : option string;
  metric_value : option text;
  threshold : option text;
  node : option string
}.

Record Recommendation := {
  priority : Z;
  rec_category : Category;
  rec_title : text;
  rec_description : text;
  action : text;
  impact : string;
  effort : string;
  related_findings : list string
}.

Record MetricAnalysis := {
  name : string;
  value : pyfloat;
  unit : option string;
  status : Severity;
  metric_description : text;
  threshold_warning : option pyfloat;
  threshold_critical : option pyfloat
}.

Record NodeAnalysis := {
  na_hostname : string;
  na_role : string;
  na_status : Severity;
  na_metrics : list MetricAnalysis;
  na_findings : list Finding;
  queries_per_second : option pyfloat;
  connections_current : option Z;
  connections_max_used : option Z;
  buffer_pool_hit_ratio : option pyfloat;
  wsrep_ready : option bool;
  wsrep_cluster_status : option pyval;
  wsrep_flow_control_paused : option pyfloat;
  seconds_behind_master : option Z;
  slave_io_running : option bool;
  slave_sql_running : option bool
}.

Record ArchitectureAssessment := {
  aa_topology_type : string;
  topology_valid : bool;
  aa_status : Severity;
  aa_summary : text;
  node_count : Z;
  expected_node_count : option Z;
  ha_capable : bool;
  quorum_capable : bool;
  replication_healthy : option bool;
  replication_lag_seconds : option Z;
  galera_cluster_size : option Z;
  galera_cluster_status : option pyval;
  galera_flow_control_issues : option bool;
  maxscale_present : bool;
  maxscale_healthy : option bool;
  architecture_recommendations : list text;
  consider_alternatives : list text
}.

Record LoadAnalysis := {
  la_status : Severity;
  la_summary : text;
  total_queries_per_second : pyfloat;
  total_writes_per_second : pyfloat;
  total_reads_per_second : pyfloat;
  read_write_ratio : pyfloat;
  total_current_connections : Z;
  total_max_connections : Z;
  peak_connections_used : Z;
  can_handle_current_load : bool
}.

End Output.

(** ** Metric derivation library (src/utils/metrics.py) *)

Module Metrics.
Import Input.

(** [node.uptime_seconds or node.get_status_int("Uptime", 1)] *)
Definition uptime_of (node : NodeData) : result Z :=
  match uptime_seconds node with
  | Some u => if (u =? 0)%Z then get_status_int node "Uptime" 1 else Ok u
  | None => get_status_int node "Uptime" 1
  end.

Definition calculate_queries_per_second (node : NodeData) : result pyfloat :=
  let* questions := get_status_int node "Questions" 0 in
  let* uptime := uptime_of node in
  if (uptime =? 0)%Z then Ok (FFin 0)
  else truediv questions uptime.

Definition calculate_writes_per_second (node : NodeData) : result pyfloat :=
  let* inserts := get_status_int node "Com_insert" 0 in
  let* updates := get_status_int node "Com_update" 0 in
  let* deletes := get_status_int node "Com_delete" 0 in
  let* replaces := get_status_int node "Com_replace" 0 in
  let* uptime := uptime_of node in
  if (uptime =? 0)%Z then Ok (FFin 0)
  else truediv (inserts + updates + deletes + replaces) uptime.

Definition calculate_reads_per_second (node : NodeData) : result pyfloat :=
  let* selects := get_status_int node "Com_select" 0 in
  let* uptime := uptime_of node in
  if (uptime =? 0)%Z then Ok (FFin 0)
  else truediv selects uptime.

Definition calculate_read_write_ratio (node : NodeData) : result pyfloat :=
  let* reads := get_status_int node "Com_select" 0 in
  let* inserts := get_status_int node "Com_insert" 0 in
  let* updates := get_status_int node "Com_update" 0 in
  let* deletes := get_status_int node "Com_delete" 0 in
  let* replaces := get_status_int node "Com_replace" 0 in
  let writes := inserts + updates + deletes + replaces in
  if (writes =? 0)%Z then
    Ok (if (reads >? 0)%Z then FInf else FFin 0)
  else truediv reads writes.

Definition calculate_connection_utilization (node : NodeData) : result pyfloat :=
  let* max_used := get_status_int node "Max_used_connections" 0 in
  let* max_connections := get_variable_int node "max_connections" 1 in
  if (max_connections =? 0)%Z then Ok (FFin 0)
  else truediv max_used max_connections.

Definition calculate_buffer_pool_hit_ratio (node : NodeData) : result pyfloat :=
  let* reads := get_status_int node "Innodb_buffer_pool_reads" 0 in
  let* read_requests := get_status_int node "Innodb_buffer_pool_read_requests" 1 in
  if (read_requests =? 0)%Z then Ok (FFin 1)
  else
    let* r := truediv reads read_requests in
    Ok (fsub (FFin 1) r).

Definition calculate_buffer_pool_usage (node : NodeData) : result pyfloat :=
  let* pages_data := get_status_int node "Innodb_buffer_pool_pages_data" 0 in
  let* pages_total := get_status_int node "Innodb_buffer_pool_pages_total" 1 in
  if (pages_total =? 0)%Z then Ok (FFin 0)
  else truediv pages_data pages_total.

(** the common tail of the per-hour rates *)
Definition per_hour (count uptime : Z) : result pyfloat :=
  if (uptime =? 0)%Z then Ok (FFin 0)
  else
    let* hours := truediv uptime 3600 in
    if feq hours (FFin 0) then Ok (FFin 0)
    else fdiv (float_of_Z count) hours.

Definition calculate_slow_queries_per_hour (node : NodeData) : result pyfloat :=
  let* slow_queries := get_status_int node "Slow_queries" 0 in
  let* uptime := uptime_of node in
  per_hour slow_queries uptime.

Definition calculate_aborted_connections_per_hour (node : NodeData) : result pyfloat :=
  let* aborted := get_status_int node "Aborted_connects" 0 in
  let* uptime := uptime_of node in
  per_hour aborted uptime.

(** truth value of an optional dict: present and not empty *)
Definition dict_truthy (d : option (gmap string pyval)) : bool :=
  match d with
  | Some m => negb (bool_decide (m = ∅))
  | None => false
  end.

(** [get_wsrep_status(node, key)] without its default: the value found
    in [wsrep_status], else in [global_status]. *)
Definition wsrep_lookup (node : NodeData) (key : string) : option pyval :=
  match wsrep_status node with
  | Some m =>
      match m !! key with
      | Some v => Some v
      | None => global_status node !! key
      end
  | None => global_status node !! key
  end.

Definition get_wsrep_status (node : NodeData) (key : string) (default : pyval) : pyval :=
  match wsrep_lookup node key with
  | Some v => v
  | None => default
  end.

Definition get_wsrep_status_float (node : NodeData) (key : string) (default : pyfloat)
  : result pyfloat :=
  catch (match wsrep_lookup node key with
         | Some v => py_float v
         | None => Ok default
         end)
        (Ok default).

Definition get_wsrep_status_int (node : NodeData) (key : string) (default : Z)
  : result Z :=
  catch (py_int (get_wsrep_status node key (VInt default))) (Ok default).

Definition calculate_galera_flow_control_paused (node : NodeData) : result pyfloat :=
  get_wsrep_status_float node "wsrep_flow_control_paused" (FFin 0).

Definition calculate_galera_recv_queue_avg (node : NodeData) : result pyfloat :=
  get_wsrep_status_float node "wsrep_local_recv_queue_avg" (FFin 0).

Definition calculate_galera_send_queue_avg (node : NodeData) : result pyfloat :=
  get_wsrep_status_float node "wsrep_local_send_queue_avg" (FFin 0).

Definition calculate_galera_cert_conflicts_per_hour (node : NodeData) : result pyfloat :=
  let* conflicts := get_wsrep_status_int node "wsrep_local_cert_failures" 0 in
  let* uptime := uptime_of node in
  per_hour conflicts uptime.

Definition get_replication_lag (node : NodeData) : option Z :=
  match slave_status node with
  | Some m =>
      if bool_decide (m = ∅) then None
      else
        match m !! "Seconds_Behind_Master" with
        | None | Some VNone => None
        | Some lag =>
            if val_eqb lag (VStr "NULL") then None
            else match py_int lag with
                 | Ok z => Some z
                 | Raise _ => None
                 end
        end
  | None => None
  end.

Definition is_replication_running (node : NodeData) : bool * bool :=
  match slave_status node with
  | Some m =>
      if bool_decide (m = ∅) then (false, false)
      else
        (str_eqb (upper (py_str (dict_get m "Slave_IO_Running" (VStr "No")))) "YES",
         str_eqb (upper (py_str (dict_get m "Slave_SQL_Running" (VStr "No")))) "YES")
  | None => (false, false)
  end.

End Metrics.

(** ** Threshold configuration *)

Module Thresholds.

(** The nested mapping section -> metric -> tier -> cutoff held in
    [self.thresholds]. *)
Abbreviation thresholds := (gmap string (gmap string (gmap string pyfloat))).

(** [thresholds.get(section, {}).get(metric, {})] *)
Definition tiers (t : thresholds) (section metric : string) : gmap string pyfloat :=
  match t !! section with
  | Some s => match s !! metric with Some m => m | None => ∅ end
  | None => ∅
  end.

(** [tiers.get(tier, default)] *)
Definition tier_get (m : gmap string pyfloat) (tier : string) (default : pyfloat)
  : pyfloat :=
  match m !! tier with Some v => v | None => default end.

Definition _default_thresholds : thresholds :=
  list_to_map [
    ("server", list_to_map [
       ("connection_utilization",
        list_to_map [("warning", FFin 0.7); ("critical", FFin 0.9);
                     ("underutilized", FFin 0.3)]);
       ("buffer_pool_hit_ratio",
        list_to_map [("warning", FFin 0.95); ("critical", FFin 0.90)]);
       ("buffer_pool_usage", list_to_map [("underutilized", FFin 0.5)]);
       ("slow_queries_per_hour",
        list_to_map [("warning", FFin 100); ("critical", FFin 500)])]);
    ("galera", list_to_map [
       ("flow_control_paused",
        list_to_map [("warning", FFin 0.01); ("critical", FFin 0.2)]);
       ("local_recv_queue_avg",
        list_to_map [("warning", FFin 0.5); ("critical", FFin 1.0)]);
       ("local_send_queue_avg",
        list_to_map [("warning", FFin 0.5); ("critical", FFin 1.0)])]);
    ("replication", list_to_map [
       ("seconds_behind_master",
        list_to_map [("warning", FFin 30); ("critical", FFin 300)])]);
    ("resources", list_to_map [
       ("cpu", list_to_map [("underutilized", FFin 0.3); ("warning", FFin 0.8);
                            ("critical", FFin 0.95)]);
       ("memory", list_to_map [("underutilized", FFin 0.5); ("warning", FFin 0.9);
                               ("critical", FFin 0.95)]);
       ("disk", list_to_map [("warning", FFin 0.8); ("critical", FFin 0.9)])])
  ].

End Thresholds.


(** ** Running a fixed sequence of checks *)

Module Checks.

(** the state after all the checks, applied in order *)
Fixpoint run_checks {S : Type} (cs : list (S -> S)) (s : S) : S :=
  match cs with
  | [] => s
  | c :: cs' => run_checks cs' (c s)
  end.

(** the state after each check, in order *)
Fixpoint trace_checks {S : Type} (cs : list (S -> S)) (s : S) : list S :=
  match cs with
  | [] => []
  | c :: cs' => c s :: trace_checks cs' (c s)
  end.

(** a [for] loop whose body may raise *)
Fixpoint for_each {A S : Type} (body : S -> A -> result S) (l : list A) (s : S)
  : result S :=
  match l with
  | [] => Ok s
  | x :: l' => let* s' := body s x in for_each body l' s'
  end.

End Checks.

(** ** Base analyzer (src/analyzers/base.py) *)

Module Base.
Import Input Output Metrics Thresholds Checks.

(** the locals of [analyze_node_performance] that the checks update *)
Record PerfState := {
  overall_status : Severity;
  node_metrics : list MetricAnalysis;
  node_findings : list Finding
}.

Definition F100 : pyfloat := FFin 100.

(** [if overall_status != CRITICAL: overall_status = WARNING] *)
Definition warn_unless_critical (s : Severity) : Severity :=
  if Severity_eqb s CRITICAL then s else WARNING.

Definition check_queries_per_second (qps : pyfloat) (st : PerfState) : PerfState :=
  {| overall_status := overall_status st;
     node_metrics := node_metrics st ++ [
       {| name := "queries_per_second"; value := qps; unit := Some "qps";
          status := INFO;
          metric_description :=
            [PStr "Current query rate: "; PFixed 2 qps; PStr " queries/second"];
          threshold_warning := None; threshold_critical := None |}];
     node_findings := node_findings st |}.

Definition check_connection_utilization (t : thresholds) (node : NodeData)
    (conn_util : pyfloat) (max_used max_connections : Z) (st : PerfState)
  : PerfState :=
  let conn_thresholds := tiers t "server" "connection_utilization" in
  let critical := tier_get conn_thresholds "critical" (FFin 0.9) in
  let warning := tier_get conn_thresholds "warning" (FFin 0.7) in
  let '(conn_status, overall, findings) :=
    if fge conn_util critical then
      (CRITICAL, CRITICAL,
       node_findings st ++ [
         {| severity := CRITICAL; category := CAPACITY;
            title := [PStr "Connection utilization critical"];
            description := [PStr "Connection utilization at ";
                            PFixed 1 (fmul conn_util F100); PStr "%"];
            details := None;
            metric_name := Some "connection_utilization";
            metric_value := Some [PFixed 1 (fmul conn_util F100); PStr "%"];
            threshold := Some [PFloat (fmul critical F100); PStr "%"];
            node := Some (hostname node) |}])
    else if fge conn_util warning then
      (WARNING, warn_unless_critical (overall_status st), node_findings st)
    else (INFO, overall_status st, node_findings st) in
  {| overall_status := overall;
     node_metrics := node_metrics st ++ [
       {| name := "connection_utilization"; value := fmul conn_util F100;
          unit := Some "%"; status := conn_status;
          metric_description :=
            [PStr "Max used connections: "; PInt max_used; PStr " of ";
             PInt max_connections];
          threshold_warning := Some (fmul warning F100);
          threshold_critical := Some (fmul critical F100) |}];
     node_findings := findings |}.

Definition check_buffer_pool_hit_ratio (t : thresholds) (node : NodeData)
    (hit_ratio : pyfloat) (st : PerfState) : PerfState :=
  let bp_thresholds := tiers t "server" "buffer_pool_hit_ratio" in
  let critical := tier_get bp_thresholds "critical" (FFin 0.90) in
  let warning := tier_get bp_thresholds "warning" (FFin 0.95) in
  let '(bp_status, overall, findings) :=
    if flt hit_ratio critical then
      (CRITICAL, CRITICAL,
       node_findings st ++ [
         {| severity := CRITICAL; category := PERFORMANCE;
            title := [PStr "Buffer pool hit ratio critical"];
            description := [PStr "Buffer pool hit ratio at ";
                            PFixed 2 (fmul hit_ratio F100);
                            PStr "% - too many disk reads"];
            details := None;
            metric_name := Some "buffer_pool_hit_ratio";
            metric_value := Some [PFixed 2 (fmul hit_ratio F100); PStr "%"];
            threshold := Some [PFloat (fmul critical F100); PStr "%"];
            node := Some (hostname node) |}])
    else if flt hit_ratio warning then
      (WARNING, warn_unless_critical (overall_status st), node_findings st)
    else (INFO, overall_status st, node_findings st) in
  {| overall_status := overall;
     node_metrics := node_metrics st ++ [
       {| name := "buffer_pool_hit_ratio"; value := fmul hit_ratio F100;
          unit := Some "%"; status := bp_status;
          metric_description :=
            [PStr "Buffer pool efficiency: "; PFixed 2 (fmul hit_ratio F100);
             PStr "%"];
          threshold_warning := Some (fmul warning F100);
          threshold_critical := Some (fmul critical F100) |}];
     node_findings := findings |}.

Definition check_buffer_pool_usage (bp_usage : pyfloat) (st : PerfState) : PerfState :=
  {| overall_status := overall_status st;
     node_metrics := node_metrics st ++ [
       {| name := "buffer_pool_usage"; value := fmul bp_usage F100;
          unit := Some "%"; status := INFO;
          metric_description :=
            [PStr "Buffer pool pages in use: "; PFixed 1 (fmul bp_usage F100);
             PStr "%"];
          threshold_warning := None; threshold_critical := None |}];
     node_findings := node_findings st |}.

(** The slow-query check sets the status of its metric and appends a
    finding, and leaves [overall_status] as it is. *)
Definition check_slow_queries (t : thresholds) (node : NodeData)
    (slow_per_hour : pyfloat) (st : PerfState) : PerfState :=
  let slow_thresholds := tiers t "server" "slow_queries_per_hour" in
  let critical := tier_get slow_thresholds "critical" (FFin 500) in
  let warning := tier_get slow_thresholds "warning" (FFin 100) in
  let '(slow_status, findings) :=
    if fge slow_per_hour critical then
      (CRITICAL,
       node_findings st ++ [
         {| severity := CRITICAL; category := PERFORMANCE;
            title := [PStr "High slow query rate"];
            description := [PStr "Slow queries: "; PFixed 1 slow_per_hour;
                            PStr "/hour"];
            details := None;
            metric_name := Some "slow_queries_per_hour";
            metric_value := Some [PFixed 1 slow_per_hour];
            threshold := Some [PFloat critical];
            node := Some (hostname node) |}])
    else if fge slow_per_hour warning then (WARNING, node_findings st)
    else (INFO, node_findings st) in
  {| overall_status := overall_status st;
     node_metrics := node_metrics st ++ [
       {| name := "slow_queries_per_hour"; value := slow_per_hour;
          unit := Some "queries/hour"; status := slow_status;
          metric_description :=
            [PStr "Slow query rate: "; PFixed 1 slow_per_hour; PStr " per hour"];
          threshold_warning := None; threshold_critical := None |}];
     node_findings := findings |}.

(** the values the checks of one node are run on *)
Record NodeMetrics := {
  m_qps : pyfloat;
  m_conn_util : pyfloat;
  m_max_used : Z;
  m_max_connections : Z;
  m_hit_ratio : pyfloat;
  m_bp_usage : pyfloat;
  m_slow_per_hour : pyfloat
}.

(** The metric functions are pure and an exception in any of them aborts
    the call, so they are evaluated here, in the order of the source,
    before the checks that use them. *)
Definition node_metric_values (node : NodeData) : result NodeMetrics :=
  let* qps := calculate_queries_per_second node in
  let* conn_util := calculate_connection_utilization node in
  let* max_used := get_status_int node "Max_used_connections" 0 in
  let* max_connections := get_variable_int node "max_connections" 0 in
  let* hit_ratio := calculate_buffer_pool_hit_ratio node in
  let* bp_usage := calculate_buffer_pool_usage node in
  let* slow_per_hour := calculate_slow_queries_per_hour node in
  Ok {| m_qps := qps; m_conn_util := conn_util; m_max_used := max_used;
        m_max_connections := max_connections; m_hit_ratio := hit_ratio;
        m_bp_usage := bp_usage; m_slow_per_hour := slow_per_hour |}.

(** the fixed sequence of per-node checks *)
Definition node_checks (t : thresholds) (node : NodeData) (m : NodeMetrics)
  : list (PerfState -> PerfState) :=
  [ check_queries_per_second (m_qps m);
    check_connection_utilization t node (m_conn_util m) (m_max_used m)
      (m_max_connections m);
    check_buffer_pool_hit_ratio t node (m_hit_ratio m);
    check_buffer_pool_usage (m_bp_usage m);
    check_slow_queries t node (m_slow_per_hour m) ].

Definition initial_state : PerfState :=
  {| overall_status := INFO; node_metrics := []; node_findings := [] |}.

Definition analyze_node_performance (t : thresholds) (node : NodeData)
  : result NodeAnalysis :=
  let* m := node_metric_values node in
  let st := run_checks (node_checks t node m) initial_state in
  let* threads_connected := get_status_int node "Threads_connected" 0 in
  Ok {| na_hostname := hostname node;
        na_role := NodeRole_value (role node);
        na_status := overall_status st;
        na_metrics := node_metrics st;
        na_findings := node_findings st;
        queries_per_second := Some (m_qps m);
        connections_current := Some threads_connected;
        connections_max_used := Some (m_max_used m);
        buffer_pool_hit_ratio := Some (m_hit_ratio m);
        wsrep_ready := None; wsrep_cluster_status := None;
        wsrep_flow_control_paused := None;
        seconds_behind_master := None;
        slave_io_running := None; slave_sql_running := None |}.

(** the value of [overall_status] after each check of the sequence *)
Definition status_trace (t : thresholds) (node : NodeData) : result (list Severity) :=
  let* m := node_metric_values node in
  Ok (map overall_status (trace_checks (node_checks t node m) initial_state)).

(** *** [analyze_load] *)

Record LoadTotals := {
  total_qps : pyfloat;
  total_writes : pyfloat;
  total_reads : pyfloat;
  total_current_conn : Z;
  total_max_conn : Z;
  peak_conn : Z
}.

Definition load_totals_step (acc : LoadTotals) (node : NodeData) : result LoadTotals :=
  let* qps := calculate_queries_per_second node in
  let* wps := calculate_writes_per_second node in
  let* rps := calculate_reads_per_second node in
  let* cur := get_status_int node "Threads_connected" 0 in
  let* mx := get_variable_int node "max_connections" 0 in
  let* used := get_status_int node "Max_used_connections" 0 in
  Ok {| total_qps := fadd (total_qps acc) qps;
        total_writes := fadd (total_writes acc) wps;
        total_reads := fadd (total_reads acc) rps;
        total_current_conn := total_current_conn acc + cur;
        total_max_conn := total_max_conn acc + mx;
        peak_conn := Z.max (peak_conn acc) used |}.

(** the body of the second loop: both tests are made for every node *)
Definition load_check_step (acc : bool * Severity) (node : NodeData)
  : result (bool * Severity) :=
  let '(can_handle, status) := acc in
  let* conn_util := calculate_connection_utilization node in
  let '(can_handle, status) :=
    if fgt conn_util (FFin 0.9) then (false, CRITICAL) else (can_handle, status) in
  let* hit_ratio := calculate_buffer_pool_hit_ratio node in
  let status := if flt hit_ratio (FFin 0.90) then WARNING else status in
  Ok (can_handle, status).

Definition analyze_load (request : ClusterReviewRequest) : result LoadAnalysis :=
  let* tot :=
    for_each load_totals_step (nodes request)
      {| total_qps := FFin 0; total_writes := FFin 0; total_reads := FFin 0;
         total_current_conn := 0; total_max_conn := 0; peak_conn := 0 |} in
  let* rw_ratio :=
    if fgt (total_writes tot) (FFin 0) then fdiv (total_reads tot) (total_writes tot)
    else Ok (if fgt (total_reads tot) (FFin 0) then FInf else FFin 0) in
  let* chk := for_each load_check_step (nodes request) (true, INFO) in
  let '(can_handle, status) := chk in
  Ok {| la_status := status;
        la_summary := [PStr "Cluster processing "; PFixed 1 (total_qps tot);
                       PStr " queries/sec (R/W ratio: "; PFixed 1 rw_ratio;
                       PStr ":1)"];
        total_queries_per_second := total_qps tot;
        total_writes_per_second := total_writes tot;
        total_reads_per_second := total_reads tot;
        read_write_ratio := rw_ratio;
        total_current_connections := total_current_conn tot;
        total_max_connections := total_max_conn tot;
        peak_connections_used := peak_conn tot;
        can_handle_current_load := can_handle |}.

End Base.

(** ** Sets of Python values *)

Module PySet.

#[global] Instance pyval_eq_dec : EqDecision pyval.
Proof. solve_decision. Defined.

Definition pyval_encode (v : pyval) : unit + (Z + string) :=
  match v with
  | VNone => inl tt
  | VInt z => inr (inl z)
  | VStr s => inr (inr s)
  end.

Definition pyval_decode (x : unit + (Z + string)) : pyval :=
  match x with
  | inl _ => VNone
  | inr (inl z) => VInt z
  | inr (inr s) => VStr s
  end.

#[global] Instance pyval_countable : Countable pyval.
Proof.
  refine (inj_countable' pyval_encode pyval_decode _).
  intros []; reflexivity.
Defined.

End PySet.

Export PySet.

(** ** Updates of a [NodeAnalysis] under construction *)

Module NodeUpdate.
Import Output.

Definition with_status (s : Severity) (a : NodeAnalysis) : NodeAnalysis :=
  {| na_hostname := na_hostname a; na_role := na_role a; na_status := s;
     na_metrics := na_metrics a; na_findings := na_findings a;
     queries_per_second := queries_per_second a;
     connections_current := connections_current a;
     connections_max_used := connections_max_used a;
     buffer_pool_hit_ratio := buffer_pool_hit_ratio a;
     wsrep_ready := wsrep_ready a;
     wsrep_cluster_status := wsrep_cluster_status a;
     wsrep_flow_control_paused := wsrep_flow_control_paused a;
     seconds_behind_master := seconds_behind_master a;
     slave_io_running := slave_io_running a;
     slave_sql_running := slave_sql_running a |}.

Definition append_finding (f : Finding) (a : NodeAnalysis) : NodeAnalysis :=
  {| na_hostname := na_hostname a; na_role := na_role a; na_status := na_status a;
     na_metrics := na_metrics a; na_findings := na_findings a ++ [f];
     queries_per_second := queries_per_second a;
     connections_current := connections_current a;
     connections_max_used := connections_max_used a;
     buffer_pool_hit_ratio := buffer_pool_hit_ratio a;
     wsrep_ready := wsrep_ready a;
     wsrep_cluster_status := wsrep_cluster_status a;
     wsrep_flow_control_paused := wsrep_flow_control_paused a;
     seconds_behind_master := seconds_behind_master a;
     slave_io_running := slave_io_running a;
     slave_sql_running := slave_sql_running a |}.

Definition append_metric (m : MetricAnalysis) (a : NodeAnalysis) : NodeAnalysis :=
  {| na_hostname := na_hostname a; na_role := na_role a; na_status := na_status a;
     na_metrics := na_metrics a ++ [m]; na_findings := na_findings a;
     queries_per_second := queries_per_second a;
     connections_current := connections_current a;
     connections_max_used := connections_max_used a;
     buffer_pool_hit_ratio := buffer_pool_hit_ratio a;
     wsrep_ready := wsrep_ready a;
     wsrep_cluster_status := wsrep_cluster_status a;
     wsrep_flow_control_paused := wsrep_flow_control_paused a;
     seconds_behind_master := seconds_behind_master a;
     slave_io_running := slave_io_running a;
     slave_sql_running := slave_sql_running a |}.

Definition with_wsrep (ready : bool) (cluster_status : pyval) (a : NodeAnalysis)
  : NodeAnalysis :=
  {| na_hostname := na_hostname a; na_role := na_role a; na_status := na_status a;
     na_metrics := na_metrics a; na_findings := na_findings a;
     queries_per_second := queries_per_second a;
     connections_current := connections_current a;
     connections_max_used := connections_max_used a;
     buffer_pool_hit_ratio := buffer_pool_hit_ratio a;
     wsrep_ready := Some ready;
     wsrep_cluster_status := Some cluster_status;
     wsrep_flow_control_paused := wsrep_flow_control_paused a;
     seconds_behind_master := seconds_behind_master a;
     slave_io_running := slave_io_running a;
     slave_sql_running := slave_sql_running a |}.

Definition with_flow_control (fc : pyfloat) (a : NodeAnalysis) : NodeAnalysis :=
  {| na_hostname := na_hostname a; na_role := na_role a; na_status := na_status a;
     na_metrics := na_metrics a; na_findings := na_findings a;
     queries_per_second := queries_per_second a;
     connections_current := connections_current a;
     connections_max_used := connections_max_used a;
     buffer_pool_hit_ratio := buffer_pool_hit_ratio a;
     wsrep_ready := wsrep_ready a;
     wsrep_cluster_status := wsrep_cluster_status a;
     wsrep_flow_control_paused := Some fc;
     seconds_behind_master := seconds_behind_master a;
     slave_io_running := slave_io_running a;
     slave_sql_running := slave_sql_running a |}.

Definition with_replication (io sql : bool) (lag : option Z) (a : NodeAnalysis)
  : NodeAnalysis :=
  {| na_hostname := na_hostname a; na_role := na_role a; na_status := na_status a;
     na_metrics := na_metrics a; na_findings := na_findings a;
     queries_per_second := queries_per_second a;
     connections_current := connections_current a;
     connections_max_used := connections_max_used a;
     buffer_pool_hit_ratio := buffer_pool_hit_ratio a;
     wsrep_ready := wsrep_ready a;
     wsrep_cluster_status := wsrep_cluster_status a;
     wsrep_flow_control_paused := wsrep_flow_control_paused a;
     seconds_behind_master := lag;
     slave_io_running := Some io;
     slave_sql_running := Some sql |}.

(** [if analysis.status != CRITICAL: analysis.status = WARNING] *)
Definition warn_unless_critical (a : NodeAnalysis) : NodeAnalysis :=
  if Severity_eqb (na_status a) CRITICAL then a else with_status WARNING a.

End NodeUpdate.

(** ** Replication analyzer (src/analyzers/replication.py) *)

Module Replication.
Import Input Output Metrics Thresholds Checks NodeUpdate.

Definition _create_replication_stopped_finding (node : NodeData)
    (io_running sql_running : bool) : Finding :=
  let issues :=
    (if negb io_running then ["IO thread stopped"] else []) ++
    (if negb sql_running then ["SQL thread stopped"] else []) in
  {| severity := CRITICAL; category := REPLICATION;
     title := [PStr "Replication stopped"];
     description := [PStr "Replication issues: "; PStr (String.concat ", " issues)];
     details := None; metric_name := None; metric_value := None;
     threshold := None; node := Some (hostname node) |}.

Definition _create_lag_finding (node : NodeData) (lag : Z) (level : string) : Finding :=
  {| severity := if str_eqb level "critical" then CRITICAL else WARNING;
     category := REPLICATION;
     title := [PStr "Replication lag "; PStr level];
     description := [PStr "Replica is "; PInt lag; PStr " seconds behind master"];
     details := None;
     metric_name := Some "Seconds_Behind_Master";
     metric_value := Some [PInt lag];
     threshold := None; node := Some (hostname node) |}.

(** [analysis.slave_io_running = ...] and the two assignments after it *)
Definition record_replication (node : NodeData) (a : NodeAnalysis) : NodeAnalysis :=
  let '(io_running, sql_running) := is_replication_running node in
  with_replication io_running sql_running (get_replication_lag node) a.

Definition check_replication_health (t : thresholds) (node : NodeData)
    (a : NodeAnalysis) : NodeAnalysis :=
  let '(io_running, sql_running) := is_replication_running node in
  if negb io_running || negb sql_running then
    append_finding (_create_replication_stopped_finding node io_running sql_running)
      (with_status CRITICAL a)
  else
    match get_replication_lag node with
    | Some lag =>
        let lag_thresholds := tiers t "replication" "seconds_behind_master" in
        if fge (float_of_Z lag) (tier_get lag_thresholds "critical" (FFin 300)) then
          append_finding (_create_lag_finding node lag "critical")
            (with_status CRITICAL a)
        else if fge (float_of_Z lag) (tier_get lag_thresholds "warning" (FFin 30)) then
          append_finding (_create_lag_finding node lag "warning")
            (warn_unless_critical a)
        else a
    | None => a
    end.

(** the checks added for a replica that has a slave status *)
Definition replication_checks (t : thresholds) (node : NodeData)
  : list (NodeAnalysis -> NodeAnalysis) :=
  if NodeRole_eqb (role node) REPLICA && dict_truthy (slave_status node) then
    [record_replication node; check_replication_health t node]
  else [].

Definition analyze_node_performance (t : thresholds) (node : NodeData)
  : result NodeAnalysis :=
  let* analysis := Base.analyze_node_performance t node in
  Ok (run_checks (replication_checks t node) analysis).

(** the status of the node after each check: those of the base analysis,
    then those added here *)
Definition status_trace (t : thresholds) (node : NodeData) : result (list Severity) :=
  let* base := Base.status_trace t node in
  let* analysis := Base.analyze_node_performance t node in
  Ok (base ++ map na_status (trace_checks (replication_checks t node) analysis)).

End Replication.

(** ** Galera analyzer (src/analyzers/galera.py) *)

Module Galera.
Import Input Output Metrics Thresholds Checks NodeUpdate.

Definition _create_wsrep_finding (node : NodeData) (message : text)
    (sev : Severity) : Finding :=
  {| severity := sev; category := REPLICATION;
     title := [PStr "Galera node issue"];
     description := message;
     details := None; metric_name := None; metric_value := None;
     threshold := None; node := Some (hostname node) |}.

Definition _create_flow_control_finding (node : NodeData) (value : pyfloat)
    (level : string) : Finding :=
  {| severity := if str_eqb level "critical" then CRITICAL else WARNING;
     category := PERFORMANCE;
     title := [PStr "Flow control "; PStr level];
     description := [PStr "Node paused "; PFixed 2 (fmul value Base.F100);
                     PStr "% of time due to flow control"];
     details := None;
     metric_name := Some "wsrep_flow_control_paused";
     metric_value := Some [PFixed 2 (fmul value Base.F100); PStr "%"];
     threshold := None; node := Some (hostname node) |}.

Definition node_wsrep_ready (node : NodeData) : bool :=
  str_eqb (upper (py_str (get_wsrep_status node "wsrep_ready" (VStr "OFF")))) "ON".

Definition record_wsrep (node : NodeData) (a : NodeAnalysis) : NodeAnalysis :=
  with_wsrep (node_wsrep_ready node)
    (get_wsrep_status node "wsrep_cluster_status" (VStr "")) a.

Definition check_wsrep_ready (node : NodeData) (a : NodeAnalysis) : NodeAnalysis :=
  if negb (node_wsrep_ready node) then
    append_finding (_create_wsrep_finding node [PStr "wsrep_ready is OFF"] CRITICAL)
      (with_status CRITICAL a)
  else a.

Definition check_primary (node : NodeData) (a : NodeAnalysis) : NodeAnalysis :=
  let wsrep_cluster_status := get_wsrep_status node "wsrep_cluster_status" (VStr "") in
  if negb (val_eqb wsrep_cluster_status (VStr "Primary")) then
    append_finding
      (_create_wsrep_finding node
         [PStr "Node not in Primary component (status: ";
          PVal wsrep_cluster_status; PStr ")"] CRITICAL)
      (with_status CRITICAL a)
  else a.

Definition check_local_state (node : NodeData) (a : NodeAnalysis) : NodeAnalysis :=
  let wsrep_local_state :=
    get_wsrep_status node "wsrep_local_state_comment" (VStr "") in
  if negb (val_eqb wsrep_local_state (VStr "Synced") ||
           val_eqb wsrep_local_state (VStr "Donor/Desynced")) then
    append_finding
      (_create_wsrep_finding node
         [PStr "Node state is "; PVal wsrep_local_state] WARNING)
      (warn_unless_critical a)
  else a.

Definition check_flow_control (t : thresholds) (node : NodeData)
    (flow_control_paused : pyfloat) (a : NodeAnalysis) : NodeAnalysis :=
  let a := with_flow_control flow_control_paused a in
  let fc_thresholds := tiers t "galera" "flow_control_paused" in
  let critical := tier_get fc_thresholds "critical" (FFin 0.2) in
  let warning := tier_get fc_thresholds "warning" (FFin 0.01) in
  let '(fc_status, a) :=
    if fge flow_control_paused critical then
      (CRITICAL,
       append_finding
         (_create_flow_control_finding node flow_control_paused "critical")
         (with_status CRITICAL a))
    else if fge flow_control_paused warning then
      (WARNING,
       append_finding
         (_create_flow_control_finding node flow_control_paused "warning")
         (warn_unless_critical a))
    else (INFO, a) in
  append_metric
    {| name := "wsrep_flow_control_paused";
       value := fmul flow_control_paused Base.F100; unit := Some "%";
       status := fc_status;
       metric_description :=
         [PStr "Time paused for flow control: ";
          PFixed 2 (fmul flow_control_paused Base.F100); PStr "%"];
       threshold_warning := Some (fmul warning Base.F100);
       threshold_critical := Some (fmul critical Base.F100) |} a.

(** the receive and the send queue: a metric with a status label only *)
Definition check_queue (t : thresholds) (tier_name metric_name label : string)
    (queue_avg : pyfloat) (a : NodeAnalysis) : NodeAnalysis :=
  let q_thresholds := tiers t "galera" tier_name in
  let critical := tier_get q_thresholds "critical" (FFin 1.0) in
  let warning := tier_get q_thresholds "warning" (FFin 0.5) in
  let q_status :=
    if fge queue_avg critical then CRITICAL
    else if fge queue_avg warning then WARNING
    else INFO in
  append_metric
    {| name := metric_name; value := queue_avg; unit := Some "writesets";
       status := q_status;
       metric_description := [PStr label; PFixed 2 queue_avg];
       threshold_warning := Some warning;
       threshold_critical := Some critical |} a.

Definition check_cert_conflicts (cert_conflicts : pyfloat) (a : NodeAnalysis)
  : NodeAnalysis :=
  append_metric
    {| name := "cert_conflicts_per_hour"; value := cert_conflicts;
       unit := Some "conflicts/hour";
       status := if flt cert_conflicts (FFin 10) then INFO else WARNING;
       metric_description :=
         [PStr "Certification conflicts: "; PFixed 1 cert_conflicts; PStr "/hour"];
       threshold_warning := None; threshold_critical := None |} a.

Record GaleraMetrics := {
  g_flow_control_paused : pyfloat;
  g_recv_queue_avg : pyfloat;
  g_send_queue_avg : pyfloat;
  g_cert_conflicts : pyfloat
}.

Definition galera_metric_values (node : NodeData) : result GaleraMetrics :=
  let* fc := calculate_galera_flow_control_paused node in
  let* rq := calculate_galera_recv_queue_avg node in
  let* sq := calculate_galera_send_queue_avg node in
  let* cc := calculate_galera_cert_conflicts_per_hour node in
  Ok {| g_flow_control_paused := fc; g_recv_queue_avg := rq;
        g_send_queue_avg := sq; g_cert_conflicts := cc |}.

(** the checks added to the base analysis, in order *)
Definition galera_checks (t : thresholds) (node : NodeData) (g : GaleraMetrics)
  : list (NodeAnalysis -> NodeAnalysis) :=
  [ record_wsrep node;
    check_wsrep_ready node;
    check_primary node;
    check_local_state node;
    check_flow_control t node (g_flow_control_paused g);
    check_queue t "local_recv_queue_avg" "wsrep_local_recv_queue_avg"
      "Average receive queue: " (g_recv_queue_avg g);
    check_queue t "local_send_queue_avg" "wsrep_local_send_queue_avg"
      "Average send queue: " (g_send_queue_avg g);
    check_cert_conflicts (g_cert_conflicts g) ].

Definition analyze_node_performance (t : thresholds) (node : NodeData)
  : result NodeAnalysis :=
  let* analysis := Base.analyze_node_performance t node in
  let* g := galera_metric_values node in
  Ok (run_checks (galera_checks t node g) analysis).

Definition status_trace (t : thresholds) (node : NodeData) : result (list Severity) :=
  let* base := Base.status_trace t node in
  let* analysis := Base.analyze_node_performance t node in
  let* g := galera_metric_values node in
  Ok (base ++ map na_status (trace_checks (galera_checks t node g) analysis)).

(** *** [analyze_architecture] *)

(** what the loop over the checked nodes collects *)
Record ClusterState := {
  cluster_sizes : gset Z;
  cluster_statuses : gset pyval;
  cluster_uuids : gset pyval;
  flow_control_issues : bool
}.

Definition collect_node (acc : ClusterState) (node : NodeData) : result ClusterState :=
  let* cluster_size := get_wsrep_status_int node "wsrep_cluster_size" 0 in
  let cluster_status := get_wsrep_status node "wsrep_cluster_status" (VStr "") in
  let cluster_uuid := get_wsrep_status node "wsrep_cluster_state_uuid" (VStr "") in
  let* fc := calculate_galera_flow_control_paused node in
  Ok {| cluster_sizes :=
          if (cluster_size >? 0)%Z then cluster_sizes acc ∪ {[cluster_size]}
          else cluster_sizes acc;
        cluster_statuses :=
          if truthy cluster_status then cluster_statuses acc ∪ {[cluster_status]}
          else cluster_statuses acc;
        cluster_uuids :=
          if truthy cluster_uuid then cluster_uuids acc ∪ {[cluster_uuid]}
          else cluster_uuids acc;
        flow_control_issues :=
          if fgt fc (FFin 0.01) then true else flow_control_issues acc |}.

Definition galera_nodes_of (request : ClusterReviewRequest) : list NodeData :=
  filter (fun n => NodeRole_eqb (role n) GALERA_NODE = true) (nodes request).

(** [galera_nodes if galera_nodes else request.nodes] *)
Definition nodes_to_check (request : ClusterReviewRequest) : list NodeData :=
  match galera_nodes_of request with
  | [] => nodes request
  | l => l
  end.

Definition maxscale_is_present (request : ClusterReviewRequest) : bool :=
  match maxscale request with
  | Some m => enabled m
  | None => false
  end.

(** [list(s)[0] if s else default]; which element of a set comes first is
    not fixed by the language, the first of [elements] stands for it. *)
Definition first_of {A} `{Countable A} (s : gset A) : option A :=
  head (elements s).

Definition analyze_architecture (request : ClusterReviewRequest)
  : result ArchitectureAssessment :=
  let node_count := Z.of_nat (length (nodes_to_check request)) in
  let recommendations : list text := [] in
  let '(topology_valid, status, recommendations) :=
    if (node_count <? 3)%Z then
      (false, WARNING,
       recommendations ++ [[PStr "Galera cluster has "; PInt node_count;
                            PStr " nodes. Minimum 3 recommended for quorum."]])
    else (true, INFO, recommendations) in
  let recommendations :=
    if (node_count mod 2 =? 0)%Z then
      recommendations ++ [[PStr "Even number of nodes ("; PInt node_count;
                           PStr ") - consider odd number to avoid split-brain"]]
    else recommendations in
  let* cs :=
    for_each collect_node (nodes_to_check request)
      {| cluster_sizes := ∅; cluster_statuses := ∅; cluster_uuids := ∅;
         flow_control_issues := false |} in
  let '(topology_valid, status, recommendations) :=
    if (1 <? size (cluster_sizes cs))%nat then
      (false, CRITICAL,
       recommendations ++ [[PStr "Inconsistent cluster sizes detected: "] ++
                           map PInt (elements (cluster_sizes cs)) ++
                           [PStr ". Cluster may be partitioned."]])
    else (topology_valid, status, recommendations) in
  let '(topology_valid, status, recommendations) :=
    if (1 <? size (cluster_uuids cs))%nat then
      (false, CRITICAL,
       recommendations ++ [[PStr "Multiple cluster UUIDs detected. Nodes may not be in the same cluster."]])
    else (topology_valid, status, recommendations) in
  let '(status, recommendations) :=
    if negb (bool_decide (VStr "Primary" ∈ cluster_statuses cs)) &&
       negb (bool_decide (cluster_statuses cs = ∅)) then
      (CRITICAL,
       recommendations ++ [[PStr "No nodes in Primary component - cluster is non-operational"]])
    else (status, recommendations) in
  let recommendations :=
    if flow_control_issues cs then
      recommendations ++ [[PStr "Flow control detected - some nodes may be slower than others"]]
    else recommendations in
  let alternatives : list text :=
    if (node_count >? 5)%Z then
      [[PStr "Consider if 5+ node cluster is necessary - may add replication overhead"]]
    else [] in
  let actual_cluster_size :=
    match first_of (cluster_sizes cs) with
    | Some z => z
    | None => node_count
    end in
  Ok {| aa_topology_type := TopologyType_value GALERA;
        topology_valid := topology_valid;
        aa_status := status;
        aa_summary := [PStr "Galera cluster with "; PInt node_count; PStr " nodes"];
        node_count := node_count;
        expected_node_count := None;
        ha_capable := (node_count >=? 2)%Z;
        quorum_capable := (node_count >=? 3)%Z;
        replication_healthy := None;
        replication_lag_seconds := None;
        galera_cluster_size := Some actual_cluster_size;
        galera_cluster_status := first_of (cluster_statuses cs);
        galera_flow_control_issues := Some (flow_control_issues cs);
        maxscale_present := maxscale_is_present request;
        maxscale_healthy := None;
        architecture_recommendations := recommendations;
        consider_alternatives := alternatives |}.

End Galera.

(** ** Configuration analyzer (src/analyzers/config_analyzer.py) *)

Module Config.
Import Input Output Checks.

(** [self.findings] and [self.recommendations] *)
Record Acc := {
  findings : list Finding;
  recommendations : list Recommendation
}.

Definition add_finding (f : Finding) (acc : Acc) : Acc :=
  {| findings := findings acc ++ [f]; recommendations := recommendations acc |}.

Definition add_recommendation (r : Recommendation) (acc : Acc) : Acc :=
  {| findings := findings acc; recommendations := recommendations acc ++ [r] |}.

Definition config_finding (sev : Severity) (ttl desc det : text) : Finding :=
  {| severity := sev; category := CONFIGURATION; title := ttl;
     description := desc; details := Some det;
     metric_name := None; metric_value := None; threshold := None;
     node := None |}.

Definition F100 : pyfloat := FFin 100.

(** the title of the auto-increment lock mode warning of a node *)
Definition autoinc_title (node : NodeData) : text :=
  [PStr "Auto-increment lock mode on "; PStr (hostname node)].

Definition _analyze_innodb_config (node : NodeData) (acc : Acc) : result Acc :=
  let* buffer_pool_size := get_variable_int node "innodb_buffer_pool_size" 0 in
  let* acc :=
    match system_resources node with
    | Some sr =>
        if negb (Qeq_bool (ram_gb sr) 0) then
          let ram_bytes := fmul (FFin (ram_gb sr)) (float_of_Z GiB) in
          let* buffer_pool_pct :=
            if fgt ram_bytes (FFin 0) then
              let* r := fdiv (float_of_Z buffer_pool_size) ram_bytes in
              Ok (fmul r F100)
            else Ok (FFin 0) in
          if flt buffer_pool_pct (FFin 50) then
            let* size_gb := fdiv (float_of_Z buffer_pool_size) (float_of_Z GiB) in
            Ok (add_recommendation
                  {| priority := 3; rec_category := PERFORMANCE;
                     rec_title := [PStr "Increase buffer pool on ";
                                   PStr (hostname node)];
                     rec_description :=
                       [PStr "Buffer pool is only "; PFixed 1 buffer_pool_pct;
                        PStr "% of RAM ("; PFixed 1 size_gb; PStr "GB of ";
                        PFloat (FFin (ram_gb sr)); PStr "GB)"];
                     action := [PStr "Consider setting innodb_buffer_pool_size to 60-70% of RAM for dedicated DB servers"];
                     impact := "Better cache hit ratio";
                     effort := "low"; related_findings := [] |} acc)
          else Ok acc
        else Ok acc
    | None => Ok acc
    end in
  let flush_setting := get_variable node "innodb_flush_log_at_trx_commit" (VStr "1") in
  let acc :=
    if str_eqb (py_str flush_setting) "0" then
      add_finding
        (config_finding WARNING
           [PStr "Durability risk on "; PStr (hostname node)]
           [PStr "innodb_flush_log_at_trx_commit=0 can lose up to 1 second of transactions on crash"]
           [PStr "For Galera, this is often acceptable as other nodes have the data, but consider =2 for better durability"])
        acc
    else acc in
  let autoinc_mode := get_variable node "innodb_autoinc_lock_mode" (VStr "1") in
  let acc :=
    if negb (str_eqb (py_str autoinc_mode) "2") then
      add_finding
        (config_finding WARNING (autoinc_title node)
           [PStr "innodb_autoinc_lock_mode="; PVal autoinc_mode;
            PStr ", should be 2 for Galera"]
           [PStr "Mode 2 (interleaved) is required for Galera to avoid deadlocks"])
        acc
    else acc in
  Ok acc.

Definition _analyze_connection_config (node : NodeData)
    (request : ClusterReviewRequest) (acc : Acc) : result Acc :=
  let* max_connections := get_variable_int node "max_connections" 151 in
  let* max_used := get_status_int node "Max_used_connections" 0 in
  let* acc :=
    if (max_used >? 0)%Z then
      let* r := truediv max_used max_connections in
      let utilization := fmul r F100 in
      if fgt utilization (FFin 80) then
        Ok (add_finding
              {| severity := WARNING; category := CAPACITY;
                 title := [PStr "High connection utilization on ";
                           PStr (hostname node)];
                 description :=
                   [PStr "Peak connections ("; PInt max_used; PStr ") is ";
                    PFixed 1 utilization; PStr "% of max_connections (";
                    PInt max_connections; PStr ")"];
                 details := Some [PStr "Consider increasing max_connections or implementing connection pooling"];
                 metric_name := None; metric_value := None; threshold := None;
                 node := None |} acc)
      else if flt utilization (FFin 20) && (max_connections >? 500)%Z then
        Ok (add_recommendation
              {| priority := 4; rec_category := CONFIGURATION;
                 rec_title := [PStr "Reduce max_connections on ";
                               PStr (hostname node)];
                 rec_description :=
                   [PStr "max_connections="; PInt max_connections;
                    PStr " but peak usage is only "; PInt max_used; PStr " (";
                    PFixed 1 utilization; PStr "%)"];
                 action := [PStr "Consider reducing to ";
                            PInt (Z.max (max_used * 2) 200);
                            PStr " to free memory"];
                 impact := "Minor memory savings";
                 effort := "low"; related_findings := [] |} acc)
      else Ok acc
    else Ok acc in
  let* wait_timeout := get_variable_int node "wait_timeout" 28800 in
  if (wait_timeout >? 3600)%Z then
    let* hours := truediv wait_timeout 3600 in
    Ok (add_recommendation
          {| priority := 4; rec_category := CONFIGURATION;
             rec_title := [PStr "Review wait_timeout on "; PStr (hostname node)];
             rec_description :=
               [PStr "wait_timeout="; PInt wait_timeout; PStr "s (";
                PFixed 1 hours;
                PStr " hours) may keep idle connections too long"];
             action := [PStr "Consider reducing to 300-900 seconds for web applications"];
             impact := "Better connection management";
             effort := "low"; related_findings := [] |} acc)
  else Ok acc.

Definition _analyze_galera_config (node : NodeData) (acc : Acc) : result Acc :=
  let* slave_threads := get_variable_int node "wsrep_slave_threads" 1 in
  let* cert_deps_distance := get_status_float node "wsrep_cert_deps_distance" (FFin 0) in
  let* acc :=
    if fgt cert_deps_distance (FFin 0) &&
       flt (float_of_Z slave_threads) cert_deps_distance then
      let* d := int_of_float cert_deps_distance in
      Ok (add_recommendation
            {| priority := 3; rec_category := PERFORMANCE;
               rec_title := [PStr "Increase wsrep_slave_threads on ";
                             PStr (hostname node)];
               rec_description :=
                 [PStr "wsrep_slave_threads="; PInt slave_threads;
                  PStr " but cert_deps_distance="; PFixed 1 cert_deps_distance];
               action := [PStr "Consider setting wsrep_slave_threads to ";
                          PInt (Z.min d 16)];
               impact := "Better parallel apply performance";
               effort := "low"; related_findings := [] |} acc)
    else Ok acc in
  let sync_wait := get_variable node "wsrep_sync_wait" (VStr "0") in
  let acc :=
    if negb (str_eqb (py_str sync_wait) "0") then
      add_finding
        (config_finding INFO
           [PStr "Causal reads enabled on "; PStr (hostname node)]
           [PStr "wsrep_sync_wait="; PVal sync_wait;
            PStr " ensures read-your-writes consistency"]
           [PStr "This adds latency but guarantees consistency. Disable if not needed."])
        acc
    else acc in
  let binlog_format := get_variable node "binlog_format" (VStr "STATEMENT") in
  let acc :=
    if negb (str_eqb (upper (py_str binlog_format)) "ROW") then
      add_finding
        (config_finding WARNING
           [PStr "Wrong binlog format on "; PStr (hostname node)]
           [PStr "binlog_format="; PVal binlog_format;
            PStr ", should be ROW for Galera"]
           [PStr "ROW-based replication is required for Galera certification"])
        acc
    else acc in
  Ok acc.

(** the digits at the head of [s], and what follows them *)
Fixpoint span_digits (s : string) : string * string :=
  match s with
  | String c s' =>
      if is_digit c then
        let '(d, r) := span_digits s' in (String c d, r)
      else (EmptyString, s)
  | EmptyString => (EmptyString, EmptyString)
  end.

(** a match of [\s*=\s*(\d+[GMK]?)] at the head of [s]: its group *)
Definition option_value_at (s : string) : option string :=
  match lstrip s with
  | String "=" s1 =>
      match span_digits (lstrip s1) with
      | (EmptyString, _) => None
      | (d, String c _) =>
          if Ascii.eqb c "G" || Ascii.eqb c "M" || Ascii.eqb c "K"
          then Some (d ++ String c EmptyString)%string
          else Some d
      | (d, EmptyString) => Some d
      end
  | _ => None
  end.

(** [string s] without its prefix [p], when it has it *)
Fixpoint after_prefix (p s : string) : option string :=
  match p, s with
  | EmptyString, _ => Some s
  | String a p', String b s' => if Ascii.eqb a b then after_prefix p' s' else None
  | _, EmptyString => None
  end.

(** [re.search(key + r'\s*=\s*(\d+[GMK]?)', s).group(1)], for a literal
    [key]: the group of the leftmost match *)
Fixpoint search_option (key s : string) : option string :=
  match match after_prefix key s with
        | Some rest => option_value_at rest
        | None => None
        end with
  | Some g => Some g
  | None =>
      match s with
      | String _ s' => search_option key s'
      | EmptyString => None
      end
  end.

Definition _analyze_gcache_config (node : NodeData) (acc : Acc) : result Acc :=
  let provider_options := get_variable node "wsrep_provider_options" (VStr "") in
  let lookup (key : string) : string :=
    if truthy provider_options && contains key (py_str provider_options) then
      match search_option key (py_str provider_options) with
      | Some g => g
      | None => "0"
      end
    else "0" in
  let gcache_size := lookup "gcache.size" in
  let gcache_keep_pages := lookup "gcache.keep_pages_size" in
  let acc :=
    if str_eqb gcache_size "0" then
      add_recommendation
        {| priority := 2; rec_category := AVAILABILITY;
           rec_title := [PStr "Enable gcache on "; PStr (hostname node)];
           rec_description := [PStr "gcache.size=0 disables IST recovery"];
           action := [PStr "Set gcache.size=1G or larger based on write volume"];
           impact := "Faster node recovery after short outages";
           effort := "medium"; related_findings := [] |}
        (add_finding
           (config_finding WARNING
              [PStr "gcache disabled on "; PStr (hostname node)]
              [PStr "gcache.size=0 means IST (Incremental State Transfer) is not possible"]
              [PStr "Node recovery will always require full SST which is much slower"])
           acc)
    else acc in
  let acc :=
    if negb (str_eqb gcache_keep_pages "0") then
      add_finding
        (config_finding INFO
           [PStr "gcache.keep_pages_size on "; PStr (hostname node)]
           [PStr "gcache.keep_pages_size="; PStr gcache_keep_pages;
            PStr " provides IST capability via page files"]
           [PStr "This is a fallback mechanism when gcache.size=0"])
        acc
    else acc in
  Ok acc.

(** the body of the loop of [analyze] over the nodes *)
Definition analyze_node (request : ClusterReviewRequest) (acc : Acc)
    (node : NodeData) : result Acc :=
  let* acc := _analyze_innodb_config node acc in
  let* acc := _analyze_connection_config node request acc in
  if TopologyType_eqb (topology_type request) GALERA then
    let* acc := _analyze_galera_config node acc in
    _analyze_gcache_config node acc
  else Ok acc.

Definition analyze (request : ClusterReviewRequest) : result Acc :=
  for_each (analyze_node request) (nodes request)
    {| findings := []; recommendations := [] |}.

End Config.

(** ** Sizing analyzer: the resource consistency check
       (src/analyzers/config_analyzer.py, [SizingAnalyzer.analyze]) *)

Module Sizing.
Import Input.

(** The object given for [system_resources] in a request: the fields that
    [SystemResources] declares, and whatever other keys came with them. *)
Record SystemResourcesInput := {
  declared : SystemResources;
  other_keys : gmap string pyval
}.

(** Validation by the model class keeps the declared fields; the class
    sets no [extra] policy, so the other keys are dropped. *)
Definition SystemResources_validate (i : SystemResourcesInput) : SystemResources :=
  declared i.

(** [getattr(node.system_resources, 'disk_type', None)]: [SystemResources]
    has no attribute of that name, the default is what is read. *)
Definition getattr_disk_type (sr : SystemResources) : option string := None.

(** an entry of [node_resources_list] *)
Record NodeResources := {
  nr_hostname : string;
  nr_cpu_cores : option Z;
  nr_ram_gb : option Q;
  nr_disk_total_gb : option Q;
  nr_disk_type : option string
}.

Definition node_resources (node : NodeData) : NodeResources :=
  match system_resources node with
  | Some sr =>
      {| nr_hostname := hostname node;
         nr_cpu_cores := Some (cpu_cores sr);
         nr_ram_gb := Some (ram_gb sr);
         nr_disk_total_gb := Some (disk_total_gb sr);
         nr_disk_type := getattr_disk_type sr |}
  | None =>
      {| nr_hostname := hostname node;
         nr_cpu_cores := None; nr_ram_gb := None;
         nr_disk_total_gb := None; nr_disk_type := None |}
  end.

(** an entry of [inconsistencies] *)
Record Inconsistency := {
  resource : string;
  inc_severity : string;
  message : text;
  inc_details : list (text * list string);
  inc_recommendation : text
}.

Record ResourceConsistency := {
  is_consistent : bool;
  inconsistencies : list Inconsistency;
  node_resources_list : list NodeResources;
  recommendation : string
}.

(** the distinct values of a list, in order of first occurrence: the
    elements of [set(l)] *)
Fixpoint distinct {A} (eqb : A -> A -> bool) (l : list A) : list A :=
  match l with
  | [] => []
  | x :: l' => x :: List.filter (fun y => negb (eqb x y)) (distinct eqb l')
  end.

(** [d[k].append(h)], with [d[k] = []] first when [k] is new *)
Fixpoint group_add {A} (eqb : A -> A -> bool) (k : A) (h : string)
    (d : list (A * list string)) : list (A * list string) :=
  match d with
  | [] => [(k, [h])]
  | (k', hs) :: d' =>
      if eqb k' k then (k', hs ++ [h]) :: d'
      else (k', hs) :: group_add eqb k h d'
  end.

(** the hostnames of the nodes, grouped by the value [key] gives *)
Definition group_by {A} (eqb : A -> A -> bool) (key : NodeResources -> option A)
    (l : list NodeResources) : list (A * list string) :=
  fold_left
    (fun d n =>
       match key n with
       | Some k => group_add eqb k (nr_hostname n) d
       | None => d
       end)
    l [].

Definition Zmin_list (l : list Z) : Z := fold_right Z.min (hd 0 l) l.
Definition Zmax_list (l : list Z) : Z := fold_right Z.max (hd 0 l) l.
Definition Qmin_list (l : list Q) : Q := fold_right Qmin (hd 0%Q l) l.
Definition Qmax_list (l : list Q) : Q := fold_right Qmax (hd 0%Q l) l.

(** the values [select] gives on the nodes, those that are [None] left out *)
Definition values_of {A} (select : NodeResources -> option A)
    (l : list NodeResources) : list A :=
  omap select l.

Definition truthy_Q (q : Q) : bool := negb (Qeq_bool q 0).
Definition truthy_string (s : string) : bool := negb (str_eqb s "").

Definition disk_total_if_set (n : NodeResources) : option Q :=
  match nr_disk_total_gb n with
  | Some q => if truthy_Q q then Some q else None
  | None => None
  end.

Definition disk_type_if_set (n : NodeResources) : option string :=
  match nr_disk_type n with
  | Some s => if truthy_string s then Some s else None
  | None => None
  end.

Definition cpu_entry (with_res : list NodeResources) (cpu_values : list Z)
  : Inconsistency :=
  {| resource := "cpu_cores"; inc_severity := "warning";
     message := [PStr "CPU cores vary across nodes: "; PInt (Zmin_list cpu_values);
                 PStr " to "; PInt (Zmax_list cpu_values); PStr " vCPUs"];
     inc_details :=
       map (fun '(k, hs) => ([PInt k; PStr " vCPUs"], hs))
           (group_by Z.eqb nr_cpu_cores with_res);
     inc_recommendation :=
       [PStr "Standardize all nodes to "; PInt (Zmax_list cpu_values);
        PStr " vCPUs for consistent performance"] |}.

Definition ram_entry (with_res : list NodeResources) (ram_values : list Q)
  : Inconsistency :=
  {| resource := "ram_gb"; inc_severity := "warning";
     message := [PStr "RAM varies across nodes: ";
                 PFloat (FFin (Qmin_list ram_values)); PStr "GB to ";
                 PFloat (FFin (Qmax_list ram_values)); PStr "GB"];
     inc_details :=
       map (fun '(k, hs) => ([PFloat (FFin k); PStr " GB"], hs))
           (group_by Qeq_bool nr_ram_gb with_res);
     inc_recommendation :=
       [PStr "Standardize all nodes to "; PFloat (FFin (Qmax_list ram_values));
        PStr "GB RAM for consistent performance"] |}.

Definition disk_entry (with_res : list NodeResources) (disk_values : list Q)
  : Inconsistency :=
  {| resource := "disk_total_gb"; inc_severity := "warning";
     message := [PStr "Disk capacity varies across nodes: ";
                 PFloat (FFin (Qmin_list disk_values)); PStr "GB to ";
                 PFloat (FFin (Qmax_list disk_values)); PStr "GB"];
     inc_details :=
       map (fun '(k, hs) => ([PFloat (FFin k); PStr " GB"], hs))
           (group_by Qeq_bool disk_total_if_set with_res);
     inc_recommendation :=
       [PStr "Ensure all nodes have sufficient and consistent disk capacity"] |}.

Definition disk_type_entry (with_res : list NodeResources)
    (disk_types : list string) : Inconsistency :=
  {| resource := "disk_type"; inc_severity := "critical";
     message := [PStr "Disk types vary across nodes: ";
                 PStr (String.concat ", " disk_types)];
     inc_details :=
       map (fun '(k, hs) => ([PStr k], hs))
           (group_by String.eqb disk_type_if_set with_res);
     inc_recommendation :=
       [PStr "CRITICAL: All nodes should use same storage type (SSD/NVMe recommended). Mixed storage causes performance inconsistencies and replication lag."] |}.

Definition inconsistent_text : string :=
  "Resource inconsistencies detected across cluster nodes. For Galera/Semi-Sync/Async replication, all nodes should have equivalent CPU, RAM, and storage resources to ensure consistent performance and prevent replication lag or flow control issues.".

Definition consistent_text : string :=
  "All nodes have consistent resource allocation (CPU, RAM, storage). This is optimal for cluster performance.".

(** The block of [SizingAnalyzer.analyze] that fills
    [result["resource_consistency"]]; it reads [request.nodes] only. *)
Definition resource_consistency (request : ClusterReviewRequest)
  : result ResourceConsistency :=
  let all := map node_resources (nodes request) in
  let with_res :=
    List.filter (fun n => match nr_cpu_cores n with Some _ => true | None => false end)
      all in
  if (2 <=? length with_res)%nat then
    let cpu_values := distinct Z.eqb (values_of nr_cpu_cores with_res) in
    let ram_values := distinct Qeq_bool (values_of nr_ram_gb with_res) in
    let disk_values := distinct Qeq_bool (values_of disk_total_if_set with_res) in
    let disk_types := distinct String.eqb (values_of disk_type_if_set with_res) in
    let '(ok, incs) :=
      if (1 <? length cpu_values)%nat
      then (false, [cpu_entry with_res cpu_values]) else (true, []) in
    let '(ok, incs) :=
      if (1 <? length ram_values)%nat
      then (false, incs ++ [ram_entry with_res ram_values]) else (ok, incs) in
    let* r :=
      if (1 <? length disk_values)%nat then
        let min_disk := Qmin_list disk_values in
        let max_disk := Qmax_list disk_values in
        let* spread := fdiv (FFin (max_disk - min_disk)) (FFin max_disk) in
        if fgt spread (FFin 0.10)
        then Ok (false, incs ++ [disk_entry with_res disk_values])
        else Ok (false, incs)
      else Ok (ok, incs) in
    let '(ok, incs) := r in
    let '(ok, incs) :=
      if (1 <? length disk_types)%nat
      then (false, incs ++ [disk_type_entry with_res disk_types]) else (ok, incs) in
    Ok {| is_consistent := ok; inconsistencies := incs;
          node_resources_list := all;
          recommendation :=
            match incs with [] => consistent_text | _ => inconsistent_text end |}
  else
    Ok {| is_consistent := true; inconsistencies := [];
          node_resources_list := all; recommendation := "" |}.

End Sizing.

(** ** MaxScale analyzer: load distribution (src/analyzers/maxscale.py) *)

Module MaxScale.
Import Input Output Checks.

Record Acc := {
  findings : list Finding;
  recommendations : list Recommendation
}.

(** the integer nearest to [q], ties going to the even one *)
Definition round_half_even (q : Q) : Z :=
  let f := Qfloor q in
  match Qcompare (q - inject_Z f) (1 # 2) with
  | Lt => f
  | Gt => f + 1
  | Eq => if Z.even f then f else f + 1
  end.

(** [round(x, ndigits)] *)
Definition py_round (x : pyfloat) (ndigits : nat) : pyfloat :=
  match x with
  | FFin q =>
      FFin (Qmake (round_half_even (q * inject_Z (pow10 ndigits)))
                  (Z.to_pos (pow10 ndigits)))
  | _ => x
  end.

(** [x or 0] for an optional int *)
Definition or_zero (x : option Z) : Z :=
  match x with Some z => z | None => 0 end.

(** truth value of an optional int, of an optional string *)
Definition truthy_int (x : option Z) : bool :=
  match x with Some z => negb (z =? 0)%Z | None => false end.
Definition truthy_str (x : option string) : bool :=
  match x with Some s => negb (str_eqb s "") | None => false end.

Definition sum_Z (l : list Z) : Z := fold_left Z.add l 0.

Record ServerStats := {
  ss_name : string;
  ss_state : option string;
  ss_connections : option Z;
  connection_pct : option pyfloat;
  ss_queries : option Z;
  query_pct : option pyfloat
}.

Record Distribution := {
  dist_servers : list ServerStats;
  balanced : bool;
  imbalance_pct : pyfloat
}.

Definition F100 : pyfloat := FFin 100.

(** [round((part / total) * 100, 1)] when [total > 0] and [part] is set
    and not zero *)
Definition share_pct (total : Z) (part : option Z) : result (option pyfloat) :=
  if (total >? 0)%Z && truthy_int part then
    let* r := truediv (or_zero part) total in
    Ok (Some (py_round (fmul r F100) 1))
  else Ok None.

Definition server_stats (total_queries total_connections : Z)
    (server : MaxScaleServer) : result ServerStats :=
  let* cp := share_pct total_connections (server_connections server) in
  let* qp := share_pct total_queries (queries server) in
  Ok {| ss_name := server_name server; ss_state := state server;
        ss_connections := server_connections server; connection_pct := cp;
        ss_queries := queries server; query_pct := qp |}.

Fixpoint map_result {A B} (f : A -> result B) (l : list A) : result (list B) :=
  match l with
  | [] => Ok []
  | x :: l' =>
      let* y := f x in
      let* ys := map_result f l' in
      Ok (y :: ys)
  end.

(** ["master" not in (s["state"] or "").lower()] *)
Definition not_master (s : ServerStats) : bool :=
  negb (contains "master"
          (lower (match ss_state s with Some st => st | None => "" end))).

(** the query shares the balance check compares *)
Definition query_pcts (l : list ServerStats) : list pyfloat :=
  omap (fun s => if not_master s then query_pct s else None) l.

Definition fmax (a b : pyfloat) : pyfloat := if fgt b a then b else a.
Definition fmin (a b : pyfloat) : pyfloat := if flt b a then b else a.

(** [max(l)] and [min(l)] of a list that is not empty *)
Definition max_list (l : list pyfloat) : pyfloat :=
  match l with
  | [] => FFin 0
  | x :: l' => fold_left fmax l' x
  end.
Definition min_list (l : list pyfloat) : pyfloat :=
  match l with
  | [] => FFin 0
  | x :: l' => fold_left fmin l' x
  end.

Definition _calculate_load_distribution (maxscale : MaxScaleConfig)
  : result Distribution :=
  let total_queries := sum_Z (map (fun s => or_zero (queries s)) (servers maxscale)) in
  let total_connections :=
    sum_Z (map (fun s => or_zero (server_connections s)) (servers maxscale)) in
  let* stats :=
    map_result (server_stats total_queries total_connections) (servers maxscale) in
  let pcts := query_pcts stats in
  if (1 <? length pcts)%nat then
    let imbalance := py_round (fsub (max_list pcts) (min_list pcts)) 1 in
    Ok {| dist_servers := stats;
          balanced := negb (fgt imbalance (FFin 20));
          imbalance_pct := imbalance |}
  else
    Ok {| dist_servers := stats; balanced := true; imbalance_pct := FFin 0 |}.

Definition fabs (x : pyfloat) : pyfloat :=
  match x with
  | FFin q => FFin (Qabs q)
  | FNInf => FInf
  | _ => x
  end.

Definition unbalanced_title : text := [PStr "Unbalanced read distribution"].
Definition rebalance_title : text := [PStr "Review load balancing configuration"].

(** [abs(queries - expected) / expected * 100 if expected > 0 else 0] *)
Definition deviation_of (queries : Z) (expected_per_slave : pyfloat)
  : result pyfloat :=
  if fgt expected_per_slave (FFin 0) then
    let* r := fdiv (fabs (fsub (float_of_Z queries) expected_per_slave))
                   expected_per_slave in
    Ok (fmul r F100)
  else Ok (FFin 0).

(** the body of the loop over the slaves *)
Definition check_slave (expected_per_slave : pyfloat) (acc : Acc)
    (slave : string * Z) : result Acc :=
  let '(name, queries) := slave in
  let* deviation := deviation_of queries expected_per_slave in
  if fgt deviation (FFin 30) then
    let* expected_int := int_of_float expected_per_slave in
    Ok {| findings := findings acc ++ [
            {| severity := WARNING; category := PERFORMANCE;
               title := unbalanced_title;
               description :=
                 [PStr "Server '"; PStr name; PStr "' has "; PFixed 1 deviation;
                  PStr "% deviation from average. ("; PInt queries;
                  PStr " queries vs "; PInt expected_int; PStr " expected)"];
               details := None; metric_name := None; metric_value := None;
               threshold := None; node := None |}];
          recommendations := recommendations acc ++ [
            {| priority := 3; rec_category := PERFORMANCE;
               rec_title := rebalance_title;
               rec_description :=
                 [PStr "Server '"; PStr name; PStr "' is handling uneven load"];
               action := [PStr "Review slave_selection_criteria setting. Consider ADAPTIVE_ROUTING."];
               impact := "Better query distribution";
               effort := "low"; related_findings := [] |}] |}
  else Ok acc.

(** [(name, queries, state)] of the servers whose [queries] is set and
    not zero *)
Definition servers_with_queries (maxscale : MaxScaleConfig)
  : list (string * Z * option string) :=
  omap (fun s =>
          if truthy_int (queries s)
          then Some (server_name s, or_zero (queries s), state s)
          else None)
       (servers maxscale).

(** those of them whose state contains "slave" *)
Definition slave_queries (l : list (string * Z * option string))
  : list (string * Z) :=
  omap (fun '(name, q, st) =>
          match st with
          | Some s =>
              if negb (str_eqb s "") && contains "slave" (lower s)
              then Some (name, q) else None
          | None => None
          end)
       l.

Definition no_queries_finding (server : MaxScaleServer) : Finding :=
  {| severity := WARNING; category := CONFIGURATION;
     title := [PStr "Server receiving no queries"];
     description :=
       [PStr "Server '"; PStr (server_name server);
        PStr "' is running but has received no queries. Check if it's properly assigned to services."];
     details := None; metric_name := None; metric_value := None;
     threshold := None; node := None |}.

Definition check_no_queries (acc : Acc) (server : MaxScaleServer) : result Acc :=
  match state server, queries server with
  | Some st, Some 0 =>
      if negb (str_eqb st "") && contains "running" (lower st) then
        Ok {| findings := findings acc ++ [no_queries_finding server];
              recommendations := recommendations acc |}
      else Ok acc
  | _, _ => Ok acc
  end.

Definition _analyze_load_distribution (maxscale : MaxScaleConfig) (acc : Acc)
  : result Acc :=
  match servers maxscale with
  | [] => Ok acc
  | _ =>
      let with_q := servers_with_queries maxscale in
      let* acc :=
        if (1 <? length with_q)%nat then
          let total_queries := sum_Z (map (fun '(_, q, _) => q) with_q) in
          if (total_queries >? 0)%Z then
            let slaves := slave_queries with_q in
            if (1 <? length slaves)%nat then
              let slave_total := sum_Z (map snd slaves) in
              let* expected_per_slave :=
                truediv slave_total (Z.of_nat (length slaves)) in
              for_each (check_slave expected_per_slave) slaves acc
            else Ok acc
          else Ok acc
        else Ok acc in
      for_each check_no_queries (servers maxscale) acc
  end.

End MaxScale.

(** ** Review service: topology detection (src/services/review_service.py) *)

Module ReviewService.
Import Input.

Definition is_on (v : pyval) : bool := str_eqb (upper (py_str v)) "ON".

(** the body of the first loop: does the node show Galera? *)
Definition galera_indicator (node : NodeData) : bool :=
  is_on (get_variable node "wsrep_on" (VStr "OFF")) ||
  truthy (get_status node "wsrep_cluster_size" VNone).

(** what the second loop collects *)
Record Flags := {
  has_master : bool;
  has_replica : bool;
  has_semi_sync : bool
}.

Definition collect_flags (acc : Flags) (node : NodeData) : Flags :=
  {| has_master :=
       if Metrics.dict_truthy (master_status node) then true else has_master acc;
     has_replica :=
       if Metrics.dict_truthy (slave_status node) then true else has_replica acc;
     has_semi_sync :=
       if is_on (get_variable node "rpl_semi_sync_master_enabled" (VStr "OFF")) ||
          is_on (get_variable node "rpl_semi_sync_slave_enabled" (VStr "OFF"))
       then true else has_semi_sync acc |}.

Definition detect_topology (request : ClusterReviewRequest) : TopologyType :=
  if existsb galera_indicator (nodes request) then GALERA
  else
    let flags :=
      fold_left collect_flags (nodes request)
        {| has_master := false; has_replica := false; has_semi_sync := false |} in
    if has_replica flags then
      if has_semi_sync flags then SEMI_SYNC else MASTER_REPLICA
    else STANDALONE.

End ReviewService.

(** ** The regular expressions of the log analyzer *)

Module Pattern.

(** The patterns of the analyzer are alternatives of sequences of literal
    text, [.], [.*], [\d{n}] and [\s+]. *)
Inductive item :=
| Lit (s : string)
| Dot
| DotStar
| Digits (n : nat)
| Spaces1.

Abbreviation pattern := (list (list item)).

Definition is_newline (c : ascii) : bool := Ascii.eqb c "010".

Definition char_eqb (ignorecase : bool) (a b : ascii) : bool :=
  if ignorecase then Ascii.eqb (to_lower a) (to_lower b) else Ascii.eqb a b.

(** [s] without the literal [l] at its head, when it starts with it *)
Fixpoint strip_literal (ignorecase : bool) (l s : string) : option string :=
  match l, s with
  | EmptyString, _ => Some s
  | String a l', String b s' =>
      if char_eqb ignorecase a b then strip_literal ignorecase l' s' else None
  | _, EmptyString => None
  end.

Fixpoint strip_digits (n : nat) (s : string) : option string :=
  match n, s with
  | O, _ => Some s
  | S n', String c s' => if is_digit c then strip_digits n' s' else None
  | S _, EmptyString => None
  end.

(** A match of the sequence [items] at the head of [s]: what is left of
    [s] after it.  Repetitions are greedy and give back one character at
    a time. *)
Fixpoint match_items (ignorecase : bool) (items : list item) (s : string)
    {struct items} : option string :=
  match items with
  | [] => Some s
  | Lit l :: rest =>
      match strip_literal ignorecase l s with
      | Some s' => match_items ignorecase rest s'
      | None => None
      end
  | Dot :: rest =>
      match s with
      | String c s' =>
          if is_newline c then None else match_items ignorecase rest s'
      | EmptyString => None
      end
  | DotStar :: rest =>
      (fix star (s : string) : option string :=
         match s with
         | String c s' =>
             if is_newline c then match_items ignorecase rest s
             else match star s' with
                  | Some r => Some r
                  | None => match_items ignorecase rest s
                  end
         | EmptyString => match_items ignorecase rest s
         end) s
  | Digits n :: rest =>
      match strip_digits n s with
      | Some s' => match_items ignorecase rest s'
      | None => None
      end
  | Spaces1 :: rest =>
      match s with
      | String c s' =>
          if is_space c then
            (fix more (s : string) : option string :=
               match s with
               | String c s' =>
                   if is_space c then
                     match more s' with
                     | Some r => Some r
                     | None => match_items ignorecase rest s
                     end
                   else match_items ignorecase rest s
               | EmptyString => match_items ignorecase rest s
               end) s'
          else None
      | EmptyString => None
      end
  end.

(** the first alternative that matches at the head of [s] *)
Fixpoint match_at (ignorecase : bool) (p : pattern) (s : string) : option string :=
  match p with
  | [] => None
  | alt :: p' =>
      match match_items ignorecase alt s with
      | Some r => Some r
      | None => match_at ignorecase p' s
      end
  end.

(** [p.search(s)]: the leftmost match, as the text it matched *)
Fixpoint search_text (ignorecase : bool) (p : pattern) (s : string) : option string :=
  match match_at ignorecase p s with
  | Some r => Some (take (String.length s - String.length r) s)
  | None =>
      match s with
      | String _ s' => search_text ignorecase p s'
      | EmptyString => None
      end
  end.

(** [bool(p.search(s))] *)
Definition search (ignorecase : bool) (p : pattern) (s : string) : bool :=
  match search_text ignorecase p s with Some _ => true | None => false end.

Definition flush (lit : string) (seq : list item) : list item :=
  match lit with
  | EmptyString => seq
  | _ => seq ++ [Lit lit]
  end.

(** Reading a pattern written with literals, [\c], [.], [.*] and [|]. *)
Fixpoint compile_from (src lit : string) (seq : list item) : pattern :=
  match src with
  | EmptyString => [flush lit seq]
  | String "|" src' => flush lit seq :: compile_from src' "" []
  | String "\" (String c src') =>
      compile_from src' (lit ++ String c "")%string seq
  | String "." (String "*" src') =>
      compile_from src' "" (flush lit seq ++ [DotStar])
  | String "." src' => compile_from src' "" (flush lit seq ++ [Dot])
  | String c src' => compile_from src' (lit ++ String c "")%string seq
  end.

Definition compile (src : string) : pattern := compile_from src "" [].

End Pattern.

(** ** Log analyzer for MariaDB logs (src/analyzers/log_analyzer.py) *)

Module LogAnalyzer.
Import Output Pattern.

(** an entry of an event list: [{"timestamp": .., "message": ..}], with a
    ["type"] in the timelines that tag their entries *)
Record Event := {
  timestamp : option string;
  message : string;
  type : option string
}.

(** the event lists of [LogSummary] *)
Inductive bucket :=
| critical_events | sst_events | ist_events | flow_control_events
| connection_errors | state_changes | disk_issues | inconsistency_events
| innodb_buffer_issues | innodb_oom_events | innodb_corruption_events
| crash_events | startup_events | unexpected_shutdown_events
| oom_killer_events | replication_errors | binlog_errors | gtid_errors
| slave_stopped_events | max_connection_errors | connection_refused_events
| host_blocked_events | ssl_errors | deadlock_events | lock_wait_events
| long_semaphore_events.

#[global] Instance bucket_eq_dec : EqDecision bucket.
Proof. solve_decision. Defined.

(** [LogSummary]: the three counters, and the event list of each name *)
Record LogSummary := {
  total_lines : Z;
  error_count : Z;
  warning_count : Z;
  events : bucket -> list Event
}.

(** [summary.<b>.append(e)] *)
Definition append_event (b : bucket) (e : Event) (s : LogSummary) : LogSummary :=
  {| total_lines := total_lines s; error_count := error_count s;
     warning_count := warning_count s;
     events := fun b' => if bool_decide (b' = b) then events s b' ++ [e]
                         else events s b' |}.

Definition count_error (s : LogSummary) : LogSummary :=
  {| total_lines := total_lines s; error_count := error_count s + 1;
     warning_count := warning_count s; events := events s |}.

Definition count_warning (s : LogSummary) : LogSummary :=
  {| total_lines := total_lines s; error_count := error_count s;
     warning_count := warning_count s + 1; events := events s |}.

(** [{**event, "type": t}] *)
Definition tagged (t : string) (e : Event) : Event :=
  {| timestamp := timestamp e; message := message e; type := Some t |}.

(** the patterns of [PATTERNS] that the analysis uses, all compiled with
    [re.IGNORECASE] *)
Definition PATTERNS (name : string) : pattern :=
  compile
    (if str_eqb name "error" then "\[ERROR\]|\[error\]|ERROR:"
     else if str_eqb name "warning" then "\[Warning\]|\[warning\]|Warning:"
     else if str_eqb name "sst" then "SST|State Transfer|state transfer"
     else if str_eqb name "ist" then "IST|Incremental State Transfer"
     else if str_eqb name "flow_control" then "flow.control|Flow-control"
     else if str_eqb name "inconsistent" then "Inconsistent|INCONSISTENT|inconsistency"
     else if str_eqb name "innodb_buffer_warning" then
       "buffer.pool.*warning|cannot allocate|memory.*exhausted|oom|out.of.memory"
     else if str_eqb name "innodb_oom" then
       "InnoDB.*Cannot allocate|InnoDB.*out of memory|mmap.*failed"
     else if str_eqb name "innodb_corruption" then
       "corrupt|corruption|checksum.*mismatch|page.*invalid"
     else if str_eqb name "innodb_recovery" then
       "InnoDB.*recovery|crash.recovery|Starting.crash.recovery"
     else if str_eqb name "crash" then
       "crash|CRASH|segfault|SIGSEGV|SIGABRT|SIGKILL|assertion.*fail|mysqld.*got.*signal"
     else if str_eqb name "startup" then
       "starting.*mysqld|MariaDB.*starting|ready for connections|Server.*socket.*created"
     else if str_eqb name "unexpected_shutdown" then
       "unexpected|abnormal|unclean|not.*graceful|killed|SIGTERM|SIGKILL"
     else if str_eqb name "oom_killer" then
       "oom.killer|Out.of.memory.*Killed|invoked.oom-killer|memory.cgroup"
     else if str_eqb name "replication_error" then
       "Slave.*error|replication.*error|Last_Error|Slave_IO_Running.*No|Slave_SQL_Running.*No"
     else if str_eqb name "binlog_error" then
       "binlog.*error|binary.log.*error|relay.log.*error|could not.*binlog"
     else if str_eqb name "gtid_error" then
       "GTID.*error|gtid.*mismatch|gtid.*gap|gtid.*skip"
     else if str_eqb name "slave_stopped" then
       "Slave.*stopped|slave.*thread.*exiting|stopping.*slave"
     else if str_eqb name "max_connections" then
       "max_connections|too.many.connections|Connection.*refused|ERROR.*1040"
     else if str_eqb name "connection_refused" then
       "connection.*refused|Access.denied|ERROR.*1045|Host.*blocked"
     else if str_eqb name "connection_abort" then
       "Aborted.connection|Got.an.error.reading|communication.packets"
     else if str_eqb name "ssl_error" then
       "SSL.*error|TLS.*error|certificate.*error|handshake.*fail"
     else if str_eqb name "host_blocked" then
       "Host.*blocked|blocked.because.of.many.connection.errors"
     else if str_eqb name "disk_full" then
       "table.*is full|disk full|no space|HA_ERR_RECORD_FILE_FULL|errno.*28"
     else if str_eqb name "disk_io_error" then
       "disk.*I/O.*error|read.*error|write.*error|pread.*failed|pwrite.*failed"
     else if str_eqb name "deadlock" then "deadlock|DEADLOCK"
     else if str_eqb name "lock_wait" then "lock.wait.timeout|waiting.for.*lock"
     else if str_eqb name "long_semaphore" then
       "long.semaphore.wait|Semaphore.wait|waited.*seconds"
     else "").

(** [self.PATTERNS[name].search(line)] *)
Definition found (name line : string) : bool := search true (PATTERNS name) line.

Definition clock : list item :=
  [Digits 2; Lit ":"; Digits 2; Lit ":"; Digits 2].

Definition TIMESTAMP_PATTERNS : list pattern :=
  [ [[Digits 4; Lit "-"; Digits 2; Lit "-"; Digits 2; Spaces1] ++ clock];
    [[Digits 6; Spaces1] ++ clock] ].

Fixpoint first_match (ps : list pattern) (line : string) : option string :=
  match ps with
  | [] => None
  | p :: ps' =>
      match search_text false p line with
      | Some t => Some t
      | None => first_match ps' line
      end
  end.

Definition _extract_timestamp (line : string) : option string :=
  first_match TIMESTAMP_PATTERNS line.

(** [{"timestamp": timestamp, "message": line[:200]}] *)
Definition event_of (line : string) (ts : option string) : Event :=
  {| timestamp := ts; message := take 200 line; type := None |}.

(** [if cond: summary.<b>.append(event)] *)
Definition record_if (cond : bool) (b : bucket) (e : Event) (s : LogSummary)
  : LogSummary :=
  if cond then append_event b e s else s.

(** [if cond: summary.<b>.append(event);
              summary.critical_events.append({**event, "type": t})] *)
Definition record_critical_if (cond : bool) (b : bucket) (t : string) (e : Event)
    (s : LogSummary) : LogSummary :=
  if cond then append_event critical_events (tagged t e) (append_event b e s)
  else s.

Definition _categorize_error (line : string) (ts : option string)
  : list (LogSummary -> LogSummary) :=
  let event := event_of line ts in
  [ record_critical_if (found "disk_full" line) disk_issues "disk_full" event;
    record_critical_if (found "disk_io_error" line) disk_issues "disk_io_error" event;
    record_critical_if (found "inconsistent" line) inconsistency_events
      "inconsistency" event;
    record_if (found "connection_abort" line) connection_errors event;
    record_critical_if
      (found "innodb_buffer_warning" line || found "innodb_oom" line)
      innodb_buffer_issues "innodb_memory" event;
    record_critical_if (found "innodb_oom" line) innodb_oom_events "innodb_oom" event;
    record_critical_if (found "innodb_corruption" line) innodb_corruption_events
      "innodb_corruption" event;
    record_critical_if (found "crash" line) crash_events "crash" event;
    record_critical_if (found "oom_killer" line) oom_killer_events "oom_killer" event;
    record_critical_if (found "replication_error" line) replication_errors
      "replication_error" event;
    record_critical_if (found "binlog_error" line) binlog_errors "binlog_error" event;
    record_if (found "gtid_error" line) gtid_errors event;
    record_if (found "slave_stopped" line) slave_stopped_events event;
    record_critical_if (found "max_connections" line) max_connection_errors
      "max_connections" event;
    record_if (found "connection_refused" line) connection_refused_events event;
    record_critical_if (found "host_blocked" line) host_blocked_events
      "host_blocked" event;
    record_if (found "ssl_error" line) ssl_errors event;
    record_if (found "deadlock" line) deadlock_events event;
    record_if (found "lock_wait" line) lock_wait_events event;
    record_critical_if (found "long_semaphore" line) long_semaphore_events
      "long_semaphore" event ].

Definition _check_galera_events (line : string) (ts : option string)
  : list (LogSummary -> LogSummary) :=
  let event := event_of line ts in
  [ record_if (found "sst" line && contains "SST" (upper line)) sst_events event;
    record_if (found "ist" line && contains "IST" (upper line)) ist_events event;
    record_if (found "flow_control" line) flow_control_events event;
    record_if (contains "state change" (lower line) || contains "Shifting" line)
      state_changes event;
    record_if (found "startup" line) startup_events event;
    record_if (found "unexpected_shutdown" line && found "error" line)
      unexpected_shutdown_events event;
    record_if (found "innodb_recovery" line) crash_events
      (tagged "recovery_after_crash" event) ].

(** the body of the loop over the lines *)
Definition analyze_line (s : LogSummary) (line : string) : LogSummary :=
  if str_eqb (strip line) "" then s
  else
    let ts := _extract_timestamp line in
    let s :=
      if found "error" line
      then Checks.run_checks (_categorize_error line ts) (count_error s)
      else s in
    let s := if found "warning" line then count_warning s else s in
    Checks.run_checks (_check_galera_events line ts) s.

(** [s.split(sep)] for a one-character separator *)
Fixpoint split_on (sep : ascii) (s : string) : list string :=
  match s with
  | EmptyString => [EmptyString]
  | String c s' =>
      if Ascii.eqb c sep then EmptyString :: split_on sep s'
      else match split_on sep s' with
           | l :: ls => String c l :: ls
           | [] => [String c EmptyString]
           end
  end.

Definition empty_summary (n : Z) : LogSummary :=
  {| total_lines := n; error_count := 0; warning_count := 0;
     events := fun _ => [] |}.

Definition summarize (log_content : string) : LogSummary :=
  let lines := split_on "010" log_content in
  fold_left analyze_line lines (empty_summary (Z.of_nat (length lines))).

Record Acc := {
  findings : list Finding;
  recommendations : list Recommendation
}.

Definition finding (sev : Severity) (cat : Category) (ttl desc det : text)
    (acc : Acc) : Acc :=
  {| findings := findings acc ++ [
       {| severity := sev; category := cat; title := ttl; description := desc;
          details := Some det; metric_name := None; metric_value := None;
          threshold := None; node := None |}];
     recommendations := recommendations acc |}.

Definition recommend (prio : Z) (cat : Category) (ttl desc : string)
    (act : string) (imp eff : string) (acc : Acc) : Acc :=
  {| findings := findings acc;
     recommendations := recommendations acc ++ [
       {| priority := prio; rec_category := cat; rec_title := [PStr ttl];
          rec_description := [PStr desc]; action := [PStr act];
          impact := imp; effort := eff; related_findings := [] |}] |}.

Definition when (cond : bool) (f : Acc -> Acc) (acc : Acc) : Acc :=
  if cond then f acc else acc.

Definition nonempty {A} (l : list A) : bool :=
  match l with [] => false | _ => true end.

Definition count {A} (l : list A) : Z := Z.of_nat (length l).

Definition dict_of (e : Event) : list (string * option string) :=
  [("timestamp", timestamp e); ("message", Some (message e))] ++
  match type e with Some t => [("type", Some t)] | None => [] end.

(** [str(l[:3])] *)
Definition first_three (l : list Event) : text :=
  [PDicts (map dict_of (firstn 3 l))].

Definition nl : string := String "010" EmptyString.

(** the numbered steps of an action, one per line *)
Definition steps (l : list string) : string := String.concat nl l.

Definition disk_action : string :=
  steps ["1. Check disk space with df -h"; "2. Identify large tables";
         "3. Clean up old data or expand storage"].

Definition _generate_findings (summary : LogSummary) (log_name : string)
  : list (Acc -> Acc) :=
  let ev := events summary in
  let titled (s : string) : text := [PStr s; PStr log_name] in
  let found_n (b : bucket) (what : string) : text :=
    [PStr "Found "; PInt (count (ev b)); PStr what] in
  [ when (nonempty (ev disk_issues))
      (finding CRITICAL STORAGE (titled "Disk space issues detected in ")
         (found_n disk_issues " disk/table full errors")
         (first_three (ev disk_issues)));
    when (nonempty (ev disk_issues))
      (recommend 1 STORAGE "Address disk space issues immediately"
         "Tables or disk becoming full caused node failures"
         disk_action "Critical - prevents node failures" "medium");
    when (nonempty (ev innodb_buffer_issues))
      (finding CRITICAL RESOURCE (titled "InnoDB buffer pool issues in ")
         (found_n innodb_buffer_issues " InnoDB buffer/memory warnings")
         (first_three (ev innodb_buffer_issues)));
    when (nonempty (ev innodb_buffer_issues))
      (recommend 1 RESOURCE "Review InnoDB buffer pool configuration"
         "Buffer pool memory issues can cause severe performance degradation"
         (steps ["1. Check innodb_buffer_pool_size vs available RAM";
                 "2. Monitor memory usage";
                 "3. Consider reducing buffer pool or adding RAM"])
         "Critical - prevents OOM and crashes" "medium");
    when (nonempty (ev innodb_oom_events))
      (finding CRITICAL RESOURCE (titled "InnoDB out-of-memory events in ")
         (found_n innodb_oom_events " InnoDB OOM events")
         [PStr "InnoDB could not allocate memory - may cause crashes"]);
    when (nonempty (ev innodb_corruption_events))
      (finding CRITICAL STORAGE (titled "InnoDB corruption detected in ")
         (found_n innodb_corruption_events " corruption/checksum errors")
         [PStr "Data corruption detected - immediate investigation required"]);
    when (nonempty (ev innodb_corruption_events))
      (recommend 1 STORAGE "Investigate InnoDB corruption immediately"
         "Data corruption can lead to data loss"
         (steps ["1. Run CHECK TABLE on affected tables";
                 "2. Check disk health (SMART status)";
                 "3. Consider restoring from backup if severe"])
         "Critical - data integrity at risk" "high");
    when (nonempty (ev crash_events))
      (finding CRITICAL AVAILABILITY (titled "Crash/recovery events detected in ")
         (found_n crash_events " crash or recovery events")
         (first_three (ev crash_events)));
    when (nonempty (ev crash_events))
      (recommend 1 AVAILABILITY "Investigate MariaDB crashes"
         "Crashes indicate severe issues requiring investigation"
         (steps ["1. Check for segfaults in system logs";
                 "2. Review memory usage patterns";
                 "3. Check for known bugs in MariaDB version"])
         "Critical - service availability" "high");
    when (nonempty (ev oom_killer_events))
      (finding CRITICAL RESOURCE (titled "OOM killer events detected in ")
         (found_n oom_killer_events " OOM killer invocations")
         [PStr "Linux OOM killer terminated MariaDB due to memory exhaustion"]);
    when (nonempty (ev oom_killer_events))
      (recommend 1 RESOURCE "Address memory exhaustion"
         "OOM killer is terminating MariaDB"
         (steps ["1. Reduce innodb_buffer_pool_size"; "2. Add swap space";
                 "3. Increase server RAM"; "4. Check for memory leaks"])
         "Critical - prevents unplanned restarts" "medium");
    when (5 <? count (ev startup_events))%Z
      (finding WARNING AVAILABILITY (titled "Frequent restarts detected in ")
         (found_n startup_events " server startup events")
         [PStr "Multiple restarts may indicate instability"]);
    when (nonempty (ev replication_errors))
      (finding CRITICAL REPLICATION (titled "Replication errors in ")
         (found_n replication_errors " replication errors")
         (first_three (ev replication_errors)));
    when (nonempty (ev replication_errors))
      (recommend 1 REPLICATION "Fix replication errors"
         "Replication is broken or experiencing errors"
         (steps ["1. Check SHOW SLAVE STATUS\G"; "2. Identify and fix the error";
                 "3. Consider pt-table-sync for data drift"])
         "Critical - data consistency at risk" "medium");
    when (nonempty (ev binlog_errors))
      (finding CRITICAL REPLICATION (titled "Binary log errors in ")
         (found_n binlog_errors " binlog/relay log errors")
         [PStr "Binary log errors can break replication"]);
    when (nonempty (ev gtid_errors))
      (finding WARNING REPLICATION (titled "GTID errors in ")
         (found_n gtid_errors " GTID-related errors")
         [PStr "GTID gaps or mismatches can cause replication issues"]);
    when (nonempty (ev slave_stopped_events))
      (finding WARNING REPLICATION (titled "Slave stopped events in ")
         (found_n slave_stopped_events " slave stopped events")
         [PStr "Replication slave has stopped - may need manual intervention"]);
    when (nonempty (ev max_connection_errors))
      (finding CRITICAL CAPACITY (titled "Max connections exceeded in ")
         (found_n max_connection_errors " max_connections errors")
         [PStr "Clients are being refused due to connection limit"]);
    when (nonempty (ev max_connection_errors))
      (recommend 1 CAPACITY "Increase max_connections or implement pooling"
         "Connection limit is being hit"
         (steps ["1. Increase max_connections"; "2. Implement connection pooling";
                 "3. Review application connection handling"])
         "Critical - clients cannot connect" "low");
    when (nonempty (ev host_blocked_events))
      (finding CRITICAL SECURITY (titled "Hosts blocked in ")
         (found_n host_blocked_events " host blocked events")
         [PStr "Hosts are being blocked due to too many connection errors"]);
    when (nonempty (ev host_blocked_events))
      (recommend 2 SECURITY "Investigate blocked hosts"
         "Hosts are being blocked - may be attack or misconfiguration"
         (steps ["1. Run FLUSH HOSTS to unblock"; "2. Increase max_connect_errors";
                 "3. Investigate source of failed connections"])
         "Clients from blocked hosts cannot connect" "low");
    when (nonempty (ev ssl_errors))
      (finding WARNING SECURITY (titled "SSL/TLS errors in ")
         (found_n ssl_errors " SSL/TLS errors")
         [PStr "SSL handshake or certificate issues"]);
    when (100 <? count (ev connection_errors))%Z
      (finding WARNING NETWORK (titled "High connection abort rate in ")
         (found_n connection_errors " aborted connections")
         [PStr "High abort rate may indicate network issues or client problems"]);
    when (nonempty (ev deadlock_events))
      (finding WARNING PERFORMANCE (titled "Deadlocks detected in ")
         (found_n deadlock_events " deadlock events")
         [PStr "Deadlocks cause transaction rollbacks"]);
    when (nonempty (ev deadlock_events))
      (recommend 3 PERFORMANCE "Investigate deadlocks" "Deadlocks are occurring"
         (steps ["1. Enable innodb_print_all_deadlocks";
                 "2. Review transaction isolation levels";
                 "3. Optimize transaction ordering"])
         "Reduces failed transactions" "medium");
    when (nonempty (ev lock_wait_events))
      (finding WARNING PERFORMANCE (titled "Lock wait timeouts in ")
         (found_n lock_wait_events " lock wait timeout events")
         [PStr "Transactions are timing out waiting for locks"]);
    when (nonempty (ev long_semaphore_events))
      (finding WARNING PERFORMANCE (titled "Long semaphore waits in ")
         (found_n long_semaphore_events " long semaphore wait events")
         [PStr "InnoDB is experiencing internal contention"]);
    when (nonempty (ev inconsistency_events))
      (finding CRITICAL CAT_GALERA (titled "Galera inconsistency detected in ")
         (found_n inconsistency_events
            " inconsistency events - nodes were voted out")
         (first_three (ev inconsistency_events)));
    when (3 <? count (ev sst_events))%Z
      (finding WARNING CAT_GALERA (titled "Frequent SST events in ")
         (found_n sst_events " SST (full state transfer) events")
         [PStr "Frequent SST indicates nodes frequently need full resync"]);
    when (3 <? count (ev sst_events))%Z
      (fun acc =>
         {| findings := findings acc;
            recommendations := recommendations acc ++ [
              {| priority := 2; rec_category := CAT_GALERA;
                 rec_title := [PStr "Enable gcache to allow IST instead of SST"];
                 rec_description :=
                   [PInt (count (ev sst_events));
                    PStr " SST events detected - IST would be faster"];
                 action := [PStr "Set gcache.size to 1G or higher based on write volume"];
                 impact := "Faster node recovery"; effort := "low";
                 related_findings := [] |}] |});
    when (10 <? count (ev flow_control_events))%Z
      (finding WARNING PERFORMANCE (titled "Flow control activity in ")
         (found_n flow_control_events " flow control related events")
         [PStr "Flow control pauses replication when nodes can't keep up"]);
    finding INFO GENERAL (titled "Log summary for ")
      [PStr "Total lines: "; PInt (total_lines summary); PStr ", Errors: ";
       PInt (error_count summary); PStr ", Warnings: ";
       PInt (warning_count summary)]
      [PStr "Crashes: "; PInt (count (ev crash_events)); PStr ", Restarts: ";
       PInt (count (ev startup_events)); PStr ", SST: ";
       PInt (count (ev sst_events)); PStr ", Replication errors: ";
       PInt (count (ev replication_errors))] ].

(** the summary, the findings and the recommendations of the dict that
    [analyze_log_content] returns *)
Record LogResult := {
  summary : LogSummary;
  log_findings : list Finding;
  log_recommendations : list Recommendation
}.

Definition analyze_log_content (log_content log_name : string) : LogResult :=
  let s := summarize log_content in
  let acc :=
    Checks.run_checks (_generate_findings s log_name)
      {| findings := []; recommendations := [] |} in
  {| summary := s; log_findings := findings acc;
     log_recommendations := recommendations acc |}.

End LogAnalyzer.

(** * The properties, and the inputs they are tried on *)

Module Props.
Import Input Output Metrics.

(** a computation returns, and what it returns is a number *)
Definition returns_number (m : result pyfloat) : Prop :=
  exists v, m = Ok v /\ is_nan v = false.

(** a computation returns a number that is not negative: a finite one, or
    the infinity that stands for an undefined ratio *)
Definition returns_nonneg (m : result pyfloat) : Prop :=
  exists v, m = Ok v /\ fle (FFin 0) v = true.

(** every status counter of the node that reads as an integer is not
    negative *)
Definition status_counters_nonneg (node : NodeData) : Prop :=
  forall key v z,
    global_status node !! key = Some v -> py_int v = Ok z -> (0 <= z)%Z.

(** the uptime given with the node, when there is one, is not negative *)
Definition uptime_nonneg (node : NodeData) : Prop :=
  forall u, uptime_seconds node = Some u -> (0 <= u)%Z.

(** the buffer pool reads do not exceed the read requests *)
Definition reads_within_requests (node : NodeData) : Prop :=
  forall r q,
    get_status_int node "Innodb_buffer_pool_reads" 0 = Ok r ->
    get_status_int node "Innodb_buffer_pool_read_requests" 1 = Ok q ->
    (r <= q)%Z.

(** the write counters of a node, added up *)
Definition writes_of (node : NodeData) : result Z :=
  let* inserts := get_status_int node "Com_insert" 0 in
  let* updates := get_status_int node "Com_update" 0 in
  let* deletes := get_status_int node "Com_delete" 0 in
  let* replaces := get_status_int node "Com_replace" 0 in
  Ok (inserts + updates + deletes + replaces).

(** a check that never lowers the status that [st] reads in the state *)
Definition escalating {S : Type} (st : S -> Severity) (c : S -> S) : Prop :=
  forall s, (Severity_rank (st s) <= Severity_rank (st (c s)))%nat.

(** the statuses of a trace never go down in the order
    info < warning < critical *)
Definition never_downgrades (tr : list Severity) : Prop :=
  forall i j s s',
    (i <= j)%nat -> tr !! i = Some s -> tr !! j = Some s' ->
    (Severity_rank s <= Severity_rank s')%nat.

(** once critical, every later status of the trace is critical *)
Definition stays_critical (tr : list Severity) : Prop :=
  forall i j s',
    (i <= j)%nat -> tr !! i = Some CRITICAL -> tr !! j = Some s' ->
    s' = CRITICAL.

(** a list of statuses that starts at rank [r] or above and never goes
    down *)
Fixpoint ascending_from (r : nat) (tr : list Severity) : Prop :=
  match tr with
  | [] => True
  | s :: tr' => (r <= Severity_rank s)%nat /\ ascending_from (Severity_rank s) tr'
  end.

(** reading [max_connections] of the node raises nothing *)
Definition max_connections_readable (node : NodeData) : Prop :=
  exists m, get_variable_int node "max_connections" 1 = Ok m.

(** the connection utilization of the node exceeds 0.9 *)
Definition utilization_breach (node : NodeData) : Prop :=
  exists u, calculate_connection_utilization node = Ok u /\
            fgt u (FFin 0.9) = true.

(** the buffer pool hit ratio of the node is below 0.90 *)
Definition hit_ratio_breach (node : NodeData) : Prop :=
  exists h, calculate_buffer_pool_hit_ratio node = Ok h /\
            flt h (FFin 0.90) = true.

(** two of the nodes that the architecture check reads report different
    positive cluster sizes *)
Definition sizes_diverge (request : ClusterReviewRequest) : Prop :=
  exists n1 n2 z1 z2,
    In n1 (Galera.nodes_to_check request) /\
    In n2 (Galera.nodes_to_check request) /\
    get_wsrep_status_int n1 "wsrep_cluster_size" 0 = Ok z1 /\
    get_wsrep_status_int n2 "wsrep_cluster_size" 0 = Ok z2 /\
    (0 < z1)%Z /\ (0 < z2)%Z /\ z1 <> z2.

(** two of them report different cluster state UUIDs, neither empty *)
Definition uuids_diverge (request : ClusterReviewRequest) : Prop :=
  exists n1 n2,
    In n1 (Galera.nodes_to_check request) /\
    In n2 (Galera.nodes_to_check request) /\
    truthy (get_wsrep_status n1 "wsrep_cluster_state_uuid" (VStr "")) = true /\
    truthy (get_wsrep_status n2 "wsrep_cluster_state_uuid" (VStr "")) = true /\
    get_wsrep_status n1 "wsrep_cluster_state_uuid" (VStr "") <>
    get_wsrep_status n2 "wsrep_cluster_state_uuid" (VStr "").

(** the node shows none of the signs that [detect_topology] reads for
    Galera or for a replica: [wsrep_on] is not ON, there is no
    [wsrep_cluster_size] status value, and there is no slave status map *)
Definition no_cluster_sign (node : NodeData) : Prop :=
  ReviewService.is_on (get_variable node "wsrep_on" (VStr "OFF")) = false /\
  global_status node !! "wsrep_cluster_size" = None /\
  slave_status node = None.

(** the node has a slave status map, with something in it *)
Definition has_slave_status (node : NodeData) : Prop :=
  exists m, slave_status node = Some m /\ m <> ∅.

(** the nodes that have system resources all have the same CPU cores,
    RAM and disk capacity *)
Definition identical_resources (request : ClusterReviewRequest) : Prop :=
  forall n1 n2 r1 r2,
    In n1 (nodes request) -> In n2 (nodes request) ->
    system_resources n1 = Some r1 -> system_resources n2 = Some r2 ->
    cpu_cores r1 = cpu_cores r2 /\
    (ram_gb r1 == ram_gb r2)%Q /\
    (disk_total_gb r1 == disk_total_gb r2)%Q.

(** a step of the log scan that only adds: it leaves the error count as
    it is and every recorded event in its list *)
Definition only_records (c : LogAnalyzer.LogSummary -> LogAnalyzer.LogSummary)
  : Prop :=
  forall s,
    LogAnalyzer.error_count (c s) = LogAnalyzer.error_count s /\
    forall b e, In e (LogAnalyzer.events s b) -> In e (LogAnalyzer.events (c s) b).

(** a rule of [_generate_findings] that only appends *)
Definition only_appends (c : LogAnalyzer.Acc -> LogAnalyzer.Acc) : Prop :=
  forall acc,
    (forall f, In f (LogAnalyzer.findings acc) ->
               In f (LogAnalyzer.findings (c acc))) /\
    (forall r, In r (LogAnalyzer.recommendations acc) ->
               In r (LogAnalyzer.recommendations (c acc))).

(** the lines of a log *)
Definition lines_of (log_content : string) : list string :=
  LogAnalyzer.split_on "010" log_content.

(** the critical finding and the recommendation that a disk issue calls
    for: a storage finding, and a storage recommendation of priority 1
    whose action is the numbered procedure *)
Definition disk_full_reported (res : LogAnalyzer.LogResult) : Prop :=
  (exists f, In f (LogAnalyzer.log_findings res) /\
             severity f = CRITICAL /\ category f = STORAGE) /\
  (exists r, In r (LogAnalyzer.log_recommendations res) /\
             priority r = 1%Z /\ rec_category r = STORAGE /\
             action r =
               [PStr (LogAnalyzer.steps
                        ["1. Check disk space with df -h";
                         "2. Identify large tables";
                         "3. Clean up old data or expand storage"])]).

(** a float that is a number, and not an infinity *)
Definition finite (f : pyfloat) : Prop := exists q, f = FFin q.

(** the queries routed to all the backend servers *)
Definition total_queries (ms : MaxScaleConfig) : Z :=
  MaxScale.sum_Z (map (fun s => MaxScale.or_zero (queries s)) (servers ms)).

(** the query share of a server, in percent with one decimal, when the
    server has queries and the total is positive *)
Definition query_share (ms : MaxScaleConfig) (server : MaxScaleServer)
  : option pyfloat :=
  if (total_queries ms >? 0)%Z && MaxScale.truthy_int (queries server) then
    Some (MaxScale.py_round
            (FFin (inject_Z (MaxScale.or_zero (queries server)) /
                   inject_Z (total_queries ms) * 100)) 1)
  else None.

(** the statistics of one server, with its share *)
Definition stats_of (ms : MaxScaleConfig) (server : MaxScaleServer)
    (cp : option pyfloat) : MaxScale.ServerStats :=
  {| MaxScale.ss_name := server_name server;
     MaxScale.ss_state := state server;
     MaxScale.ss_connections := server_connections server;
     MaxScale.connection_pct := cp;
     MaxScale.ss_queries := queries server;
     MaxScale.query_pct := query_share ms server |}.

(** the state of the server names a master *)
Definition is_master (server : MaxScaleServer) : bool :=
  contains "master"
    (lower (match state server with Some st => st | None => "" end)).

(** the shares that the balance comparison is made on: those of the
    servers that have one and whose state does not name a master *)
Definition compared_shares (ms : MaxScaleConfig) : list pyfloat :=
  omap (fun server => if is_master server then None else query_share ms server)
       (servers ms).

(** [m] is an element of [l] that no element of [l] exceeds *)
Definition greatest_of (l : list pyfloat) (m : pyfloat) : Prop :=
  In m l /\ forall p, In p l -> fle p m = true.

(** [m] is an element of [l] that exceeds no element of [l] *)
Definition least_of (l : list pyfloat) (m : pyfloat) : Prop :=
  In m l /\ forall p, In p l -> fle m p = true.

(** the query count of a slave deviates from the expected count by more
    than 30 percent *)
Definition deviates (expected_per_slave : pyfloat) (slave : string * Z) : bool :=
  match MaxScale.deviation_of (snd slave) expected_per_slave with
  | Ok d => fgt d (FFin 30)
  | Raise _ => false
  end.

(** the slaves for which the unbalanced finding is due: when two servers
    at least have queries, their total is positive and two of them at
    least are slaves, the slaves whose count deviates from the mean of the
    slaves by more than 30 percent *)
Definition deviating_slaves (ms : MaxScaleConfig) : list (string * Z) :=
  let with_q := MaxScale.servers_with_queries ms in
  let slaves := MaxScale.slave_queries with_q in
  if (1 <? length with_q)%nat &&
     (MaxScale.sum_Z (map (fun '(_, q, _) => q) with_q) >? 0)%Z &&
     (1 <? length slaves)%nat
  then
    List.filter
      (deviates (FFin (inject_Z (MaxScale.sum_Z (map snd slaves)) /
                       inject_Z (Z.of_nat (length slaves)))))
      slaves
  else [].

End Props.

(** concrete nodes and requests *)
Module Inputs.
Import Input.

Definition node_with (host : string) (r : NodeRole)
    (st vars : list (string * pyval)) : NodeData :=
  {| hostname := host; role := r; version := None;
     global_status := list_to_map st; global_variables := list_to_map vars;
     slave_status := None; master_status := None; wsrep_status := None;
     system_resources := None; uptime_seconds := None;
     error_log := None; slow_query_log := None |}.

Definition request_of (t : TopologyType) (ns : list NodeData) : ClusterReviewRequest :=
  {| cluster_name := "cluster"; topology_type := t; nodes := ns;
     maxscale := None; description := None;
     expected_queries_per_second := None; expected_connections := None;
     expected_write_percentage := None |}.

(** a node whose buffer pool counters give more reads than read requests *)
Definition node_more_reads : NodeData :=
  node_with "db1" ROLE_STANDALONE
    [("Innodb_buffer_pool_reads", VStr "200");
     ("Innodb_buffer_pool_read_requests", VStr "100")] [].

(** a node in good health, one day up *)
Definition node_healthy : NodeData :=
  node_with "db1" ROLE_STANDALONE
    [("Uptime", VStr "86400"); ("Questions", VStr "1000000");
     ("Com_select", VStr "700000"); ("Com_insert", VStr "100000");
     ("Com_update", VStr "50000"); ("Com_delete", VStr "1000");
     ("Max_used_connections", VStr "50"); ("Threads_connected", VStr "20");
     ("Innodb_buffer_pool_reads", VStr "50");
     ("Innodb_buffer_pool_read_requests", VStr "10000");
     ("Innodb_buffer_pool_pages_data", VStr "600");
     ("Innodb_buffer_pool_pages_total", VStr "1000");
     ("Slow_queries", VStr "12")]
    [("max_connections", VStr "500")].

(** a node with 1000 slow queries in one hour, and nothing else wrong *)
Definition node_slow_queries : NodeData :=
  node_with "db1" ROLE_STANDALONE
    [("Uptime", VStr "3600"); ("Slow_queries", VStr "1000")]
    [("max_connections", VStr "500")].

(** a node whose buffer pool hit ratio is 0.8, with few connections *)
Definition node_low_hit_ratio : NodeData :=
  node_with "db1" ROLE_STANDALONE
    [("Max_used_connections", VStr "10");
     ("Innodb_buffer_pool_reads", VStr "200");
     ("Innodb_buffer_pool_read_requests", VStr "1000")]
    [("max_connections", VStr "100")].

(** a node with 95 of its 100 connections used, and no buffer pool reads *)
Definition node_high_utilization : NodeData :=
  node_with "db2" ROLE_STANDALONE
    [("Max_used_connections", VStr "95")]
    [("max_connections", VStr "100")].

(** a Galera node, ready and synced, with 95 of its 100 connections used
    and paused by flow control 5% of the time *)
Definition node_galera_busy : NodeData :=
  node_with "g1" GALERA_NODE
    [("Max_used_connections", VStr "95");
     ("wsrep_ready", VStr "ON"); ("wsrep_cluster_status", VStr "Primary");
     ("wsrep_local_state_comment", VStr "Synced");
     ("wsrep_flow_control_paused", VStr "0.05")]
    [("max_connections", VStr "100")].

(** a Galera node that reports the given cluster size and status, in the
    cluster of UUID [uuid] *)
Definition galera_node (host size cluster_status uuid : string) : NodeData :=
  node_with host GALERA_NODE
    [("wsrep_cluster_size", VStr size);
     ("wsrep_cluster_status", VStr cluster_status);
     ("wsrep_cluster_state_uuid", VStr uuid);
     ("wsrep_ready", VStr "ON")]
    [].

(** three nodes, the third cut off from the cluster: it reports a cluster
    size of 0 where the other two report 3 *)
Definition request_one_node_cut_off : ClusterReviewRequest :=
  request_of GALERA
    [galera_node "g1" "3" "Primary" "c0ffee";
     galera_node "g2" "3" "Primary" "c0ffee";
     galera_node "g3" "0" "non-Primary" "c0ffee"].

(** three nodes in two partitions: cluster sizes 2, 2 and 1 *)
Definition request_partitioned : ClusterReviewRequest :=
  request_of GALERA
    [galera_node "g1" "2" "Primary" "c0ffee";
     galera_node "g2" "2" "Primary" "c0ffee";
     galera_node "g3" "1" "non-Primary" "c0ffee"].

(** a master with semi-sync switched on and a master status map, and no
    slave status *)
Definition node_semi_sync_master : NodeData :=
  {| hostname := "m1"; role := MASTER; version := None;
     global_status := list_to_map [("Uptime", VStr "86400")];
     global_variables :=
       list_to_map [("rpl_semi_sync_master_enabled", VStr "ON")];
     slave_status := None;
     master_status :=
       Some (list_to_map [("File", VStr "binlog.000042"); ("Position", VInt 1337)]);
     wsrep_status := None; system_resources := None; uptime_seconds := None;
     error_log := None; slow_query_log := None |}.

Definition request_masters_only : ClusterReviewRequest :=
  request_of SEMI_SYNC [node_semi_sync_master].

(** a node of a standalone deployment whose
    [innodb_autoinc_lock_mode] is 1 *)
Definition node_autoinc_1 : NodeData :=
  node_with "db1" ROLE_STANDALONE
    [("Uptime", VStr "86400")]
    [("innodb_autoinc_lock_mode", VStr "1")].

Definition request_standalone_autoinc : ClusterReviewRequest :=
  request_of STANDALONE [node_autoinc_1].

Definition request_galera_autoinc : ClusterReviewRequest :=
  request_of GALERA
    [node_with "g1" GALERA_NODE
       [("Uptime", VStr "86400")]
       [("innodb_autoinc_lock_mode", VStr "1"); ("binlog_format", VStr "ROW");
        ("wsrep_provider_options", VStr "gcache.size = 1G; gcs.fc_limit = 16")]].

(** the system resources of a node as a request gives them: 8 cores,
    32 GB of RAM, 500 GB of disk, and a [disk_type] key *)
Definition resources_input (disk_type : string) : Sizing.SystemResourcesInput :=
  {| Sizing.declared :=
       {| cpu_cores := 8; ram_gb := 32; disk_total_gb := 500;
          disk_used_gb := None; disk_mount_point := "/data01";
          cpu_utilization_pct := None; ram_utilization_pct := None;
          iops_read := None; iops_write := None |};
     Sizing.other_keys := list_to_map [("disk_type", VStr disk_type)] |}.

Definition node_with_resources (host : string) (i : Sizing.SystemResourcesInput)
  : NodeData :=
  {| hostname := host; role := GALERA_NODE; version := None;
     global_status := ∅; global_variables := ∅;
     slave_status := None; master_status := None; wsrep_status := None;
     system_resources := Some (Sizing.SystemResources_validate i);
     uptime_seconds := None; error_log := None; slow_query_log := None |}.

(** three nodes alike in everything but the disk type of the third *)
Definition request_mixed_disk_types : ClusterReviewRequest :=
  request_of GALERA
    [node_with_resources "g1" (resources_input "ssd");
     node_with_resources "g2" (resources_input "ssd");
     node_with_resources "g3" (resources_input "hdd")].

(** an error log of three lines, the second an error for a full table *)
Definition line_table_full : string :=
  "2025-12-08 18:08:38 0 [ERROR] mysqld: The table 'orders' is full".

Definition log_table_full : string :=
  ("2025-12-08 18:08:37 0 [Note] WSREP: Shifting JOINED -> SYNCED" ++
   String "010" line_table_full ++
   String "010" "")%string.

Definition backend (name st : string) (q : Z) : MaxScaleServer :=
  {| server_name := name; address := "10.0.0.1"; port := 3306;
     state := Some st; server_connections := None;
     server_total_connections := None; queries := Some q;
     read_queries := None; write_queries := None |}.

(** two slaves that got 5 and 3 queries: shares of 62.5 and 37.5 percent *)
Definition maxscale_two_slaves : MaxScaleConfig :=
  {| enabled := true; maxscale_version := None;
     servers := [backend "s1" "Slave, Running" 5;
                 backend "s2" "Slave, Running" 3];
     services := []; maxscale_uptime_seconds := None;
     total_connections := None; current_connections := None;
     maxscale_system_resources := None; logs := None |}.

Definition request_hit_then_utilization : ClusterReviewRequest :=
  request_of MASTER_REPLICA [node_low_hit_ratio; node_high_utilization].

End Inputs.

(** * Theorems *)

Local Set Warnings "-clear-no-such-hyp".

(** ** Python builtins *)

Section PyFacts.

Lemma int_of_string_cases (s : string) :
  (exists z, int_of_string s = Ok z) \/ int_of_string s = Raise ValueError.
Proof.
  unfold int_of_string.
  destruct (split_sign (strip s)) as [neg body].
  destruct (digit_run body) as [[[v n] rest]|]; [|now right].
  destruct rest; [left; eauto | now right].
Qed.

Lemma py_int_cases (v : pyval) :
  (exists z, py_int v = Ok z) \/ py_int v = Raise ValueError \/
  py_int v = Raise TypeError.
Proof.
  destruct v as [|z|s]; simpl.
  - right; now right.
  - left; eauto.
  - destruct (int_of_string_cases s) as [H|H]; [now left | right; now left].
Qed.

(** [try: int(v) except (ValueError, TypeError): default] always returns *)
Lemma catch_py_int (v : pyval) (d : Z) :
  catch (py_int v) (Ok d) = Ok d \/
  exists z, py_int v = Ok z /\ catch (py_int v) (Ok d) = Ok z.
Proof.
  destruct (py_int_cases v) as [[z H]|[H|H]]; rewrite H; simpl; eauto.
Qed.

Lemma float_of_string_cases (s : string) :
  (exists f, float_of_string s = Ok f) \/ float_of_string s = Raise ValueError.
Proof.
  unfold float_of_string.
  destruct (split_sign (strip s)) as [neg body].
  destruct (str_eqb (lower body) "inf" || str_eqb (lower body) "infinity");
    [left; eauto|].
  destruct (str_eqb (lower body) "nan"); [left; eauto|].
  destruct (decimal_of_string body); [left; eauto | now right].
Qed.

Lemma catch_py_float (v : pyval) (d : pyfloat) :
  exists f, catch (py_float v) (Ok d) = Ok f.
Proof.
  destruct v as [|z|s]; simpl; eauto.
  destruct (float_of_string_cases s) as [[f H]|H]; rewrite H; simpl; eauto.
Qed.

End PyFacts.

(** ** The accessors of a node *)

Section Accessors.
Import Input Metrics Props.

Variable node : NodeData.

Lemma get_status_int_ok (key : string) (d : Z) :
  exists z, get_status_int node key d = Ok z.
Proof.
  unfold get_status_int.
  destruct (catch_py_int (dict_get (global_status node) key (VInt d)) d)
    as [H|[z [_ H]]]; rewrite H; eauto.
Qed.

Lemma get_status_int_nonneg (key : string) (d z : Z) :
  status_counters_nonneg node -> (0 <= d)%Z ->
  get_status_int node key d = Ok z -> (0 <= z)%Z.
Proof.
  intros Hn Hd. unfold get_status_int, dict_get.
  destruct (global_status node !! key) as [v|] eqn:Hk.
  - destruct (catch_py_int v d) as [H|[z' [Hv H]]]; rewrite H; intros [= <-].
    + exact Hd.
    + eapply Hn; eauto.
  - simpl. intros [= <-]. exact Hd.
Qed.

Lemma uptime_of_ok : exists u, uptime_of node = Ok u.
Proof.
  unfold uptime_of.
  destruct (uptime_seconds node) as [u|];
    [destruct (u =? 0)%Z; eauto|]; apply get_status_int_ok.
Qed.

Lemma uptime_of_nonneg (u : Z) :
  status_counters_nonneg node -> uptime_nonneg node ->
  uptime_of node = Ok u -> (0 <= u)%Z.
Proof.
  intros Hn Hu. unfold uptime_of.
  destruct (uptime_seconds node) as [u'|] eqn:E.
  - destruct (u' =? 0)%Z.
    + apply get_status_int_nonneg; [exact Hn | lia].
    + intros [= <-]. now apply Hu.
  - apply get_status_int_nonneg; [exact Hn | lia].
Qed.

Lemma get_wsrep_status_int_ok (key : string) (d : Z) :
  exists z, get_wsrep_status_int node key d = Ok z.
Proof.
  unfold get_wsrep_status_int.
  destruct (catch_py_int (get_wsrep_status node key (VInt d)) d)
    as [H|[z [_ H]]]; rewrite H; eauto.
Qed.

Lemma get_wsrep_status_float_ok (key : string) (d : pyfloat) :
  exists f, get_wsrep_status_float node key d = Ok f.
Proof.
  unfold get_wsrep_status_float.
  destruct (wsrep_lookup node key) as [v|]; [apply catch_py_float | simpl; eauto].
Qed.

End Accessors.

(** ** The metric derivation library *)

Section MetricFacts.
Import Input Metrics Props.

Lemma truediv_finite (a b : Z) :
  b <> 0%Z -> truediv a b = Ok (FFin (inject_Z a / inject_Z b)).
Proof.
  intros Hb. unfold truediv. destruct (b =? 0)%Z eqn:E; [lia | reflexivity].
Qed.

Lemma Qdiv_Z_nonneg (a b : Z) :
  (0 <= a)%Z -> (0 < b)%Z -> (0 <= inject_Z a / inject_Z b)%Q.
Proof.
  intros Ha Hb. apply Qle_shift_div_l.
  - change 0%Q with (inject_Z 0). rewrite <- Zlt_Qlt. exact Hb.
  - rewrite Qmult_0_l. change 0%Q with (inject_Z 0). rewrite <- Zle_Qle. exact Ha.
Qed.

Lemma Qdiv_Z_le_1 (a b : Z) :
  (a <= b)%Z -> (0 < b)%Z -> (inject_Z a / inject_Z b <= 1)%Q.
Proof.
  intros Ha Hb. apply Qle_shift_div_r.
  - change 0%Q with (inject_Z 0). rewrite <- Zlt_Qlt. exact Hb.
  - rewrite Qmult_1_l. rewrite <- Zle_Qle. exact Ha.
Qed.

Lemma fle_0_fin (q : Q) : (0 <= q)%Q -> fle (FFin 0) (FFin q) = true.
Proof. intros H. simpl. now apply Qle_bool_iff. Qed.

Lemma returns_nonneg_number (m : result pyfloat) :
  returns_nonneg m -> returns_number m.
Proof.
  intros [v [E H]]. exists v. split; [exact E|]. now destruct v.
Qed.

(** a rate [count / uptime], guarded against a zero uptime *)
Lemma rate_number (count : Z) (up : Z) :
  returns_number (if (up =? 0)%Z then Ok (FFin 0) else truediv count up).
Proof.
  destruct (up =? 0)%Z eqn:E.
  - exists (FFin 0). now split.
  - rewrite truediv_finite by lia. eexists. now split.
Qed.

Lemma rate_nonneg (count : Z) (up : Z) :
  (0 <= count)%Z -> (0 <= up)%Z ->
  returns_nonneg (if (up =? 0)%Z then Ok (FFin 0) else truediv count up).
Proof.
  intros Hc Hu. destruct (up =? 0)%Z eqn:E.
  - exists (FFin 0). now split.
  - rewrite truediv_finite by lia. eexists. split; [reflexivity|].
    apply fle_0_fin, Qdiv_Z_nonneg; lia.
Qed.

Lemma hours_positive (up : Z) :
  (0 < up)%Z -> (0 < inject_Z up / inject_Z 3600)%Q.
Proof.
  intros H. apply Qlt_shift_div_l; [reflexivity|].
  rewrite Qmult_0_l. change 0%Q with (inject_Z 0). now rewrite <- Zlt_Qlt.
Qed.

Lemma per_hour_number (count up : Z) : returns_number (per_hour count up).
Proof.
  unfold per_hour. destruct (up =? 0)%Z eqn:E.
  - exists (FFin 0). now split.
  - rewrite truediv_finite by lia. cbn [bind feq].
    destruct (Qeq_bool (inject_Z up / inject_Z 3600) 0) eqn:Q0.
    + exists (FFin 0). now split.
    + unfold fdiv, float_of_Z. rewrite Q0. eexists. now split.
Qed.

Lemma per_hour_nonneg (count up : Z) :
  (0 <= count)%Z -> (0 <= up)%Z -> returns_nonneg (per_hour count up).
Proof.
  intros Hc Hu. unfold per_hour. destruct (up =? 0)%Z eqn:E.
  - exists (FFin 0). now split.
  - rewrite truediv_finite by lia. cbn [bind feq].
    destruct (Qeq_bool (inject_Z up / inject_Z 3600) 0) eqn:Q0.
    + exists (FFin 0). now split.
    + unfold fdiv, float_of_Z. rewrite Q0. eexists. split; [reflexivity|].
      apply fle_0_fin. apply Qle_shift_div_l.
      * apply hours_positive. lia.
      * rewrite Qmult_0_l. change 0%Q with (inject_Z 0).
        now rewrite <- Zle_Qle.
Qed.

(** Rewrites the reads of status counters in the goal by their values. *)
Ltac read_counters node :=
  repeat match goal with
  | |- context [get_status_int node ?k ?d] =>
      let z := fresh "z" in let Hz := fresh "Hz" in
      destruct (get_status_int_ok node k d) as [z Hz];
      rewrite Hz; cbn [bind]
  | |- context [uptime_of node] =>
      let u := fresh "u" in let Hu := fresh "Hu" in
      destruct (uptime_of_ok node) as [u Hu];
      rewrite Hu; cbn [bind]
  end.

Lemma queries_per_second_number node :
  returns_number (calculate_queries_per_second node).
Proof. unfold calculate_queries_per_second. read_counters node. apply rate_number. Qed.

Lemma writes_per_second_number node :
  returns_number (calculate_writes_per_second node).
Proof. unfold calculate_writes_per_second. read_counters node. apply rate_number. Qed.

Lemma reads_per_second_number node :
  returns_number (calculate_reads_per_second node).
Proof. unfold calculate_reads_per_second. read_counters node. apply rate_number. Qed.

Lemma read_write_ratio_number node :
  returns_number (calculate_read_write_ratio node).
Proof.
  unfold calculate_read_write_ratio. read_counters node.
  destruct (_ =? 0)%Z eqn:E.
  - destruct (z >? 0)%Z; eexists; now split.
  - rewrite truediv_finite by lia. eexists. now split.
Qed.

Lemma buffer_pool_hit_ratio_number node :
  returns_number (calculate_buffer_pool_hit_ratio node).
Proof.
  unfold calculate_buffer_pool_hit_ratio. read_counters node.
  destruct (_ =? 0)%Z eqn:E.
  - eexists; now split.
  - rewrite truediv_finite by lia. eexists. now split.
Qed.

Lemma buffer_pool_usage_number node :
  returns_number (calculate_buffer_pool_usage node).
Proof. unfold calculate_buffer_pool_usage. read_counters node. apply rate_number. Qed.

Lemma slow_queries_per_hour_number node :
  returns_number (calculate_slow_queries_per_hour node).
Proof.
  unfold calculate_slow_queries_per_hour. read_counters node. apply per_hour_number.
Qed.

Lemma aborted_connections_per_hour_number node :
  returns_number (calculate_aborted_connections_per_hour node).
Proof.
  unfold calculate_aborted_connections_per_hour. read_counters node.
  apply per_hour_number.
Qed.

(** the connection utilization returns whenever reading [max_connections]
    does *)
Lemma connection_utilization_number node (m : Z) :
  get_variable_int node "max_connections" 1 = Ok m ->
  returns_number (calculate_connection_utilization node).
Proof.
  intros Hm. unfold calculate_connection_utilization. read_counters node.
  rewrite Hm. cbn [bind]. apply rate_number.
Qed.

End MetricFacts.

Section MetricSigns.
Import Input Metrics Props.

Variable node : NodeData.
Hypothesis counters : status_counters_nonneg node.
Hypothesis uptime : uptime_nonneg node.

(** Rewrites the reads of status counters by their values, and records
    that the values are not negative. *)
Ltac read_nonneg :=
  repeat match goal with
  | |- context [get_status_int node ?k ?d] =>
      let z := fresh "z" in let Hz := fresh "Hz" in let Pz := fresh "Pz" in
      destruct (get_status_int_ok node k d) as [z Hz];
      assert (Pz : (0 <= z)%Z)
        by (apply (get_status_int_nonneg node k d z counters); [lia | exact Hz]);
      rewrite Hz; cbn [bind]
  | |- context [uptime_of node] =>
      let u := fresh "u" in let Hu := fresh "Hu" in let Pu := fresh "Pu" in
      destruct (uptime_of_ok node) as [u Hu];
      assert (Pu : (0 <= u)%Z)
        by (apply (uptime_of_nonneg node u counters uptime); exact Hu);
      rewrite Hu; cbn [bind]
  end.

Lemma queries_per_second_nonneg :
  returns_nonneg (calculate_queries_per_second node).
Proof using counters uptime.
  unfold calculate_queries_per_second. read_nonneg. now apply rate_nonneg.
Qed.

Lemma writes_per_second_nonneg :
  returns_nonneg (calculate_writes_per_second node).
Proof using counters uptime.
  unfold calculate_writes_per_second. read_nonneg. apply rate_nonneg; lia.
Qed.

Lemma reads_per_second_nonneg :
  returns_nonneg (calculate_reads_per_second node).
Proof using counters uptime.
  unfold calculate_reads_per_second. read_nonneg. now apply rate_nonneg.
Qed.

Lemma read_write_ratio_nonneg :
  returns_nonneg (calculate_read_write_ratio node).
Proof using counters.
  unfold calculate_read_write_ratio. read_nonneg.
  destruct (_ =? 0)%Z eqn:E.
  - destruct (z >? 0)%Z; eexists; now split.
  - rewrite truediv_finite by lia. eexists. split; [reflexivity|].
    apply fle_0_fin, Qdiv_Z_nonneg; lia.
Qed.

Lemma buffer_pool_usage_nonneg :
  returns_nonneg (calculate_buffer_pool_usage node).
Proof using counters.
  unfold calculate_buffer_pool_usage. read_nonneg. apply rate_nonneg; lia.
Qed.

Lemma slow_queries_per_hour_nonneg :
  returns_nonneg (calculate_slow_queries_per_hour node).
Proof using counters uptime.
  unfold calculate_slow_queries_per_hour. read_nonneg. now apply per_hour_nonneg.
Qed.

Lemma aborted_connections_per_hour_nonneg :
  returns_nonneg (calculate_aborted_connections_per_hour node).
Proof using counters uptime.
  unfold calculate_aborted_connections_per_hour. read_nonneg.
  now apply per_hour_nonneg.
Qed.

Lemma buffer_pool_hit_ratio_nonneg :
  reads_within_requests node ->
  returns_nonneg (calculate_buffer_pool_hit_ratio node).
Proof using counters.
  intros Hrq. unfold calculate_buffer_pool_hit_ratio.
  destruct (get_status_int_ok node "Innodb_buffer_pool_reads" 0) as [r Hr].
  destruct (get_status_int_ok node "Innodb_buffer_pool_read_requests" 1) as [q Hq].
  pose proof (Hrq r q Hr Hq) as Hle.
  assert (0 <= q)%Z
    by (eapply get_status_int_nonneg; [exact counters | | exact Hq]; lia).
  rewrite Hr, Hq. cbn [bind].
  destruct (q =? 0)%Z eqn:E.
  - eexists. now split.
  - rewrite truediv_finite by lia. cbn [bind]. eexists. split; [reflexivity|].
    unfold fsub, fneg, fadd. apply fle_0_fin.
    assert (inject_Z r / inject_Z q <= 1)%Q by (apply Qdiv_Z_le_1; lia).
    apply (Qplus_le_l _ _ (inject_Z r / inject_Z q)). ring_simplify. assumption.
Qed.

Lemma connection_utilization_nonneg (m : Z) :
  get_variable_int node "max_connections" 1 = Ok m -> (0 <= m)%Z ->
  returns_nonneg (calculate_connection_utilization node).
Proof using counters.
  intros Hm Pm. unfold calculate_connection_utilization. read_nonneg.
  rewrite Hm. cbn [bind]. now apply rate_nonneg.
Qed.

End MetricSigns.

Section MetricSentinels.
Import Input Metrics Props.

Variable node : NodeData.

Lemma hit_ratio_of_no_requests :
  get_status_int node "Innodb_buffer_pool_read_requests" 1 = Ok 0%Z ->
  calculate_buffer_pool_hit_ratio node = Ok (FFin 1).
Proof.
  intros H. unfold calculate_buffer_pool_hit_ratio.
  destruct (get_status_int_ok node "Innodb_buffer_pool_reads" 0) as [r Hr].
  now rewrite Hr, H.
Qed.

Lemma read_write_ratio_of_no_writes (reads : Z) :
  get_status_int node "Com_select" 0 = Ok reads ->
  writes_of node = Ok 0%Z ->
  calculate_read_write_ratio node =
    Ok (if (reads >? 0)%Z then FInf else FFin 0).
Proof.
  intros Hr. unfold writes_of, calculate_read_write_ratio. rewrite Hr. cbn [bind].
  destruct (get_status_int_ok node "Com_insert" 0) as [i ->].
  destruct (get_status_int_ok node "Com_update" 0) as [u ->].
  destruct (get_status_int_ok node "Com_delete" 0) as [d ->].
  destruct (get_status_int_ok node "Com_replace" 0) as [p ->].
  cbn [bind]. intros [= ->]. reflexivity.
Qed.

End MetricSentinels.

Section C1.
Import Input Metrics Props Inputs.



Lemma counters_nonneg_of_list host r (st vars : list (string * pyval)) :
  Forall (fun kv => forall z, py_int (snd kv) = Ok z -> (0 <= z)%Z) st ->
  status_counters_nonneg (node_with host r st vars).
Proof.
  intros Hall key v z Hk Hv. cbn in Hk.
  apply elem_of_list_to_map_2 in Hk.
  rewrite Forall_forall in Hall.
  exact (Hall (key, v) Hk z Hv).
Qed.


End C1.

(** ** Sequences of checks *)

Section CheckFacts.
Import Output Checks Props.

Context {S : Type} (st : S -> Severity).

Lemma trace_ascending (cs : list (S -> S)) (s0 : S) :
  Forall (escalating st) cs ->
  ascending_from (Severity_rank (st s0)) (map st (trace_checks cs s0)).
Proof.
  intros H. revert s0. induction H as [|c cs Hc _ IH]; intros s0; simpl.
  - exact I.
  - split; [apply Hc | apply IH].
Qed.

Lemma run_checks_rank (cs : list (S -> S)) (s0 : S) :
  Forall (escalating st) cs ->
  (Severity_rank (st s0) <= Severity_rank (st (run_checks cs s0)))%nat.
Proof.
  intros H. revert s0. induction H as [|c cs Hc _ IH]; intros s0; simpl.
  - lia.
  - etransitivity; [apply Hc | apply IH].
Qed.

Lemma last_trace (cs : list (S -> S)) (s0 : S) :
  cs <> [] ->
  last (map st (trace_checks cs s0)) = Some (st (run_checks cs s0)).
Proof.
  revert s0. induction cs as [|c cs IH]; intros s0 Hne; [easy|].
  simpl. destruct cs as [|c' cs'].
  - reflexivity.
  - specialize (IH (c s0) ltac:(easy)). simpl in *. exact IH.
Qed.

End CheckFacts.

Section Ascending.
Import Output Props.

Lemma ascending_from_weaken (r r' : nat) (tr : list Severity) :
  (r' <= r)%nat -> ascending_from r tr -> ascending_from r' tr.
Proof. destruct tr; simpl; [easy|]. intros ? [? ?]. split; [lia | easy]. Qed.

Lemma ascending_from_lookup (r : nat) (tr : list Severity) (i : nat) (s : Severity) :
  ascending_from r tr -> tr !! i = Some s -> (r <= Severity_rank s)%nat.
Proof.
  revert r i. induction tr as [|x tr IH]; intros r i; [easy|].
  intros [Hx Htr]. destruct i as [|i]; simpl.
  - intros [= <-]. exact Hx.
  - intros Hi. specialize (IH _ _ Htr Hi). lia.
Qed.

Lemma ascending_never_downgrades (r : nat) (tr : list Severity) :
  ascending_from r tr -> never_downgrades tr.
Proof.
  revert r. induction tr as [|x tr IH]; intros r; [intros _ [|?] ? ? ? ?; easy|].
  intros [Hx Htr] i j s s' Hij Hi Hj.
  destruct i as [|i], j as [|j]; simpl in *.
  - injection Hi as <-. injection Hj as <-. lia.
  - injection Hi as <-. eapply ascending_from_lookup; eauto.
  - lia.
  - apply (IH _ Htr i j s s'); [lia | exact Hi | exact Hj].
Qed.

Lemma ascending_from_app (r : nat) (l1 l2 : list Severity) (s : Severity) :
  ascending_from r l1 -> last l1 = Some s ->
  ascending_from (Severity_rank s) l2 -> ascending_from r (l1 ++ l2).
Proof.
  revert r. induction l1 as [|x l1 IH]; intros r; [easy|].
  intros [Hx H1] Hl H2. simpl. split; [exact Hx|].
  destruct l1 as [|y l1'].
  - injection Hl as <-. exact H2.
  - apply IH; assumption.
Qed.

Lemma never_downgrades_stays_critical (tr : list Severity) :
  never_downgrades tr -> stays_critical tr.
Proof.
  intros H i j s' Hij Hi Hj. specialize (H i j _ _ Hij Hi Hj).
  destruct s'; simpl in H; [lia | lia | reflexivity].
Qed.

End Ascending.

(** ** Per-node performance analysis: the status only escalates *)

Section VariableReads.
Import Input.

(** whether reading a variable raises does not depend on the default *)
Lemma get_variable_int_default (node : NodeData) (key : string) (d d' m : Z) :
  get_variable_int node key d = Ok m ->
  exists m', get_variable_int node key d' = Ok m'.
Proof.
  unfold get_variable_int, dict_get.
  destruct (global_variables node !! key) as [v|]; [|simpl; eauto].
  match goal with |- catch ?e _ = _ -> _ => destruct e as [z|[]] end;
    simpl; try discriminate; eauto.
Qed.

End VariableReads.

Section BaseChecks.
Import Input Output Metrics Thresholds Checks Props.

Variable t : thresholds.
Variable node : NodeData.

Lemma rank_warn_unless_critical (s : Severity) :
  (Severity_rank s <= Severity_rank (Base.warn_unless_critical s))%nat.
Proof. destruct s; simpl; lia. Qed.

Lemma rank_le_critical (s : Severity) :
  (Severity_rank s <= Severity_rank CRITICAL)%nat.
Proof. destruct s; simpl; lia. Qed.

Lemma check_queries_per_second_escalating qps :
  escalating Base.overall_status (Base.check_queries_per_second qps).
Proof. intros s. simpl. lia. Qed.

Lemma check_connection_utilization_escalating u used mx :
  escalating Base.overall_status (Base.check_connection_utilization t node u used mx).
Proof.
  intros s. unfold Base.check_connection_utilization.
  destruct (fge u _); [apply rank_le_critical|].
  destruct (fge u _); simpl; [apply rank_warn_unless_critical | lia].
Qed.

Lemma check_buffer_pool_hit_ratio_escalating h :
  escalating Base.overall_status (Base.check_buffer_pool_hit_ratio t node h).
Proof.
  intros s. unfold Base.check_buffer_pool_hit_ratio.
  destruct (flt h _); [apply rank_le_critical|].
  destruct (flt h _); simpl; [apply rank_warn_unless_critical | lia].
Qed.

Lemma check_buffer_pool_usage_escalating u :
  escalating Base.overall_status (Base.check_buffer_pool_usage u).
Proof. intros s. simpl. lia. Qed.

(** the slow-query check leaves the overall status of the node as it is *)
Lemma check_slow_queries_status slow (s : Base.PerfState) :
  Base.overall_status (Base.check_slow_queries t node slow s) =
  Base.overall_status s.
Proof.
  unfold Base.check_slow_queries.
  destruct (fge slow _); [reflexivity|]. now destruct (fge slow _).
Qed.

Lemma check_slow_queries_escalating slow :
  escalating Base.overall_status (Base.check_slow_queries t node slow).
Proof. intros s. rewrite check_slow_queries_status. lia. Qed.

Lemma node_checks_escalating (m : Base.NodeMetrics) :
  Forall (escalating Base.overall_status) (Base.node_checks t node m).
Proof.
  unfold Base.node_checks.
  constructor; [apply check_queries_per_second_escalating|].
  constructor; [apply check_connection_utilization_escalating|].
  constructor; [apply check_buffer_pool_hit_ratio_escalating|].
  constructor; [apply check_buffer_pool_usage_escalating|].
  constructor; [apply check_slow_queries_escalating|].
  constructor.
Qed.

Lemma node_metric_values_ok :
  max_connections_readable node -> exists m, Base.node_metric_values node = Ok m.
Proof.
  intros [m1 Hm1]. unfold Base.node_metric_values.
  destruct (queries_per_second_number node) as [? [-> _]].
  destruct (connection_utilization_number node m1 Hm1) as [? [-> _]].
  destruct (get_status_int_ok node "Max_used_connections" 0) as [? ->].
  destruct (get_variable_int_default node "max_connections" 1 0 m1 Hm1) as [? ->].
  destruct (buffer_pool_hit_ratio_number node) as [? [-> _]].
  destruct (buffer_pool_usage_number node) as [? [-> _]].
  destruct (slow_queries_per_hour_number node) as [? [-> _]].
  simpl. eauto.
Qed.

(** what the base analysis returns, in terms of its checks *)
Lemma base_analysis_spec (m : Base.NodeMetrics) :
  Base.node_metric_values node = Ok m ->
  exists a, Base.analyze_node_performance t node = Ok a /\
            na_status a =
              Base.overall_status
                (run_checks (Base.node_checks t node m) Base.initial_state) /\
            na_findings a =
              Base.node_findings
                (run_checks (Base.node_checks t node m) Base.initial_state).
Proof.
  intros Hm. unfold Base.analyze_node_performance. rewrite Hm. cbn [bind].
  destruct (get_status_int_ok node "Threads_connected" 0) as [c ->]. cbn [bind].
  eexists. split; [reflexivity|]. split; reflexivity.
Qed.

Lemma base_trace_spec (tr : list Severity) :
  Base.status_trace t node = Ok tr ->
  exists a, Base.analyze_node_performance t node = Ok a /\
            ascending_from 0 tr /\ last tr = Some (na_status a).
Proof.
  unfold Base.status_trace.
  destruct (Base.node_metric_values node) as [m|e] eqn:Hm; [|discriminate].
  cbn [bind]. intros H.
  assert (E : tr = map Base.overall_status
                (trace_checks (Base.node_checks t node m) Base.initial_state))
    by congruence.
  subst tr. clear H.
  destruct (base_analysis_spec m Hm) as [a [Ha [Hs _]]].
  exists a. split; [exact Ha|]. split.
  - apply (trace_ascending Base.overall_status _ Base.initial_state).
    apply node_checks_escalating.
  - rewrite Hs. apply last_trace. discriminate.
Qed.

Lemma base_trace_ok :
  max_connections_readable node -> exists tr, Base.status_trace t node = Ok tr.
Proof.
  intros H. destruct (node_metric_values_ok H) as [m Hm].
  unfold Base.status_trace. rewrite Hm. simpl. eauto.
Qed.

End BaseChecks.

Section ExtensionChecks.
Import Input Output Metrics Thresholds Checks Props NodeUpdate.

Variable t : thresholds.
Variable node : NodeData.

Lemma rank_node_warn_unless_critical (a : NodeAnalysis) :
  (Severity_rank (na_status a) <=
   Severity_rank (na_status (warn_unless_critical a)))%nat.
Proof.
  unfold warn_unless_critical, with_status.
  destruct (na_status a) eqn:E; simpl; rewrite ?E; simpl; lia.
Qed.

(** closes the goals of the shape [rank (na_status a) <= rank (na_status a')]
    that the checks of the extensions leave *)
Ltac rank_step :=
  simpl;
  repeat match goal with
  | |- context [if ?b then _ else _] => destruct b; simpl
  end;
  first [ lia | apply rank_le_critical | apply rank_node_warn_unless_critical ].

Lemma replication_checks_escalating :
  Forall (escalating na_status) (Replication.replication_checks t node).
Proof.
  unfold Replication.replication_checks.
  destruct (_ && _); [|constructor].
  constructor; [|constructor; [|constructor]].
  - intros a. unfold Replication.record_replication.
    destruct (is_replication_running node). simpl. lia.
  - intros a. unfold Replication.check_replication_health.
    destruct (is_replication_running node) as [io sql].
    destruct (negb io || negb sql); [apply rank_le_critical|].
    destruct (get_replication_lag node); [|lia].
    destruct (fge _ _); [apply rank_le_critical|].
    destruct (fge _ _); [|lia]. simpl. apply rank_node_warn_unless_critical.
Qed.

Lemma galera_checks_escalating (g : Galera.GaleraMetrics) :
  Forall (escalating na_status) (Galera.galera_checks t node g).
Proof.
  unfold Galera.galera_checks.
  repeat (apply List.Forall_cons; [intros a|]); [..|constructor].
  - simpl. lia.
  - unfold Galera.check_wsrep_ready. rank_step.
  - unfold Galera.check_primary. rank_step.
  - unfold Galera.check_local_state. rank_step.
  - unfold Galera.check_flow_control.
    destruct (fge _ _); [apply rank_le_critical|].
    destruct (fge _ _); simpl; [|lia].
    apply (rank_node_warn_unless_critical (with_flow_control _ a)).
  - simpl. lia.
  - simpl. lia.
  - simpl. lia.
Qed.

Lemma galera_metric_values_ok :
  exists g, Galera.galera_metric_values node = Ok g.
Proof.
  unfold Galera.galera_metric_values, calculate_galera_flow_control_paused,
    calculate_galera_recv_queue_avg, calculate_galera_send_queue_avg,
    calculate_galera_cert_conflicts_per_hour.
  destruct (get_wsrep_status_float_ok node "wsrep_flow_control_paused" (FFin 0))
    as [? ->].
  destruct (get_wsrep_status_float_ok node "wsrep_local_recv_queue_avg" (FFin 0))
    as [? ->].
  destruct (get_wsrep_status_float_ok node "wsrep_local_send_queue_avg" (FFin 0))
    as [? ->].
  destruct (get_wsrep_status_int_ok node "wsrep_local_cert_failures" 0) as [c ->].
  destruct (uptime_of_ok node) as [u ->]. cbn [bind].
  destruct (per_hour_number c u) as [? [-> _]]. simpl. eauto.
Qed.

(** the trace of an extension: the base trace, then the statuses after the
    checks [cs] that the extension adds *)
Lemma extended_trace (cs : list (NodeAnalysis -> NodeAnalysis))
    (base : list Severity) (a : NodeAnalysis) :
  Forall (escalating na_status) cs ->
  ascending_from 0 base -> last base = Some (na_status a) ->
  ascending_from 0 (base ++ map na_status (trace_checks cs a)) /\
  last (base ++ map na_status (trace_checks cs a)) =
    Some (na_status (run_checks cs a)).
Proof.
  intros Hcs Hb Hl. split.
  - eapply ascending_from_app; [exact Hb | exact Hl |].
    now apply trace_ascending.
  - destruct cs as [|c cs'].
    + simpl. rewrite app_nil_r. exact Hl.
    + rewrite last_app.
      rewrite (last_trace na_status (c :: cs') a) by discriminate.
      reflexivity.
Qed.

End ExtensionChecks.

Section C2.
Import Input Output Metrics Thresholds Checks Props Inputs.

Lemma trace_facts (tr : list Severity) :
  ascending_from 0 tr -> never_downgrades tr /\ stays_critical tr.
Proof.
  intros H. pose proof (ascending_never_downgrades 0 tr H) as Hn.
  split; [exact Hn | now apply never_downgrades_stays_critical].
Qed.

Lemma replication_trace_spec t node (tr : list Severity) :
  Replication.status_trace t node = Ok tr ->
  exists a, Replication.analyze_node_performance t node = Ok a /\
            ascending_from 0 tr /\ last tr = Some (na_status a).
Proof.
  unfold Replication.status_trace, Replication.analyze_node_performance.
  destruct (Base.status_trace t node) as [base|e] eqn:Hb; [|discriminate].
  destruct (base_trace_spec t node base Hb) as [a [Ha [Hasc Hl]]].
  rewrite Ha. cbn [bind]. intros H.
  assert (E : tr = base ++ map na_status
                (trace_checks (Replication.replication_checks t node) a))
    by congruence.
  subst tr. clear H.
  eexists. split; [reflexivity|].
  apply extended_trace; [apply replication_checks_escalating | exact Hasc | exact Hl].
Qed.

Lemma galera_trace_spec t node (tr : list Severity) :
  Galera.status_trace t node = Ok tr ->
  exists a, Galera.analyze_node_performance t node = Ok a /\
            ascending_from 0 tr /\ last tr = Some (na_status a).
Proof.
  unfold Galera.status_trace, Galera.analyze_node_performance.
  destruct (Base.status_trace t node) as [base|e] eqn:Hb; [|discriminate].
  destruct (base_trace_spec t node base Hb) as [a [Ha [Hasc Hl]]].
  rewrite Ha. cbn [bind].
  destruct (galera_metric_values_ok node) as [g ->]. cbn [bind]. intros H.
  assert (E : tr = base ++ map na_status
                (trace_checks (Galera.galera_checks t node g) a))
    by congruence.
  subst tr. clear H.
  eexists. split; [reflexivity|].
  apply extended_trace; [apply galera_checks_escalating | exact Hasc | exact Hl].
Qed.



End C2.

Section C3.
Import Input Output Metrics Thresholds Checks Props Inputs.

(** what the two checks before it do, that the slow-query check does not:
    a breach of the critical threshold sets the overall status to critical
    and appends a critical finding, a breach of the warning threshold only
    sets it to warning unless it is critical *)
Lemma check_connection_utilization_sets_status t node u used mx
    (s : Base.PerfState) :
  let tiers_of := tiers t "server" "connection_utilization" in
  (fge u (tier_get tiers_of "critical" (FFin 0.9)) = true ->
   Base.overall_status (Base.check_connection_utilization t node u used mx s)
     = CRITICAL /\
   exists f, Base.node_findings (Base.check_connection_utilization t node u used mx s)
               = Base.node_findings s ++ [f] /\ severity f = CRITICAL) /\
  (fge u (tier_get tiers_of "critical" (FFin 0.9)) = false ->
   fge u (tier_get tiers_of "warning" (FFin 0.7)) = true ->
   Base.overall_status (Base.check_connection_utilization t node u used mx s)
     = Base.warn_unless_critical (Base.overall_status s)).
Proof.
  unfold Base.check_connection_utilization. split.
  - intros ->. simpl. split; [reflexivity|]. eexists. split; reflexivity.
  - intros -> ->. reflexivity.
Qed.

Lemma check_buffer_pool_hit_ratio_sets_status t node h (s : Base.PerfState) :
  let tiers_of := tiers t "server" "buffer_pool_hit_ratio" in
  (flt h (tier_get tiers_of "critical" (FFin 0.90)) = true ->
   Base.overall_status (Base.check_buffer_pool_hit_ratio t node h s) = CRITICAL /\
   exists f, Base.node_findings (Base.check_buffer_pool_hit_ratio t node h s)
               = Base.node_findings s ++ [f] /\ severity f = CRITICAL) /\
  (flt h (tier_get tiers_of "critical" (FFin 0.90)) = false ->
   flt h (tier_get tiers_of "warning" (FFin 0.95)) = true ->
   Base.overall_status (Base.check_buffer_pool_hit_ratio t node h s)
     = Base.warn_unless_critical (Base.overall_status s)).
Proof.
  unfold Base.check_buffer_pool_hit_ratio. split.
  - intros ->. simpl. split; [reflexivity|]. eexists. split; reflexivity.
  - intros -> ->. reflexivity.
Qed.

(** C3 fails on the code for the slow queries per hour.  A node with 1000
    slow queries in its one hour of uptime breaches the critical threshold
    of 500: the metric is critical and a critical finding is appended, and
    the overall status that [analyze_node_performance] returns is still
    info. *)
Theorem C3_slow_query_breach_keeps_status :
  calculate_slow_queries_per_hour node_slow_queries
    = Ok (FFin (3600000 # 3600)) /\
  fge (FFin (3600000 # 3600)) (FFin 500) = true /\
  exists a,
    Base.analyze_node_performance _default_thresholds node_slow_queries = Ok a /\
    na_status a = INFO /\
    exists f, na_findings a = [f] /\ severity f = CRITICAL /\
              metric_name f = Some "slow_queries_per_hour" /\
              title f = [PStr "High slow query rate"].
Proof.
  split; [vm_compute; reflexivity|]. split; [reflexivity|].
  eexists. split; [vm_compute; reflexivity|]. split; [reflexivity|].
  eexists. repeat split.
Qed.

End C3.

(** ** Load analysis *)

Section LoadFacts.
Import Input Output Metrics Checks Props.

Lemma fdiv_guarded (a b : pyfloat) :
  fgt b (FFin 0) = true -> exists r, fdiv a b = Ok r.
Proof.
  unfold fgt. destruct b as [q| | |]; simpl; intros H.
  - destruct (Qeq_bool q 0) eqn:E.
    + apply Qeq_bool_iff in E.
      assert (Qle_bool q 0 = true) by (apply Qle_bool_iff; rewrite E; apply Qle_refl).
      rewrite H0 in H. discriminate.
    + destruct a; eauto.
  - destruct a; eauto.
  - discriminate.
  - discriminate.
Qed.

Lemma connection_utilization_ok (node : NodeData) :
  max_connections_readable node ->
  exists u, calculate_connection_utilization node = Ok u.
Proof.
  intros [m Hm]. destruct (connection_utilization_number node m Hm) as [u [Hu _]].
  eauto.
Qed.

Lemma load_totals_step_ok (acc : Base.LoadTotals) (node : NodeData) :
  max_connections_readable node ->
  exists acc', Base.load_totals_step acc node = Ok acc'.
Proof.
  intros [m Hm]. unfold Base.load_totals_step.
  destruct (queries_per_second_number node) as [? [-> _]].
  destruct (writes_per_second_number node) as [? [-> _]].
  destruct (reads_per_second_number node) as [? [-> _]].
  destruct (get_status_int_ok node "Threads_connected" 0) as [? ->].
  destruct (get_variable_int_default node "max_connections" 1 0 m Hm) as [? ->].
  destruct (get_status_int_ok node "Max_used_connections" 0) as [? ->].
  simpl. eauto.
Qed.

Lemma load_totals_ok (l : list NodeData) (acc : Base.LoadTotals) :
  (forall node, In node l -> max_connections_readable node) ->
  exists tot, for_each Base.load_totals_step l acc = Ok tot.
Proof.
  revert acc. induction l as [|n l IH]; intros acc H; simpl; [eauto|].
  destruct (load_totals_step_ok acc n (H n (or_introl eq_refl))) as [acc' ->].
  cbn [bind]. apply IH. intros node Hn. apply H. now right.
Qed.

(** one turn of the second loop, on a node whose metrics are [u] and [h] *)
Lemma load_check_step_spec (can_handle : bool) (status : Severity)
    (node : NodeData) :
  max_connections_readable node ->
  exists u h,
    calculate_connection_utilization node = Ok u /\
    calculate_buffer_pool_hit_ratio node = Ok h /\
    Base.load_check_step (can_handle, status) node =
      Ok (if fgt u (FFin 0.9) then false else can_handle,
          if flt h (FFin 0.90) then WARNING
          else if fgt u (FFin 0.9) then CRITICAL else status).
Proof.
  intros Hr. destruct (connection_utilization_ok node Hr) as [u Hu].
  destruct (buffer_pool_hit_ratio_number node) as [h [Hh _]].
  exists u, h. split; [exact Hu|]. split; [exact Hh|].
  unfold Base.load_check_step. rewrite Hu. cbn [bind].
  destruct (fgt u (FFin 0.9)); rewrite Hh; reflexivity.
Qed.

Lemma hit_ratio_breach_dec (node : NodeData) :
  hit_ratio_breach node \/ ~ hit_ratio_breach node.
Proof.
  destruct (buffer_pool_hit_ratio_number node) as [h [Hh _]].
  destruct (flt h (FFin 0.90)) eqn:F.
  - left. exists h. now split.
  - right. intros [h' [E B]]. rewrite Hh in E. injection E as <-. congruence.
Qed.

Lemma classic_hit (l : list NodeData) :
  (exists node, In node l /\ hit_ratio_breach node) \/
  (forall node, In node l -> ~ hit_ratio_breach node).
Proof.
  induction l as [|n l [[node [Hn B]]|IH]].
  - right. intros ? [].
  - left. exists node. split; [now right | exact B].
  - destruct (hit_ratio_breach_dec n) as [B|B].
    + left. exists n. split; [now left | exact B].
    + right. intros node [<-|Hn]; [exact B | now apply IH].
Qed.

(** what the second loop leaves in [can_handle] and [status] *)
Lemma load_check_loop (l : list NodeData) (can_handle : bool) (status : Severity) :
  (forall node, In node l -> max_connections_readable node) ->
  exists c s,
    for_each Base.load_check_step l (can_handle, status) = Ok (c, s) /\
    (c = false <->
       can_handle = false \/ exists node, In node l /\ utilization_breach node) /\
    (s = INFO <->
       status = INFO /\
       forall node, In node l ->
         ~ utilization_breach node /\ ~ hit_ratio_breach node) /\
    ((forall node, In node l -> ~ utilization_breach node) ->
       (s = WARNING <->
          (status = WARNING /\
           forall node, In node l -> ~ hit_ratio_breach node) \/
          exists node, In node l /\ hit_ratio_breach node)).
Proof.
  revert can_handle status. induction l as [|n l IH]; intros c0 s0 H.
  - exists c0, s0. split; [reflexivity|]. split; [|split].
    + split; [now left | intros [E|[? [[] _]]]; exact E].
    + split; [intros ->; split; [reflexivity | intros ? []] | intros [E _]; exact E].
    + intros _. split.
      * intros ->. left. split; [reflexivity | intros ? []].
      * intros [[E _]|[? [[] _]]]. exact E.
  - destruct (load_check_step_spec c0 s0 n (H n (or_introl eq_refl)))
      as (u & h & Hu & Hh & Hstep).
    cbn [for_each]. rewrite Hstep. cbn [bind].
    destruct (IH (if fgt u (FFin 0.9) then false else c0)
                 (if flt h (FFin 0.90) then WARNING
                  else if fgt u (FFin 0.9) then CRITICAL else s0))
      as (c & s & Hloop & Hc & Hs & Hw).
    { intros node Hn. apply H. now right. }
    exists c, s. split; [exact Hloop|].
    assert (Bu : utilization_breach n <-> fgt u (FFin 0.9) = true).
    { split.
      - intros [u' [E B]]. rewrite Hu in E. now injection E as <-.
      - intros B. exists u. now split. }
    assert (Bh : hit_ratio_breach n <-> flt h (FFin 0.90) = true).
    { split.
      - intros [h' [E B]]. rewrite Hh in E. now injection E as <-.
      - intros B. exists h. now split. }
    split; [|split].
    + rewrite Hc. split.
      * intros [E|[node [Hn B]]].
        -- destruct (fgt u (FFin 0.9)) eqn:F.
           ++ right. exists n. split; [now left | now apply Bu].
           ++ now left.
        -- right. exists node. split; [now right | exact B].
      * intros [E|[node [[<-|Hn] B]]].
        -- left. subst c0. now destruct (fgt u (FFin 0.9)).
        -- left. apply Bu in B. now rewrite B.
        -- right. eauto.
    + rewrite Hs. split.
      * intros [E Hall].
        destruct (flt h (FFin 0.90)) eqn:Fh; [discriminate|].
        destruct (fgt u (FFin 0.9)) eqn:Fu; [discriminate|].
        split; [exact E|]. intros node [<-|Hn]; [|now apply Hall].
        split; [rewrite Bu | rewrite Bh]; congruence.
      * intros [E Hall].
        destruct (Hall n (or_introl eq_refl)) as [Nu Nh].
        rewrite Bu in Nu. rewrite Bh in Nh.
        destruct (flt h (FFin 0.90)); [congruence|].
        destruct (fgt u (FFin 0.9)); [congruence|].
        split; [exact E|]. intros node Hn. apply Hall. now right.
    + intros Hno.
      assert (Fu : fgt u (FFin 0.9) = false).
      { destruct (fgt u (FFin 0.9)) eqn:F; [|reflexivity].
        exfalso. apply (Hno n); [now left | now apply Bu]. }
      rewrite Fu in Hw. rewrite Hw by (intros node Hn; apply Hno; now right).
      split.
      * intros [[E Hall]|[node [Hn B]]].
        -- destruct (flt h (FFin 0.90)) eqn:Fh.
           ++ right. exists n. split; [now left | now apply Bh].
           ++ left. split; [exact E|]. intros node [<-|Hn]; [|now apply Hall].
              rewrite Bh. congruence.
        -- right. exists node. split; [now right | exact B].
      * intros [[E Hall]|[node [[<-|Hn] B]]].
        -- pose proof (Hall n (or_introl eq_refl)) as Nh. rewrite Bh in Nh.
           destruct (flt h (FFin 0.90)) eqn:Fh; [congruence|].
           left. split; [exact E|]. intros node Hn. apply Hall. now right.
        -- apply Bh in B. rewrite B.
           destruct (classic_hit l) as [Hex|Hnone]; [now right|].
           left. split; [reflexivity | exact Hnone].
        -- right. eauto.
Qed.

End LoadFacts.

Section C5.
Import Input Output Metrics Checks Props Inputs.




End C5.

(** ** Galera architecture: divergence between the nodes *)

Section GaleraArchitecture.
Import Input Output Metrics Checks Props.

Lemma two_elements_size {A : Type} {eqA : EqDecision A} {cntA : Countable A}
    (s : gset A) (x y : A) :
  x ∈ s -> y ∈ s -> x <> y -> (1 <? size s)%nat = true.
Proof.
  intros Hx Hy Hne. apply Nat.ltb_lt.
  assert (Hsub : ({[x]} ∪ {[y]} : gset A) ⊆ s) by set_solver.
  apply subseteq_size in Hsub.
  rewrite size_union in Hsub by set_solver.
  rewrite !size_singleton in Hsub. lia.
Qed.

Lemma collect_node_spec (acc : Galera.ClusterState) (node : NodeData) :
  exists cs z,
    Galera.collect_node acc node = Ok cs /\
    get_wsrep_status_int node "wsrep_cluster_size" 0 = Ok z /\
    Galera.cluster_sizes cs =
      (if (z >? 0)%Z then Galera.cluster_sizes acc ∪ {[z]}
       else Galera.cluster_sizes acc) /\
    Galera.cluster_uuids cs =
      (if truthy (get_wsrep_status node "wsrep_cluster_state_uuid" (VStr ""))
       then Galera.cluster_uuids acc ∪
              {[get_wsrep_status node "wsrep_cluster_state_uuid" (VStr "")]}
       else Galera.cluster_uuids acc).
Proof.
  unfold Galera.collect_node.
  destruct (get_wsrep_status_int_ok node "wsrep_cluster_size" 0) as [z Hz].
  rewrite Hz. cbn [bind].
  unfold calculate_galera_flow_control_paused.
  destruct (get_wsrep_status_float_ok node "wsrep_flow_control_paused" (FFin 0))
    as [fc ->].
  cbn [bind]. eexists. exists z. repeat split.
Qed.

(** the loop over the checked nodes returns, and its sets hold every
    positive size and every non-empty UUID that a node reports *)
Lemma collect_spec (l : list NodeData) (acc : Galera.ClusterState) :
  exists cs,
    for_each Galera.collect_node l acc = Ok cs /\
    Galera.cluster_sizes acc ⊆ Galera.cluster_sizes cs /\
    Galera.cluster_uuids acc ⊆ Galera.cluster_uuids cs /\
    (forall n z, In n l ->
       get_wsrep_status_int n "wsrep_cluster_size" 0 = Ok z -> (0 < z)%Z ->
       z ∈ Galera.cluster_sizes cs) /\
    (forall n, In n l ->
       truthy (get_wsrep_status n "wsrep_cluster_state_uuid" (VStr "")) = true ->
       get_wsrep_status n "wsrep_cluster_state_uuid" (VStr "")
         ∈ Galera.cluster_uuids cs).
Proof.
  revert acc. induction l as [|n l IH]; intros acc.
  - exists acc. split; [reflexivity|]. split; [set_solver|]. split; [set_solver|].
    split; [intros ? ? [] | intros ? []].
  - destruct (collect_node_spec acc n) as (cs1 & z & Hstep & Hz & Hsz & Hu).
    destruct (IH cs1) as (cs & Hloop & Ssub & Usub & Hs & Huu).
    exists cs. cbn [for_each]. rewrite Hstep. cbn [bind].
    split; [exact Hloop|].
    assert (S1 : Galera.cluster_sizes acc ⊆ Galera.cluster_sizes cs1)
      by (rewrite Hsz; destruct (z >? 0)%Z; set_solver).
    assert (U1 : Galera.cluster_uuids acc ⊆ Galera.cluster_uuids cs1)
      by (rewrite Hu; destruct (truthy _); set_solver).
    split; [set_solver|]. split; [set_solver|]. split.
    + intros n' z' [<-|Hn] Hz' Hpos; [|eauto].
      rewrite Hz in Hz'. injection Hz' as <-.
      apply Ssub. rewrite Hsz.
      destruct (z >? 0)%Z eqn:E; [set_solver | lia].
    + intros n' [<-|Hn] Ht; [|eauto].
      apply Usub. rewrite Hu, Ht. set_solver.
Qed.

End GaleraArchitecture.

Section C4.
Import Input Output Metrics Checks Props Inputs.




End C4.

(** ** Topology detection *)

Section C10.
Import Input Metrics Props Inputs.

Lemma collect_flags_replica (l : list NodeData) (acc : ReviewService.Flags) :
  ReviewService.has_replica (fold_left ReviewService.collect_flags l acc) = true <->
  ReviewService.has_replica acc = true \/
  exists node, In node l /\ dict_truthy (slave_status node) = true.
Proof.
  revert acc. induction l as [|n l IH]; intros acc; simpl.
  - split; [now left | intros [H|[? [[] _]]]; exact H].
  - rewrite IH. simpl. split.
    + intros [H|[node [Hn Ht]]].
      * destruct (dict_truthy (slave_status n)) eqn:E.
        -- right. exists n. split; [now left | exact E].
        -- now left.
      * right. exists node. split; [now right | exact Ht].
    + intros [H|[node [[<-|Hn] Ht]]].
      * left. rewrite H. now destruct (dict_truthy _).
      * left. now rewrite Ht.
      * right. eauto.
Qed.

Lemma no_sign_no_indicator (node : NodeData) :
  no_cluster_sign node -> ReviewService.galera_indicator node = false.
Proof.
  intros (Hon & Hsize & _). unfold ReviewService.galera_indicator.
  rewrite Hon. unfold get_status, dict_get. now rewrite Hsize.
Qed.

(** C10.  [detect_topology] reads the master status of no node: when no
    node has [wsrep_on] set to ON, a [wsrep_cluster_size] status value or
    a slave status map, the topology detected is standalone, whatever the
    master status maps and the semi-sync variables of the nodes are; and
    semi-sync is detected only when some node has a slave status map. *)
Theorem C10_detect_topology (request : ClusterReviewRequest) :
  ((forall node, In node (nodes request) -> no_cluster_sign node) ->
   ReviewService.detect_topology request = STANDALONE) /\
  (ReviewService.detect_topology request = SEMI_SYNC ->
   exists node, In node (nodes request) /\ has_slave_status node).
Proof.
  unfold ReviewService.detect_topology. split.
  - intros Hall.
    assert (Hg : existsb ReviewService.galera_indicator (nodes request) = false).
    { apply not_true_is_false. intros Hex. apply existsb_exists in Hex.
      destruct Hex as [n [Hn Hi]].
      rewrite (no_sign_no_indicator n (Hall n Hn)) in Hi. discriminate. }
    rewrite Hg.
    destruct (ReviewService.has_replica _) eqn:Hr; [|reflexivity].
    apply collect_flags_replica in Hr. destruct Hr as [Hr|[n [Hn Ht]]].
    + discriminate.
    + destruct (Hall n Hn) as (_ & _ & Hs). rewrite Hs in Ht. discriminate.
  - destruct (existsb _ _); [discriminate|].
    destruct (ReviewService.has_replica _) eqn:Hr; [|discriminate].
    intros _. apply collect_flags_replica in Hr.
    destruct Hr as [Hr|[n [Hn Ht]]]; [discriminate|].
    exists n. split; [exact Hn|]. unfold has_slave_status.
    destruct (slave_status n) as [m|]; [|discriminate].
    exists m. split; [reflexivity|]. intros ->. discriminate.
Qed.

(** C10 on a lone master that has a master status map and semi-sync
    switched on: it is detected as standalone. *)
Lemma C10_detect_topology_witness :
  ReviewService.detect_topology request_masters_only = STANDALONE.
Proof.
  apply (proj1 (C10_detect_topology request_masters_only)).
  intros node [<-|[]]. repeat split.
Defined.

End C10.

(** ** Configuration analysis: the auto-increment lock mode *)

Section C8.
Import Input Output Checks Props Inputs.

(** whatever the topology, [_analyze_innodb_config] ends with the warning
    on a node whose [innodb_autoinc_lock_mode] is not 2: the request is not
    among its arguments *)
Lemma innodb_config_autoinc (node : NodeData) (acc acc' : Config.Acc) :
  Config._analyze_innodb_config node acc = Ok acc' ->
  str_eqb (py_str (get_variable node "innodb_autoinc_lock_mode" (VStr "1"))) "2"
    = false ->
  exists pre f,
    Config.findings acc' = Config.findings acc ++ pre ++ [f] /\
    title f = Config.autoinc_title node /\ severity f = WARNING /\
    Forall (fun g => title g = [PStr "Durability risk on "; PStr (hostname node)])
      pre.
Proof.
  unfold Config._analyze_innodb_config. intros H Hne.
  destruct (get_variable_int node "innodb_buffer_pool_size" 0) as [bp|e];
    [|discriminate].
  cbn [bind] in H.
  match type of H with
  | bind ?m _ = _ => destruct m as [acc1|e] eqn:Hm; [|discriminate]
  end.
  cbn [bind] in H. rewrite Hne in H. cbn [negb] in H.
  assert (Hf : Config.findings acc1 = Config.findings acc).
  { destruct (system_resources node) as [sr|]; [|now injection Hm as <-].
    destruct (negb (Qeq_bool (ram_gb sr) 0)); [|now injection Hm as <-].
    match type of Hm with
    | bind ?m _ = _ => destruct m as [pct|e]; [|discriminate]
    end.
    cbn [bind] in Hm.
    destruct (flt pct (FFin 50)); [|now injection Hm as <-].
    match type of Hm with
    | bind ?m _ = _ => destruct m as [gb|e]; [|discriminate]
    end.
    cbn [bind] in Hm. now injection Hm as <-. }
  destruct (str_eqb (py_str (get_variable node "innodb_flush_log_at_trx_commit"
                               (VStr "1"))) "0");
    injection H as <-; cbn [Config.findings Config.add_finding]; rewrite Hf.
  - match goal with
    | |- context [(_ ++ [?a]) ++ [?b]] => exists [a], b
    end.
    rewrite <- app_assoc.
    split; [reflexivity|].
    split; [reflexivity|]. split; [reflexivity|]. now repeat constructor.
  - exists []. eexists. split; [reflexivity|]. split; [reflexivity|].
    split; [reflexivity | constructor].
Qed.

(** C8 fails on the code.  On a request declared standalone, the analysis
    of a node whose [innodb_autoinc_lock_mode] is 1 produces the
    auto-increment lock mode warning: the check stands in
    [_analyze_innodb_config], which runs for every topology.  Under Galera
    the same node gets the warning once. *)
Theorem C8_autoinc_warning_without_galera :
  topology_type request_standalone_autoinc = STANDALONE /\
  (exists acc f,
     Config.analyze request_standalone_autoinc = Ok acc /\
     Config.findings acc = [f] /\ severity f = WARNING /\
     title f = Config.autoinc_title node_autoinc_1 /\
     details f =
       Some [PStr "Mode 2 (interleaved) is required for Galera to avoid deadlocks"]) /\
  (exists acc f,
     Config.analyze request_galera_autoinc = Ok acc /\
     Config.findings acc = [f] /\ severity f = WARNING /\
     title f = [PStr "Auto-increment lock mode on "; PStr "g1"]).
Proof.
  split; [reflexivity|]. split.
  - eexists. eexists. split; [vm_compute; reflexivity|]. repeat split.
  - eexists. eexists. split; [vm_compute; reflexivity|]. repeat split.
Qed.

End C8.

(** ** Sizing: the resource consistency check *)

Section SizingFacts.
Import Input Props.

Lemma node_resources_disk_type (node : NodeData) :
  Sizing.nr_disk_type (Sizing.node_resources node) = None.
Proof. unfold Sizing.node_resources. now destruct (system_resources node). Qed.

(** no disk type is ever collected: the set the disk type check compares
    is empty *)
Lemma no_disk_types (l : list NodeData) (keep : Sizing.NodeResources -> bool) :
  Sizing.values_of Sizing.disk_type_if_set
    (List.filter keep (map Sizing.node_resources l)) = [].
Proof.
  unfold Sizing.values_of. induction l as [|n l IH]; [reflexivity|].
  simpl. destruct (keep (Sizing.node_resources n)); [|exact IH].
  simpl. unfold Sizing.disk_type_if_set at 1.
  rewrite node_resources_disk_type. exact IH.
Qed.

Lemma filter_none {A} (f : A -> bool) (l : list A) :
  (forall y, In y l -> f y = false) -> List.filter f l = [].
Proof.
  induction l as [|x l IH]; intros H; [reflexivity|]. simpl.
  rewrite (H x (or_introl eq_refl)). apply IH. intros y Hy. apply H. now right.
Qed.

Lemma distinct_In {A} (eqb : A -> A -> bool) (l : list A) (x : A) :
  In x (Sizing.distinct eqb l) -> In x l.
Proof.
  induction l as [|y l IH]; [easy|]. simpl. intros [<-|H]; [now left|].
  right. apply IH. apply filter_In in H. tauto.
Qed.

(** values that are all equal make a set of one element at most *)
Lemma distinct_all_equal {A} (eqb : A -> A -> bool) (l : list A) :
  (forall x y, In x l -> In y l -> eqb x y = true) ->
  (1 <? length (Sizing.distinct eqb l))%nat = false.
Proof.
  intros H. destruct l as [|x l]; [reflexivity|]. simpl.
  rewrite filter_none; [reflexivity|].
  intros y Hy. apply distinct_In in Hy.
  rewrite (H x y); [reflexivity | now left | now right].
Qed.

(** where the values that the check compares come from *)
Lemma values_of_source {A} (select : Sizing.NodeResources -> option A)
    (keep : Sizing.NodeResources -> bool) (l : list NodeData) (x : A) :
  In x (Sizing.values_of select (List.filter keep (map Sizing.node_resources l))) ->
  exists node, In node l /\ select (Sizing.node_resources node) = Some x.
Proof.
  unfold Sizing.values_of. induction l as [|n l IH]; [easy|]. simpl.
  destruct (keep (Sizing.node_resources n)).
  - simpl. destruct (select (Sizing.node_resources n)) eqn:E.
    + intros [<-|H]; [exists n; split; [now left | exact E]|].
      destruct (IH H) as [node [Hn Hs]]. exists node. split; [now right | exact Hs].
    + intros H. destruct (IH H) as [node [Hn Hs]].
      exists node. split; [now right | exact Hs].
  - intros H. destruct (IH H) as [node [Hn Hs]].
    exists node. split; [now right | exact Hs].
Qed.

(** the part of C6 that holds: nodes alike in CPU, RAM and disk capacity
    are found consistent, with no entry *)
Lemma identical_resources_consistent (request : ClusterReviewRequest) :
  identical_resources request ->
  exists rc, Sizing.resource_consistency request = Ok rc /\
             Sizing.is_consistent rc = true /\ Sizing.inconsistencies rc = [].
Proof.
  intros Hid. unfold Sizing.resource_consistency.
  destruct (2 <=? _)%nat; [|eexists; repeat split].
  rewrite no_disk_types. cbn [Sizing.distinct length].
  rewrite !distinct_all_equal.
  - cbn [bind]. eexists. repeat split.
  - intros x y Hx Hy.
    apply values_of_source in Hx as [n1 [I1 S1]].
    apply values_of_source in Hy as [n2 [I2 S2]].
    unfold Sizing.disk_total_if_set, Sizing.node_resources in S1, S2.
    destruct (system_resources n1) as [r1|] eqn:E1; [|discriminate].
    destruct (system_resources n2) as [r2|] eqn:E2; [|discriminate].
    cbn in S1, S2.
    destruct (Sizing.truthy_Q (disk_total_gb r1)); [|discriminate].
    destruct (Sizing.truthy_Q (disk_total_gb r2)); [|discriminate].
    injection S1 as <-. injection S2 as <-.
    apply Qeq_bool_iff. apply (Hid n1 n2 r1 r2 I1 I2 E1 E2).
  - intros x y Hx Hy.
    apply values_of_source in Hx as [n1 [I1 S1]].
    apply values_of_source in Hy as [n2 [I2 S2]].
    unfold Sizing.node_resources in S1, S2.
    destruct (system_resources n1) as [r1|] eqn:E1; [|discriminate].
    destruct (system_resources n2) as [r2|] eqn:E2; [|discriminate].
    cbn in S1, S2. injection S1 as <-. injection S2 as <-.
    apply Qeq_bool_iff. apply (Hid n1 n2 r1 r2 I1 I2 E1 E2).
  - intros x y Hx Hy.
    apply values_of_source in Hx as [n1 [I1 S1]].
    apply values_of_source in Hy as [n2 [I2 S2]].
    unfold Sizing.node_resources in S1, S2.
    destruct (system_resources n1) as [r1|] eqn:E1; [|discriminate].
    destruct (system_resources n2) as [r2|] eqn:E2; [|discriminate].
    cbn in S1, S2. injection S1 as <-. injection S2 as <-.
    apply Z.eqb_eq. apply (Hid n1 n2 r1 r2 I1 I2 E1 E2).
Qed.

(** no request gets an entry for the disk type, nor a critical entry *)
Lemma never_a_disk_type_entry (request : ClusterReviewRequest)
    (rc : Sizing.ResourceConsistency) :
  Sizing.resource_consistency request = Ok rc ->
  Forall (fun i => Sizing.inc_severity i = "warning" /\
                   Sizing.resource i <> "disk_type")
    (Sizing.inconsistencies rc).
Proof.
  unfold Sizing.resource_consistency.
  destruct (2 <=? _)%nat; [|intros [= <-]; constructor].
  rewrite no_disk_types. cbn [Sizing.distinct length].
  change (1 <? 0)%nat with false. cbv iota.
  destruct (1 <? _)%nat; destruct (1 <? _)%nat; destruct (1 <? _)%nat;
    try match goal with
    | |- context [fdiv ?a ?b] => destruct (fdiv a b) as [sp|e]
    end;
    cbn [bind];
    try match goal with
    | |- context [fgt ?x ?y] => destruct (fgt x y)
    end;
    cbn [bind]; intros H; try discriminate H; injection H as <-;
    cbn [Sizing.inconsistencies app];
    repeat (constructor; [split; [reflexivity | discriminate]|]); constructor.
Qed.

End SizingFacts.

Section C6.
Import Input Props Inputs.

(** C6 fails on the code.  Three nodes alike in CPU, RAM and disk
    capacity, the third given with disk type hdd where the others have
    ssd: the check finds them consistent and lists no inconsistency, where
    one critical entry is due.  [SystemResources] declares no [disk_type]
    field, so the value never reaches the check. *)
Theorem C6_mixed_disk_types_not_flagged :
  Sizing.other_keys (resources_input "ssd") !! "disk_type" = Some (VStr "ssd") /\
  Sizing.other_keys (resources_input "hdd") !! "disk_type" = Some (VStr "hdd") /\
  exists rc,
    Sizing.resource_consistency request_mixed_disk_types = Ok rc /\
    Sizing.is_consistent rc = true /\ Sizing.inconsistencies rc = [] /\
    Forall (fun n => Sizing.nr_disk_type n = None) (Sizing.node_resources_list rc).
Proof.
  split; [reflexivity|]. split; [reflexivity|].
  eexists. split; [vm_compute; reflexivity|].
  split; [reflexivity|]. split; [reflexivity|]. repeat constructor.
Qed.

End C6.

(** ** Log classification *)

Section PatternFacts.
Import Pattern.

(** a search that succeeds has a match at the head of some suffix *)
Lemma search_found (ignorecase : bool) (p : pattern) (s : string) :
  search ignorecase p s = true ->
  exists pre t r, s = (pre ++ t)%string /\ match_at ignorecase p t = Some r.
Proof.
  unfold search. induction s as [|c s IH]; simpl.
  - destruct (match_at ignorecase p "") as [r|] eqn:E; [|discriminate].
    intros _. exists ""%string, ""%string, r. now split.
  - destruct (match_at ignorecase p (String c s)) as [r|] eqn:E.
    + intros _. exists ""%string, (String c s), r. now split.
    + intros H. destruct (IH H) as (pre & t & r & -> & Hm).
      exists (String c pre), t, r. now split.
Qed.

Lemma strip_literal_head (ignorecase : bool) (a : ascii) (l s r : string) :
  strip_literal ignorecase (String a l) s = Some r ->
  exists c s', s = String c s' /\ char_eqb ignorecase a c = true.
Proof.
  destruct s as [|c s']; simpl; [discriminate|].
  destruct (char_eqb ignorecase a c) eqn:E; [|discriminate].
  intros _. now exists c, s'.
Qed.

(** no blank character starts a match of the error pattern *)
Lemma blank_not_error_start (c : ascii) :
  is_space c = true ->
  char_eqb true "[" c = false /\ char_eqb true "E" c = false.
Proof.
  destruct c as [[] [] [] [] [] [] [] []]; intros H;
    try discriminate H; split; reflexivity.
Qed.

Lemma lstrip_nonblank (pre : string) (c : ascii) (t : string) :
  is_space c = false ->
  exists d rest, lstrip (pre ++ String c t) = String d rest /\ is_space d = false.
Proof.
  intros Hc. induction pre as [|a pre IH]; simpl.
  - rewrite Hc. now exists c, t.
  - destruct (is_space a) eqn:E; [exact IH|].
    now exists a, (pre ++ String c t)%string.
Qed.

Lemma rstrip_nonblank (d : ascii) (rest : string) :
  is_space d = false -> rstrip (String d rest) <> ""%string.
Proof.
  intros Hd. simpl. destruct (rstrip rest); [rewrite Hd|]; discriminate.
Qed.

Lemma strip_nonblank (pre : string) (c : ascii) (t : string) :
  is_space c = false -> str_eqb (strip (pre ++ String c t)) "" = false.
Proof.
  intros Hc. unfold strip.
  destruct (lstrip_nonblank pre c t Hc) as (d & rest & -> & Hd).
  apply String.eqb_neq. now apply rstrip_nonblank.
Qed.

(** a line in which the error pattern is found is not blank *)
Lemma error_line_not_blank (line : string) :
  LogAnalyzer.found "error" line = true -> str_eqb (strip line) "" = false.
Proof.
  unfold LogAnalyzer.found. intros H.
  apply search_found in H as (pre & t & r & -> & Hm).
  change (LogAnalyzer.PATTERNS "error")
    with [[Lit "[ERROR]"]; [Lit "[error]"]; [Lit "ERROR:"]] in Hm.
  assert (Hhead : exists c t', t = String c t' /\ is_space c = false).
  { cbn [match_at match_items] in Hm.
    destruct (strip_literal true "[ERROR]" t) as [r1|] eqn:E1.
    - apply strip_literal_head in E1 as (c & t' & -> & Hc).
      exists c, t'. split; [reflexivity|].
      destruct (is_space c) eqn:Sp; [|reflexivity].
      destruct (blank_not_error_start c Sp) as [B _]. congruence.
    - destruct (strip_literal true "[error]" t) as [r2|] eqn:E2.
      + apply strip_literal_head in E2 as (c & t' & -> & Hc).
        exists c, t'. split; [reflexivity|].
        destruct (is_space c) eqn:Sp; [|reflexivity].
        destruct (blank_not_error_start c Sp) as [B _].
        change (char_eqb true "[" c) with (char_eqb true "[" c) in Hc. congruence.
      + destruct (strip_literal true "ERROR:" t) as [r3|] eqn:E3; [|discriminate].
        apply strip_literal_head in E3 as (c & t' & -> & Hc).
        exists c, t'. split; [reflexivity|].
        destruct (is_space c) eqn:Sp; [|reflexivity].
        destruct (blank_not_error_start c Sp) as [_ B]. congruence. }
  destruct Hhead as (c & t' & -> & Hc). now apply strip_nonblank.
Qed.

End PatternFacts.

Section ScanFacts.
Import Output Checks Props.
Import LogAnalyzer.

Lemma append_event_records (b : bucket) (e : Event) :
  only_records (append_event b e).
Proof.
  intros s. split; [reflexivity|]. intros b' e' H. simpl.
  destruct (bool_decide (b' = b)); [apply in_or_app; now left | exact H].
Qed.

Lemma append_event_recorded (b : bucket) (e : Event) (s : LogSummary) :
  In e (events (append_event b e s) b).
Proof.
  simpl. rewrite bool_decide_eq_true_2 by reflexivity.
  apply in_or_app. right. now left.
Qed.

Lemma only_records_compose (c1 c2 : LogSummary -> LogSummary) :
  only_records c1 -> only_records c2 -> only_records (fun s => c2 (c1 s)).
Proof.
  intros H1 H2 s. destruct (H1 s) as [E1 I1]. destruct (H2 (c1 s)) as [E2 I2].
  split; [congruence | auto].
Qed.

Lemma only_records_id : only_records (fun s => s).
Proof. intros s. split; [reflexivity | auto]. Qed.

Lemma record_if_records (cond : bool) (b : bucket) (e : Event) :
  only_records (record_if cond b e).
Proof.
  unfold record_if. destruct cond; [apply append_event_records|].
  apply only_records_id.
Qed.

Lemma record_critical_if_records (cond : bool) (b : bucket) (t : string) (e : Event) :
  only_records (record_critical_if cond b t e).
Proof.
  unfold record_critical_if. destruct cond; [|apply only_records_id].
  apply (only_records_compose (append_event b e)
           (append_event critical_events (tagged t e)));
    apply append_event_records.
Qed.

Lemma run_checks_records (cs : list (LogSummary -> LogSummary)) :
  Forall only_records cs -> only_records (run_checks cs).
Proof.
  induction 1 as [|c cs Hc _ IH]; [apply only_records_id|].
  intros s. simpl. destruct (Hc s) as [E1 I1]. destruct (IH (c s)) as [E2 I2].
  split; [congruence | auto].
Qed.

Lemma run_checks_cons {S : Type} (c : S -> S) (cs : list (S -> S)) (s : S) :
  run_checks (c :: cs) s = run_checks cs (c s).
Proof. reflexivity. Qed.

Lemma categorize_error_records (line : string) (ts : option string) :
  Forall only_records (_categorize_error line ts).
Proof.
  unfold _categorize_error. cbv zeta.
  repeat (apply List.Forall_cons;
          [first [apply record_critical_if_records | apply record_if_records]|]).
  constructor.
Qed.

Lemma check_galera_events_records (line : string) (ts : option string) :
  Forall only_records (_check_galera_events line ts).
Proof.
  unfold _check_galera_events. cbv zeta.
  repeat (apply List.Forall_cons; [apply record_if_records|]).
  constructor.
Qed.

Lemma count_warning_records : only_records count_warning.
Proof. intros s. split; [reflexivity | auto]. Qed.

(** what the scan of one line does to the error count and to the events *)
Lemma analyze_line_spec (s : LogSummary) (line : string) :
  error_count (analyze_line s line) =
    (error_count s + if found "error" line then 1 else 0)%Z /\
  (forall b e, In e (events s b) -> In e (events (analyze_line s line) b)) /\
  (found "error" line = true -> found "disk_full" line = true ->
   In (tagged "disk_full" (event_of line (_extract_timestamp line)))
      (events (analyze_line s line) critical_events) /\
   In (event_of line (_extract_timestamp line))
      (events (analyze_line s line) disk_issues)).
Proof.
  unfold analyze_line.
  destruct (found "error" line) eqn:Herr.
  - rewrite (error_line_not_blank line Herr).
    set (ts := _extract_timestamp line).
    pose proof (run_checks_records _ (check_galera_events_records line ts)) as Hg.
    pose proof (run_checks_records _ (categorize_error_records line ts)) as Hc.
    set (s1 := run_checks (_categorize_error line ts) (count_error s)) in *.
    set (s2 := if found "warning" line then count_warning s1 else s1).
    assert (H12 : error_count s2 = error_count s1 /\
                  forall b e, In e (events s1 b) -> In e (events s2 b)).
    { subst s2. destruct (found "warning" line); [apply count_warning_records|].
      split; [reflexivity | auto]. }
    destruct H12 as [E12 I12].
    destruct (Hg s2) as [Eg Ig]. destruct (Hc (count_error s)) as [Ec Ic].
    fold s1 in Ec, Ic.
    split; [|split].
    + rewrite Eg, E12, Ec. reflexivity.
    + intros b e H. apply Ig, I12, Ic. exact H.
    + intros _ Hdisk.
      assert (Hfirst :
        In (tagged "disk_full" (event_of line ts)) (events s1 critical_events) /\
        In (event_of line ts) (events s1 disk_issues)).
      { subst s1. unfold _categorize_error. cbv zeta. rewrite Hdisk.
        rewrite run_checks_cons.
        match goal with
        | |- context [run_checks ?cs (record_critical_if true ?b ?t ?e ?s0)] =>
            assert (Hrest : Forall only_records cs)
              by (repeat (apply List.Forall_cons;
                          [first [apply record_critical_if_records
                                 | apply record_if_records]|]);
                  constructor);
            destruct (run_checks_records cs Hrest
                        (record_critical_if true b t e s0)) as [_ Ir]
        end.
        split; apply Ir; unfold record_critical_if.
        - apply append_event_recorded.
        - apply (proj2 (append_event_records critical_events _ _)).
          apply append_event_recorded. }
      destruct Hfirst as [F1 F2]. split; apply Ig, I12; assumption.
  - destruct (str_eqb (strip line) "").
    + split; [lia|]. split; [auto | discriminate].
    + set (ts := _extract_timestamp line).
      pose proof (run_checks_records _ (check_galera_events_records line ts)) as Hg.
      set (s2 := if found "warning" line then count_warning s else s).
      assert (H12 : error_count s2 = error_count s /\
                    forall b e, In e (events s b) -> In e (events s2 b)).
      { subst s2. destruct (found "warning" line); [apply count_warning_records|].
        split; [reflexivity | auto]. }
      destruct H12 as [E12 I12]. destruct (Hg s2) as [Eg Ig].
      split; [rewrite Eg, E12; lia|]. split; [|discriminate].
      intros b e H. apply Ig, I12. exact H.
Qed.

(** the scan of the lines of a log *)
Lemma scan_spec (lines : list string) (s : LogSummary) :
  error_count (fold_left analyze_line lines s) =
    (error_count s + Z.of_nat (length (List.filter (found "error") lines)))%Z /\
  (forall b e, In e (events s b) ->
               In e (events (fold_left analyze_line lines s) b)) /\
  (forall line, In line lines ->
     found "error" line = true -> found "disk_full" line = true ->
     In (tagged "disk_full" (event_of line (_extract_timestamp line)))
        (events (fold_left analyze_line lines s) critical_events) /\
     In (event_of line (_extract_timestamp line))
        (events (fold_left analyze_line lines s) disk_issues)).
Proof.
  revert s. induction lines as [|l lines IH]; intros s.
  - simpl. split; [lia|]. split; [auto | intros ? []].
  - destruct (analyze_line_spec s l) as (E1 & I1 & D1).
    destruct (IH (analyze_line s l)) as (E2 & I2 & D2).
    cbn [fold_left]. split; [|split].
    + rewrite E2, E1. cbn [List.filter].
      destruct (found "error" l); cbn [length]; lia.
    + intros b e H. apply I2, I1, H.
    + intros line [<-|Hin] He Hd; [|now apply D2].
      destruct (D1 He Hd) as [F1 F2]. split; apply I2; assumption.
Qed.

(** the rules that turn the summary into findings only append *)
Lemma finding_appends sev cat ttl desc det :
  only_appends (finding sev cat ttl desc det).
Proof.
  intros acc. split; intros x H; simpl; [apply in_or_app; now left | exact H].
Qed.

Lemma recommend_appends prio cat ttl desc act imp eff :
  only_appends (recommend prio cat ttl desc act imp eff).
Proof.
  intros acc. split; intros x H; simpl; [exact H | apply in_or_app; now left].
Qed.

Lemma when_appends (cond : bool) (f : Acc -> Acc) :
  only_appends f -> only_appends (when cond f).
Proof.
  intros H acc. unfold when. destruct cond; [apply H | split; auto].
Qed.

Lemma generate_findings_append (s : LogSummary) (log_name : string) :
  Forall only_appends (_generate_findings s log_name).
Proof.
  unfold _generate_findings. cbv zeta.
  repeat (apply List.Forall_cons;
          [first [ apply finding_appends
                 | apply when_appends;
                   first [ apply finding_appends | apply recommend_appends
                         | intros acc; split; intros x H; simpl;
                           [exact H | apply in_or_app; now left] ] ]|]).
  constructor.
Qed.

Lemma run_checks_appends (cs : list (Acc -> Acc)) :
  Forall only_appends cs -> only_appends (run_checks cs).
Proof.
  induction 1 as [|c cs Hc _ IH]; [intros acc; split; auto|].
  intros acc. simpl. destruct (Hc acc) as [F1 R1].
  destruct (IH (c acc)) as [F2 R2]. split; auto.
Qed.

(** a summary with a disk issue gets the critical storage finding and the
    storage recommendation *)
Lemma disk_issue_reported (s : LogSummary) (log_name : string) (acc : Acc) :
  events s disk_issues <> [] ->
  let acc' := run_checks (_generate_findings s log_name) acc in
  (exists f, In f (findings acc') /\ severity f = CRITICAL /\ category f = STORAGE) /\
  (exists r, In r (recommendations acc') /\ priority r = 1%Z /\
             rec_category r = STORAGE /\ action r = [PStr disk_action]).
Proof.
  intros Hne. cbv zeta.
  assert (Hn : nonempty (events s disk_issues) = true)
    by (destruct (events s disk_issues); [congruence | reflexivity]).
  pose proof (generate_findings_append s log_name) as Hall.
  unfold _generate_findings in *. cbv zeta in *. rewrite Hn in *.
  pose proof (List.Forall_inv_tail (List.Forall_inv_tail Hall)) as Hall2.
  rewrite 2!run_checks_cons. unfold when at 1 2.
  match goal with
  | |- context [run_checks ?cs ?a0] =>
      destruct (run_checks_appends cs Hall2 a0) as [Fr Rr]
  end.
  split.
  - eexists. split; [apply Fr; simpl; apply in_or_app; right; now left|].
    split; reflexivity.
  - eexists. split; [apply Rr; simpl; apply in_or_app; right; now left|].
    repeat split.
Qed.

End ScanFacts.

Section C7.
Import Output Checks Props Inputs.
Import LogAnalyzer.



End C7.

(** ** Proxy load distribution *)

Section FloatOrder.
Import Props.

Lemma fle_refl_finite (a : pyfloat) : finite a -> fle a a = true.
Proof. intros [q ->]. simpl. apply Qle_bool_iff, Qle_refl. Qed.

Lemma fle_trans_finite (a b c : pyfloat) :
  finite a -> finite b -> finite c ->
  fle a b = true -> fle b c = true -> fle a c = true.
Proof.
  intros [x ->] [y ->] [z ->]. simpl. rewrite !Qle_bool_iff. apply Qle_trans.
Qed.

Lemma fgt_false_fle (a b : pyfloat) :
  finite a -> finite b -> fgt b a = false -> fle b a = true.
Proof.
  intros [x ->] [y ->]. unfold fgt. simpl. intros H.
  now apply negb_false_iff in H.
Qed.

Lemma fgt_true_fle (a b : pyfloat) :
  finite a -> finite b -> fgt b a = true -> fle a b = true.
Proof.
  intros [x ->] [y ->]. unfold fgt. simpl. intros H.
  apply negb_true_iff in H. apply Qle_bool_iff.
  destruct (Qlt_le_dec x y) as [L|L]; [now apply Qlt_le_weak|].
  apply Qle_bool_iff in L. congruence.
Qed.

Lemma flt_false_fle (a b : pyfloat) :
  finite a -> finite b -> flt b a = false -> fle a b = true.
Proof.
  intros [x ->] [y ->]. simpl. intros H. now apply negb_false_iff in H.
Qed.

Lemma flt_true_fle (a b : pyfloat) :
  finite a -> finite b -> flt b a = true -> fle b a = true.
Proof.
  intros [x ->] [y ->]. simpl. intros H.
  apply negb_true_iff in H. apply Qle_bool_iff.
  destruct (Qlt_le_dec y x) as [L|L]; [now apply Qlt_le_weak|].
  apply Qle_bool_iff in L. congruence.
Qed.

Lemma fold_fmax_spec (l : list pyfloat) (x : pyfloat) :
  finite x -> Forall finite l ->
  finite (fold_left MaxScale.fmax l x) /\
  In (fold_left MaxScale.fmax l x) (x :: l) /\
  forall p, In p (x :: l) -> fle p (fold_left MaxScale.fmax l x) = true.
Proof.
  intros Hx Hl. revert x Hx. induction Hl as [|a l Ha Hl IH]; intros x Hx.
  - simpl. split; [exact Hx|]. split; [now left|].
    intros p [<-|[]]. now apply fle_refl_finite.
  - cbn [fold_left].
    assert (Hm : finite (MaxScale.fmax x a))
      by (unfold MaxScale.fmax; now destruct (fgt a x)).
    destruct (IH _ Hm) as (Fm & Im & Bm).
    assert (Hxa : fle x (MaxScale.fmax x a) = true /\
                  fle a (MaxScale.fmax x a) = true).
    { unfold MaxScale.fmax. destruct (fgt a x) eqn:G.
      - split; [now apply fgt_true_fle | now apply fle_refl_finite].
      - split; [now apply fle_refl_finite | now apply fgt_false_fle]. }
    split; [exact Fm|]. split.
    + destruct Im as [E|Im].
      * rewrite <- E. unfold MaxScale.fmax.
        destruct (fgt a x); [right; now left | now left].
      * right. now right.
    + intros p [<-|[<-|Hp]].
      * apply (fle_trans_finite _ (MaxScale.fmax x a)); try assumption.
        -- tauto.
        -- apply Bm. now left.
      * apply (fle_trans_finite _ (MaxScale.fmax x a)); try assumption.
        -- tauto.
        -- apply Bm. now left.
      * apply Bm. now right.
Qed.

Lemma fold_fmin_spec (l : list pyfloat) (x : pyfloat) :
  finite x -> Forall finite l ->
  finite (fold_left MaxScale.fmin l x) /\
  In (fold_left MaxScale.fmin l x) (x :: l) /\
  forall p, In p (x :: l) -> fle (fold_left MaxScale.fmin l x) p = true.
Proof.
  intros Hx Hl. revert x Hx. induction Hl as [|a l Ha Hl IH]; intros x Hx.
  - simpl. split; [exact Hx|]. split; [now left|].
    intros p [<-|[]]. now apply fle_refl_finite.
  - cbn [fold_left].
    assert (Hm : finite (MaxScale.fmin x a))
      by (unfold MaxScale.fmin; now destruct (flt a x)).
    destruct (IH _ Hm) as (Fm & Im & Bm).
    assert (Hxa : fle (MaxScale.fmin x a) x = true /\
                  fle (MaxScale.fmin x a) a = true).
    { unfold MaxScale.fmin. destruct (flt a x) eqn:G.
      - split; [now apply flt_true_fle | now apply fle_refl_finite].
      - split; [now apply fle_refl_finite | now apply flt_false_fle]. }
    split; [exact Fm|]. split.
    + destruct Im as [E|Im].
      * rewrite <- E. unfold MaxScale.fmin.
        destruct (flt a x); [right; now left | now left].
      * right. now right.
    + intros p [<-|[<-|Hp]].
      * apply (fle_trans_finite _ (MaxScale.fmin x a)); try assumption.
        -- apply Bm. now left.
        -- tauto.
      * apply (fle_trans_finite _ (MaxScale.fmin x a)); try assumption.
        -- apply Bm. now left.
        -- tauto.
      * apply Bm. now right.
Qed.

End FloatOrder.

Section DistributionFacts.
Import Input Output Checks Props.

Lemma share_pct_spec (total : Z) (part : option Z) :
  MaxScale.share_pct total part =
    Ok (if (total >? 0)%Z && MaxScale.truthy_int part
        then Some (MaxScale.py_round
                     (FFin (inject_Z (MaxScale.or_zero part) / inject_Z total * 100)) 1)
        else None).
Proof.
  unfold MaxScale.share_pct.
  destruct ((total >? 0)%Z && MaxScale.truthy_int part) eqn:C; [|reflexivity].
  apply andb_true_iff in C as [Ht _].
  rewrite truediv_finite by lia. reflexivity.
Qed.

Lemma server_stats_spec (ms : MaxScaleConfig) (tc : Z) (server : MaxScaleServer) :
  exists cp,
    MaxScale.server_stats (total_queries ms) tc server = Ok (stats_of ms server cp).
Proof.
  unfold MaxScale.server_stats. rewrite !share_pct_spec. cbn [bind].
  eexists. reflexivity.
Qed.

Lemma stats_spec (ms : MaxScaleConfig) (tc : Z) (l : list MaxScaleServer) :
  exists stats,
    MaxScale.map_result (MaxScale.server_stats (total_queries ms) tc) l = Ok stats /\
    MaxScale.query_pcts stats =
      omap (fun server => if is_master server then None else query_share ms server) l.
Proof.
  induction l as [|srv l [stats [E Q]]]; [exists []; now split|].
  destruct (server_stats_spec ms tc srv) as [cp Hs].
  exists (stats_of ms srv cp :: stats). cbn [MaxScale.map_result].
  rewrite Hs, E. cbn [bind]. split; [reflexivity|].
  unfold MaxScale.query_pcts in *. cbn [omap list_omap]. rewrite Q.
  unfold MaxScale.not_master, is_master, stats_of. cbn.
  now destruct (contains "master" _).
Qed.

Lemma compared_shares_finite (ms : MaxScaleConfig) :
  Forall finite (compared_shares ms).
Proof.
  unfold compared_shares. induction (servers ms) as [|srv l IH]; [constructor|].
  cbn [omap list_omap]. destruct (is_master srv); [exact IH|].
  unfold query_share at 1.
  destruct (_ && _); [|exact IH]. constructor; [|exact IH].
  unfold MaxScale.py_round. eexists. reflexivity.
Qed.

Lemma deviation_of_ok (q : Z) (x : Q) :
  exists d, MaxScale.deviation_of q (FFin x) = Ok d.
Proof.
  unfold MaxScale.deviation_of. destruct (fgt (FFin x) (FFin 0)) eqn:G; [|eauto].
  destruct (fdiv_guarded
              (MaxScale.fabs (fsub (float_of_Z q) (FFin x))) (FFin x) G) as [r ->].
  simpl. eauto.
Qed.

(** the loop over the slaves: a finding and a recommendation for each
    slave that deviates, and nothing else *)
Lemma check_slave_loop (x : Q) (slaves : list (string * Z)) (acc : MaxScale.Acc) :
  exists acc' unb recs,
    for_each (MaxScale.check_slave (FFin x)) slaves acc = Ok acc' /\
    MaxScale.findings acc' = MaxScale.findings acc ++ unb /\
    MaxScale.recommendations acc' = MaxScale.recommendations acc ++ recs /\
    Forall (fun f => title f = MaxScale.unbalanced_title /\ severity f = WARNING) unb /\
    Forall (fun r => rec_title r = MaxScale.rebalance_title) recs /\
    length unb = length (List.filter (deviates (FFin x)) slaves) /\
    length recs = length (List.filter (deviates (FFin x)) slaves).
Proof.
  revert acc. induction slaves as [|[name q] slaves IH]; intros acc.
  - exists acc, [], []. rewrite !app_nil_r. repeat split; constructor.
  - cbn [for_each List.filter].
    destruct (deviation_of_ok q x) as [d Hd].
    assert (Hdev : deviates (FFin x) (name, q) = fgt d (FFin 30))
      by (unfold deviates; cbn [snd]; now rewrite Hd).
    rewrite Hdev. unfold MaxScale.check_slave at 1. rewrite Hd. cbn [bind].
    destruct (fgt d (FFin 30)).
    + cbn [int_of_float bind].
      match goal with
      | |- context [for_each _ slaves ?a] =>
          destruct (IH a) as (acc' & unb & recs & E & F & R & Fu & Fr & Lu & Lr)
      end.
      cbn [MaxScale.findings MaxScale.recommendations] in F, R.
      rewrite <- app_assoc in F, R.
      eexists acc', _, _. split; [exact E|]. split; [exact F|]. split; [exact R|].
      split; [constructor; [split; reflexivity | exact Fu]|].
      split; [constructor; [reflexivity | exact Fr]|].
      cbn [length app]. split; congruence.
    + destruct (IH acc) as (acc' & unb & recs & E & F & R & Fu & Fr & Lu & Lr).
      exists acc', unb, recs. repeat split; assumption.
Qed.

(** the loop over the servers that are running without queries *)
Lemma check_no_queries_loop (l : list MaxScaleServer) (acc : MaxScale.Acc) :
  exists acc' noq,
    for_each MaxScale.check_no_queries l acc = Ok acc' /\
    MaxScale.findings acc' = MaxScale.findings acc ++ noq /\
    MaxScale.recommendations acc' = MaxScale.recommendations acc /\
    Forall (fun f => title f = [PStr "Server receiving no queries"]) noq.
Proof.
  revert acc. induction l as [|srv l IH]; intros acc.
  - exists acc, []. rewrite app_nil_r. repeat split; constructor.
  - cbn [for_each].
    assert (Hstep :
      MaxScale.check_no_queries acc srv = Ok acc \/
      MaxScale.check_no_queries acc srv =
        Ok {| MaxScale.findings :=
                MaxScale.findings acc ++ [MaxScale.no_queries_finding srv];
              MaxScale.recommendations := MaxScale.recommendations acc |}).
    { unfold MaxScale.check_no_queries.
      destruct (state srv) as [st|]; [|now left].
      destruct (queries srv) as [[| |]|]; try now left.
      destruct (_ && _); [now right | now left]. }
    destruct Hstep as [-> | ->]; cbn [bind].
    + apply IH.
    + match goal with
      | |- context [for_each _ l ?a] =>
          destruct (IH a) as (acc' & noq & E & F & R & Fn)
      end.
      cbn [MaxScale.findings MaxScale.recommendations] in F, R.
      rewrite <- app_assoc in F.
      eexists acc', _. split; [exact E|]. split; [exact F|]. split; [exact R|].
      constructor; [reflexivity | exact Fn].
Qed.

End DistributionFacts.

Section C9.
Import Input Output Checks Props Inputs.




End C9.
